(** * dave: scenario-to-artifact compilation, embedded and verified

    A shallow embedding of the Python automation scripts of the dave
    co-simulation ([class_simulation.py], [createODMatrixFile.py],
    [createSUMOConfigFile.py], [createAdditionalFile.py],
    [createOmnetppFile.py]) together with the properties of its
    natural-language specification.

    Conventions of the embedding:
    - a Python [float] is an IEEE-754 binary64 value ([spec_float] with
      precision 53 and maximal exponent 1024), computed with the
      correctly rounded operations of the Standard Library;
    - a [datetime.timedelta] is its number of microseconds, a [datetime]
      the number of microseconds since the midnight that starts ordinal
      day 0 of the proleptic Gregorian calendar;
    - the duration of a scenario is a [pandas.Timedelta], as it comes
      out of the table of [main.py]: a number of nanoseconds, with the
      arithmetic of pandas 2 (a quotient goes through binary64 and is
      cut to whole nanoseconds, [total_seconds] and the addition to a
      [datetime] see the whole microseconds only);
    - a [pathlib.Path] is its list of components, the file system a
      finite map from paths to nodes, on a POSIX system without links.
      The map interprets no component: a path stands for the file it
      names as long as it is resolved (steps up [..] at its head only,
      then plain names: one component each, neither [.] nor [..]) and
      does not come back by name into a directory that it has left.
      The properties that compare paths assume plain names of the
      scenario (its identifier, its traffic directory, its network);
    - a text file holds its decoded text; reading in text mode
      translates the line ends;
    - code that can raise returns in a state-and-exception monad over
      the file system. *)

From Stdlib Require Import ZArith String Ascii List Lia Bool.
From Stdlib Require Import QArith Qabs.
From Stdlib Require Import DecimalString.
From Stdlib Require DecimalZ.
From Stdlib Require Import Floats.SpecFloat.
From stdpp Require Import gmap strings list fin_maps.

Local Open Scope string_scope.
Local Open Scope list_scope.
Local Open Scope Z_scope.

(* ===================================================================== *)
(** * Python values *)
(* ===================================================================== *)

(** ** Text *)

Module Text.

(** [str(n)] for an integer. *)
Definition str_Z (z : Z) : string := NilEmpty.string_of_int (Z.to_int z).

(** The format [{n:02d}] for a non-negative integer: at least two
    digits, padded with a zero on the left. *)
Definition fmt_02d (z : Z) : string :=
  let s := str_Z z in
  if (String.length s <? 2)%nat then "0" +:+ s else s.

(** [sep.join(l)]. *)
Fixpoint join (sep : string) (l : list string) : string :=
  match l with
  | [] => ""
  | [s] => s
  | s :: rest => s +:+ sep +:+ join sep rest
  end.

(** [''.join(l)]. *)
Definition concat_all (l : list string) : string := fold_right String.append "" l.

(** [s.startswith(p)]. *)
Fixpoint starts_with (p s : string) : bool :=
  match p, s with
  | EmptyString, _ => true
  | String a p', String b s' => if Ascii.eqb a b then starts_with p' s' else false
  | String _ _, EmptyString => false
  end.

(** [s] without its first [n] characters. *)
Fixpoint drop_chars (n : nat) (s : string) : string :=
  match n, s with
  | O, _ => s
  | S n', String _ s' => drop_chars n' s'
  | S _, EmptyString => EmptyString
  end.

(** [old in s]. *)
Fixpoint contains (old s : string) : bool :=
  starts_with old s ||
  match s with
  | EmptyString => false
  | String _ s' => contains old s'
  end.

(** [s.replace(old, new)] for a non-empty [old]: the occurrences of
    [old] are replaced from left to right, without overlap.  [skip]
    counts the characters of a match that are still to be dropped. *)
Fixpoint replace_go (old new : string) (skip : nat) (s : string) : string :=
  match s with
  | EmptyString => EmptyString
  | String c s' =>
      match skip with
      | S k => replace_go old new k s'
      | O =>
          if starts_with old s
          then new +:+ replace_go old new (Nat.pred (String.length old)) s'
          else String c (replace_go old new O s')
      end
  end.

Definition replace (old new s : string) : string := replace_go old new O s.

Definition CR : ascii := "013"%char.
Definition LF : ascii := "010"%char.

(** What a file opened in text mode hands out (universal newlines):
    every [CR LF] and every other [CR] has become one [LF]. *)
Fixpoint universal_newlines (s : string) : string :=
  match s with
  | EmptyString => EmptyString
  | String c s' =>
      if Ascii.eqb c CR then
        String LF match s' with
                  | String c' s'' => if Ascii.eqb c' LF then universal_newlines s''
                                     else universal_newlines s'
                  | EmptyString => EmptyString
                  end
      else String c (universal_newlines s')
  end.

(** Neither [/] nor the zero character occurs. *)
Fixpoint no_separator (s : string) : bool :=
  match s with
  | EmptyString => true
  | String c s' => negb (Ascii.eqb c "/") && negb (Ascii.eqb c "000") && no_separator s'
  end.

End Text.

(** ** Floating point *)

Module Float.

Definition prec : Z := 53.
Definition emax : Z := 1024.

Abbreviation float := spec_float.

Definition add : float -> float -> float := SFadd prec emax.
Definition mul : float -> float -> float := SFmul prec emax.
Definition div : float -> float -> float := SFdiv prec emax.
Definition neg : float -> float := SFopp.

(** [float(z)]: the binary64 value nearest to the integer [z]. *)
Definition of_Z (z : Z) : float := binary_normalize prec emax z 0 false.

(** An integer as an unrounded significand with exponent 0. *)
Definition raw (z : Z) : float :=
  match z with
  | Z0 => S754_zero false
  | Zpos p => S754_finite false p 0
  | Zneg p => S754_finite true p 0
  end.

(** [a / b] on two Python integers: the correctly rounded quotient
    of the exact integers. *)
Definition truediv_Z (a b : Z) : float := div (raw a) (raw b).

(** The literal [m * 10^-k], as in [0.55 = dec 55 2]. *)
Definition dec (m : Z) (k : nat) : float := truediv_Z m (10 ^ Z.of_nat k).

(** [int(x)]: truncation toward zero; [None] where Python raises
    (infinities and NaN). *)
Definition trunc (x : float) : option Z :=
  match x with
  | S754_zero _ => Some 0
  | S754_finite s m e =>
      Some (cond_Zopp s (if 0 <=? e then Z.pos m * 2 ^ e else Z.pos m / 2 ^ (- e)))
  | _ => None
  end.

(** Round-half-even of the exact quotient [num / den], [den > 0]. *)
Definition round_half_even (num den : Z) : Z :=
  let q := num / den in
  let r := num mod den in
  if (den <? 2 * r) || ((2 * r =? den) && Z.odd q) then q + 1 else q.

(** A non-negative integer in at least [k] digits, zeros on the left. *)
Definition zero_pad (k : nat) (z : Z) : string :=
  let s := Text.str_Z z in
  Text.concat_all (repeat "0" (k - String.length s)) +:+ s.

(** [x * 10^k] rounded to an integer, ties to even, for a finite
    significand [m] and exponent [e]. *)
Definition scaled (k : nat) (m : positive) (e : Z) : Z :=
  if 0 <=? e then Z.pos m * 2 ^ e * 10 ^ Z.of_nat k
  else round_half_even (Z.pos m * 10 ^ Z.of_nat k) (2 ^ (- e)).

(** A non-negative number [n] of units [10^-k], with [k > 0]
    decimals. *)
Definition fixed (k : nat) (n : Z) : string :=
  Text.str_Z (n / 10 ^ Z.of_nat k) +:+ "." +:+ zero_pad k (n mod 10 ^ Z.of_nat k).

(** The format [{x:0.kf}] for [k > 0]: the exact binary value
    rounded to [k] decimals, ties to even. *)
Definition fmt_f (k : nat) (x : float) : string :=
  match x with
  | S754_nan => "nan"
  | S754_infinity s => if s then "-inf" else "inf"
  | S754_zero s => (if s then "-" else "") +:+ fixed k 0
  | S754_finite s m e => (if s then "-" else "") +:+ fixed k (scaled k m e)
  end.

(** The format [{x:0.2f}]. *)
Definition fmt_2f (x : float) : string := fmt_f 2 x.

End Float.

Abbreviation float := spec_float.

(** ** Durations and instants *)

Module Time.

(** A [datetime.timedelta], in microseconds. *)
Definition timedelta : Type := Z.

(** A [datetime], in microseconds since the start of ordinal day 0. *)
Definition datetime : Type := Z.

Definition SECOND : Z := 1000000.
Definition MINUTE : Z := 60 * SECOND.
Definition HOUR : Z := 60 * MINUTE.
Definition DAY : Z := 24 * HOUR.

(** [date.max.toordinal()]. *)
Definition MAXORDINAL : Z := 3652059.

Definition seconds (s : Z) : timedelta := s * SECOND.

(** [td.total_seconds()] of a [datetime.timedelta]. *)
Definition total_seconds (td : timedelta) : float := Float.truediv_Z td (10 ^ 6).

Definition valid_datetime (t : datetime) : bool :=
  (DAY <=? t) && (t <? (MAXORDINAL + 1) * DAY).

(** [t + td]; [None] is [OverflowError] (the date leaves the years
    1 to 9999). *)
Definition dt_add (t : datetime) (td : timedelta) : option datetime :=
  if valid_datetime (t + td) then Some (t + td) else None.

(** [datetime.combine(d, time(0, 0, 0))] for the date of ordinal [d]. *)
Definition midnight (d : Z) : datetime := d * DAY.

(** [t.time()]: the time of day, the date dropped. *)
Definition time_of_day (t : datetime) : Z := t mod DAY.

Definition hour (t : datetime) : Z := time_of_day t / HOUR.
Definition minute (t : datetime) : Z := (time_of_day t / MINUTE) mod 60.

(** [f"{t.hour:02d}.{t.minute:02d}"]. *)
Definition fmt_hh_mm (t : datetime) : string :=
  Text.fmt_02d (hour t) +:+ "." +:+ Text.fmt_02d (minute t).

End Time.

(* ===================================================================== *)
(** * The file system and the monad of the scripts *)
(* ===================================================================== *)

(** A [pathlib.Path], as its components. *)
Definition path : Type := list string.

(** A name that is one component of a path: not empty, neither [.]
    nor [..], without separator. *)
Definition plain_name (name : string) : bool :=
  negb (String.eqb name "") && negb (String.eqb name ".") && negb (String.eqb name "..")
  && Text.no_separator name.

(** [p / name] for a plain name ([pathlib] splits any other name at
    its separators, and the operating system resolves [..]). *)
Definition child (p : path) (name : string) : path := p ++ [name].

Infix "//" := child (at level 40, left associativity).

(** [p.parent]. *)
Definition parent (p : path) : path := removelast p.

(** [str(p)]. *)
Definition str_path (p : path) : string :=
  match p with
  | [] => "."
  | _ => Text.join "/" p
  end.

(** [Path.relative_to(p, base)]; [None] is [ValueError]. *)
Fixpoint relative_to (p base : path) : option path :=
  match base, p with
  | [], _ => Some p
  | b :: base', c :: p' => if String.eqb b c then relative_to p' base' else None
  | _ :: _, [] => None
  end.

Inductive node : Type :=
  | File (content : string)
  | Dir.

Abbreviation FS := (gmap path node).

Inductive exn : Type :=
  | TypeError
  | ValueError
  | OverflowError
  | ZeroDivisionError
  | FileNotFoundError
  | IsADirectoryError
  | NotADirectoryError
  | ParserError.

Inductive outcome (A : Type) : Type :=
  | Ok (a : A)
  | Raise (e : exn).

Arguments Ok {A} a.
Arguments Raise {A} e.

(** A computation reads and updates the file system, and returns or
    raises. *)
Definition M (A : Type) : Type := FS -> outcome A * FS.

Definition ret {A} (a : A) : M A := fun fs => (Ok a, fs).

Definition raise {A} (e : exn) : M A := fun fs => (Raise e, fs).

Definition bind {A B} (c : M A) (k : A -> M B) : M B :=
  fun fs =>
    match c fs with
    | (Ok a, fs') => k a fs'
    | (Raise e, fs') => (Raise e, fs')
    end.

Declare Scope py_scope.
Delimit Scope py_scope with py.

Notation "'let*' x ':=' c 'in' k" := (bind c (fun x => k))
  (at level 10, x name, c at level 100, k at level 200) : py_scope.
Notation "c ';;' k" := (bind c (fun _ => k))
  (at level 100, k at level 200, right associativity) : py_scope.

Local Open Scope py_scope.

(** A pure step that raises [e] where the Python expression raises. *)
Definition lift {A} (e : exn) (o : option A) : M A :=
  match o with
  | Some a => ret a
  | None => raise e
  end.

Definition of_outcome {A} (o : outcome A) : M A := fun fs => (o, fs).

(** A [for] loop that collects one result per element. *)
Fixpoint for_each {A B} (f : A -> M B) (l : list A) : M (list B) :=
  match l with
  | [] => ret []
  | a :: rest =>
      let* b := f a in
      let* bs := for_each f rest in
      ret (b :: bs)
  end.

(** [list(enumerate(l))], counting from [i]. *)
Fixpoint enumerate_from {A} (i : nat) (l : list A) : list (nat * A) :=
  match l with
  | [] => []
  | a :: rest => (i, a) :: enumerate_from (S i) rest
  end.

Definition enumerate {A} (l : list A) : list (nat * A) := enumerate_from 0 l.

Module Fs.

Definition is_file (fs : FS) (p : path) : bool :=
  match fs !! p with
  | Some (File _) => true
  | _ => false
  end.

Definition is_dir (fs : FS) (p : path) : bool :=
  match fs !! p with
  | Some Dir => true
  | _ => false
  end.

(** [p.resolve(strict=True)], used by the scripts as an existence
    check: the resolved path itself is discarded. *)
Definition resolve_strict (p : path) : M unit :=
  fun fs =>
    match fs !! p with
    | Some _ => (Ok tt, fs)
    | None => (Raise FileNotFoundError, fs)
    end.

(** [with open(p, newline='') as f: f.read()]: the text as the file
    holds it. *)
Definition read_raw (p : path) : M string :=
  fun fs =>
    match fs !! p with
    | Some (File c) => (Ok c, fs)
    | Some Dir => (Raise IsADirectoryError, fs)
    | None => (Raise FileNotFoundError, fs)
    end.

(** [with open(p, 'r') as f: f.read()]: text mode translates the
    line ends. *)
Definition read_text (p : path) : M string :=
  fun fs =>
    match fs !! p with
    | Some (File c) => (Ok (Text.universal_newlines c), fs)
    | Some Dir => (Raise IsADirectoryError, fs)
    | None => (Raise FileNotFoundError, fs)
    end.

(** [with open(p, 'w') as f: f.write(c)]: the file is created or
    replaced; its directory has to exist. *)
Definition write_text (p : path) (c : string) : M unit :=
  fun fs =>
    match fs !! p with
    | Some Dir => (Raise IsADirectoryError, fs)
    | _ =>
        match fs !! parent p with
        | Some Dir => (Ok tt, <[p := File c]> fs)
        | Some (File _) => (Raise NotADirectoryError, fs)
        | None => (Raise FileNotFoundError, fs)
        end
    end.

(** [os.remove(p)] on a file. *)
Definition remove (p : path) (fs : FS) : FS := delete p fs.

(** [shutil.rmtree(p)] on a directory: the directory and everything
    below it. *)
Definition rmtree (p : path) (fs : FS) : FS :=
  filter (fun kv => ~ p `prefix_of` kv.1) fs.

End Fs.

(** [int(x)]. *)
Definition py_int (x : float) : outcome Z :=
  match Float.trunc x with
  | Some z => Ok z
  | None => match x with S754_nan => Raise ValueError | _ => Raise OverflowError end
  end.

(** ** The duration of a scenario *)

Module Pd.

(** A [pandas.Timedelta], in nanoseconds. *)
Definition Timedelta : Type := Z.

(** What [main.py] makes of [timedelta(seconds=s)] when it stores it
    in a column of the table. *)
Definition seconds (s : Z) : Timedelta := s * 10 ^ 9.

(** The value fits the 64 bits of a [Timedelta]. *)
Definition int64 (z : Z) : outcome Z :=
  if (- 2 ^ 63 <=? z) && (z <? 2 ^ 63) then Ok z else Raise OverflowError.

(** [td / n] for an integer [n]: the nanoseconds are divided as
    Python numbers, which gives a float, and the quotient is cast
    back to a 64-bit integer, which cuts its fraction. *)
Definition td_truediv (td : Timedelta) (n : Z) : outcome Timedelta :=
  if n =? 0 then Raise ZeroDivisionError
  else match py_int (Float.truediv_Z td n) with
       | Ok q => int64 q
       | Raise e => Raise e
       end.

(** [td * n] for an integer [n]. *)
Definition td_mul (td : Timedelta) (n : Z) : outcome Timedelta := int64 (td * n).

(** The [datetime.timedelta] that a [Timedelta] is as an instance of
    its base class, and that [datetime + td] adds: the whole
    microseconds. *)
Definition to_pytimedelta (td : Timedelta) : Time.timedelta := td / 1000.

(** [td.total_seconds()]:
    [self.days * 24 * 3600 + self.seconds + self.microseconds / 1_000_000]:
    the whole seconds as an integer plus the float of the remaining
    whole microseconds; the nanoseconds below do not count. *)
Definition total_seconds (td : Timedelta) : float :=
  Float.add (Float.of_Z (td / 10 ^ 9))
            (Float.truediv_Z ((td mod 10 ^ 9) / 1000) (10 ^ 6)).

End Pd.

(* ===================================================================== *)
(** * class_simulation.py: the scenario and its paths *)
(* ===================================================================== *)

Definition TAB : string := String "009"%char "".
Definition NL : string := String "010"%char "".
Definition QUOTE : string := String "034"%char "".

(** The attributes that [Simulation.__init__] takes from one row of the
    batch description and from its two path arguments. *)
Record Simulation : Type := {
  sim_id : string;
  _net : string;
  _traffic : string;
  _obstruction : bool;
  _duration : Pd.Timedelta;
  _qsv_sequence : list ascii;
  _v2x_rate : float;
  _tau : float;
  _num_repeat : Z;
  _use_tls : bool;
  _path_to_simulation : path;
  path_to_results : path
}.

Section Paths.

Variable self : Simulation.

Definition _path_to_sumo : path := _path_to_simulation self // "sumo".
Definition _path_to_additional : path := _path_to_sumo // "additional".
Definition _path_to_traffic : path := _path_to_sumo // "traffic" // _traffic self.
Definition _path_to_routes : path := _path_to_sumo // "routes" // sim_id self.
Definition _path_to_config : path := _path_to_sumo // "config".

Definition _path_to_results : path :=
  _path_to_simulation self ++ path_to_results self ++ [sim_id self].
Definition _path_to_results_sumo : path :=
  _path_to_sumo ++ [".."] ++ path_to_results self ++ [sim_id self; "sumo"].
Definition _path_to_results_omnet : path := _path_to_results // "omnet".
Definition _path_to_results_dave : path := _path_to_results // "dave".
Definition _path_to_results_config : path := _path_to_results // "config".

Definition _path_to_sumo_config_file : path :=
  _path_to_sumo // "config" // (sim_id self +:+ ".sumocfg").
Definition _path_to_net_file : path := _path_to_sumo // "net" // _net self.
Definition _path_to_additional_file : path :=
  _path_to_additional // (sim_id self +:+ "_additional.add.xml").
Definition _path_to_poly_file : path := _path_to_sumo // "net" // "dave.poly.add.xml".
Definition _path_to_taz_file : path := _path_to_traffic // "taz.xml".
Definition _path_to_detector_config : path := _path_to_traffic // "detector_config.csv".
Definition _path_to_fcd_output_file : path := _path_to_results_sumo // "fcd.out.xml".
Definition _path_to_edge_dump_file : path := _path_to_results_sumo // "edge_dump.out.xml".

Definition _path_to_vtypes_ref : path := _path_to_additional // "vtypes.add.xml".
Definition _path_to_vtypes : path :=
  _path_to_additional // (sim_id self +:+ "_vtypes.add.xml").
Definition _path_to_gui_view_file : path := _path_to_additional // "view.add.xml".
Definition _path_to_obstruction_trips_file : path :=
  _path_to_traffic // "obstruction.trips.xml".
Definition _path_to_odroute_file : path :=
  _path_to_routes // (sim_id self +:+ "_od_routes.rou.xml").

Definition _path_to_services_file : path :=
  _path_to_simulation self // (sim_id self +:+ "_services.xml").
Definition _path_to_omnetpp_file : path := [sim_id self +:+ "_omnetpp.ini"].
Definition _path_to_omnetpp_file_long : path :=
  _path_to_simulation self // (sim_id self +:+ "_omnetpp.ini").
Definition _path_to_rsu_config : path := _path_to_traffic // "rsu_config.csv".

(** The copy of the scenario row that [__save_configs] archives. *)
Definition _path_to_sim_config_copy : path := _path_to_results_config // "sim_config.csv".

End Paths.

(** The two pairs of simulation and results directories of [main.py]. *)
Definition main_paths : list (path * path) :=
  [ ([".."; "artery"; "scenarios"; "dave"], [".."; ".."; ".."; "results"]);
    ([".."; "dave"], [".."; "results"]) ].

(** ** Class attributes *)

Definition radius_rsu : Z := 600.

Definition _sumo_action_step_length : Time.timedelta := 1000 * 1000.
Definition _sumo_step_length : Time.timedelta := 100 * 1000.
Definition _sumo_fcd_output_interval : Time.timedelta := 100 * 1000.
Definition _sumo_edge_dump_interval : Time.timedelta := Time.seconds 60.
Definition _sumo_max_depart_delay : Time.timedelta := Time.seconds 1.

(** [dict_traffic_types.items()], in the order of the literal. *)
Definition dict_traffic_types : list (string * Z) := [("miv", 5); ("sv", 9)].

(** A literal with two decimals, [0.55 = lit2 55]. *)
Definition lit2 (m : Z) : float := Float.dec m 2.

(** The items of [dict_qsv_x]: the bounds of every congestion code. *)
Definition qsv_items : list (ascii * list float) :=
  [ ("a"%char, [lit2 0; lit2 30]);
    ("b"%char, [lit2 30; lit2 55]);
    ("c"%char, [lit2 55; lit2 75]);
    ("d"%char, [lit2 75; lit2 90]);
    ("e"%char, [lit2 90; lit2 100]);
    ("f"%char, [lit2 100; lit2 115]);
    ("g"%char, [lit2 100; lit2 100]);
    ("h"%char, [lit2 10; lit2 10]);
    ("i"%char, [lit2 20; lit2 20]);
    ("j"%char, [lit2 30; lit2 30]);
    ("k"%char, [lit2 40; lit2 40]);
    ("l"%char, [lit2 50; lit2 50]);
    ("m"%char, [lit2 60; lit2 60]);
    ("n"%char, [lit2 70; lit2 70]);
    ("o"%char, [lit2 80; lit2 80]);
    ("p"%char, [lit2 85; lit2 85]);
    ("q"%char, [lit2 90; lit2 90]);
    ("r"%char, [lit2 95; lit2 95]);
    ("s"%char, [lit2 100; lit2 100]);
    ("t"%char, [lit2 105; lit2 105]);
    ("u"%char, [lit2 110; lit2 110]);
    ("v"%char, [lit2 120; lit2 120]);
    ("w"%char, [lit2 130; lit2 130]);
    ("x"%char, [lit2 140; lit2 140]);
    ("y"%char, [lit2 150; lit2 150]);
    ("z"%char, [lit2 160; lit2 160]);
    ("1"%char, [lit2 170; lit2 170]);
    ("2"%char, [lit2 180; lit2 180]);
    ("3"%char, [lit2 190; lit2 190]) ].

(** [dict_qsv_x[qsv]]; [None] when [qsv not in dict_qsv_x.keys()]. *)
Fixpoint assoc {A} (k : ascii) (l : list (ascii * A)) : option A :=
  match l with
  | [] => None
  | (k', v) :: rest => if Ascii.eqb k k' then Some v else assoc k rest
  end.

Definition dict_qsv_x (qsv : ascii) : option (list float) := assoc qsv qsv_items.

(** [sum(l)]: the additions start from the integer 0. *)
Definition py_sum (l : list float) : float := fold_left Float.add l (Float.of_Z 0).

(** [x / n] for a float and an integer; [None] is [ZeroDivisionError]. *)
Definition py_truediv (x : float) (n : Z) : option float :=
  if n =? 0 then None else Some (Float.div x (Float.of_Z n)).

(* ===================================================================== *)
(** * The scripts *)
(* ===================================================================== *)

(** One row of the demand-source table ([from], [to], [num]), the two
    zone columns as they print. *)
Record od_row : Type := {
  od_from : string;
  od_to : string;
  od_num : Z
}.

(** What [sumolib.net.readNet] returns, as far as the scripts use it. *)
Record Net : Type := {
  getBoundary : float * float * float * float;
  getLocationOffset : float * float;
  (** [convertLonLat2XY(lon, lat, rawUTM=True)] *)
  convertLonLat2XY : float -> float -> float * float
}.

(** A derived time segment: what one pass of the loop over the
    congestion codes computes before it emits the demand matrix. *)
Record TimeSegment : Type := {
  seg_idx : nat;
  seg_qsv : ascii;
  seg_factor : float;
  seg_start : Time.datetime;
  seg_duration : Pd.Timedelta
}.

Section Scripts.

(** ** External collaborators *)

(** [date.today().toordinal()]. *)
Variable today : Z.

(** [str(x)] of a float, as [format] inserts it. *)
Variable float_str : float -> string.

(** [pd.read_csv(f, sep=';')] on the text of a demand-source table,
    as the rows that [iterrows] yields. *)
Variable read_csv : string -> outcome (list od_row).

(** [os.system(cmd)]: the exit status and the effect of the external
    tool on the file system. *)
Variable os_system : string -> FS -> Z * FS.

(** [sumolib.net.readNet(path)]. *)
Variable readNet : string -> FS -> outcome Net.

Definition system (cmd : string) : M Z :=
  fun fs => let '(status, fs') := os_system cmd fs in (Ok status, fs').

(** ** createODMatrixFile.py *)

Definition od_matrix_duration : Z := 3600.

(** [time_factor = duration.total_seconds() / od_matrix_duration]. *)
Definition time_factor (duration : Pd.Timedelta) : float :=
  Float.div (Pd.total_seconds duration) (Float.of_Z od_matrix_duration).

(** [int(row['num'] * time_factor)]. *)
Definition od_count (num : Z) (time_factor : float) : outcome Z :=
  py_int (Float.mul (Float.of_Z num) time_factor).

Definition front_text (traffic_factor : float) (vtype : Z)
    (start_time end_time : Time.datetime) : string :=
  "$OM;D2" +:+ NL +:+
  "*vehicle type" +:+ NL +:+
  Text.str_Z vtype +:+ NL +:+
  "*from-time to-time" +:+ NL +:+
  Time.fmt_hh_mm start_time +:+ TAB +:+ Time.fmt_hh_mm end_time +:+ NL +:+
  "*factor" +:+ NL +:+ Float.fmt_2f traffic_factor +:+ NL +:+ NL.

Definition str_matrix_line (row : od_row) (count : Z) : string :=
  TAB +:+ " " +:+ od_from row +:+ " " +:+
  TAB +:+ " " +:+ od_to row +:+ " " +:+
  TAB +:+ " " +:+ Text.str_Z count +:+ NL.

Definition create_od_matrix_file
    (od_matrix_file_csv : path) (traffic_factor : float) (vtype : Z)
    (output_file_name : path) (start_time : Time.datetime)
    (duration : Pd.Timedelta) : M unit :=
  let* end_time :=
    lift OverflowError (Time.dt_add start_time (Pd.to_pytimedelta duration)) in
  Fs.resolve_strict od_matrix_file_csv ;;
  let* text := Fs.read_raw od_matrix_file_csv in
  let* od_matrix := of_outcome (read_csv text) in
  let time_factor := time_factor duration in
  let front_text := front_text traffic_factor vtype start_time end_time in
  let* list_od_matrix :=
    for_each (fun row =>
                let* count := of_outcome (od_count (od_num row) time_factor) in
                ret (str_matrix_line row count))
             od_matrix in
  let str_od_matrix := Text.concat_all list_od_matrix in
  Fs.write_text output_file_name (front_text +:+ str_od_matrix).

(** ** createAdditionalFile.py *)

Definition create_additional_file
    (path_to_sumo path_to_additional_file path_to_edge_dump_file : path)
    (sumo_edge_dump_interval : Time.timedelta) : M unit :=
  let* rel := lift ValueError (relative_to path_to_edge_dump_file path_to_sumo) in
  let rel_path_to_edge_dump_file := ".." :: rel in
  let str_edge_dump :=
    TAB +:+ "<edgeData id=" +:+ QUOTE +:+ "mesurement" +:+ QUOTE +:+
    " freq=" +:+ QUOTE +:+ float_str (Time.total_seconds sumo_edge_dump_interval) +:+ QUOTE +:+
    " vTypes=" +:+ QUOTE +:+ "5 9" +:+ QUOTE +:+
    " file=" +:+ QUOTE +:+ str_path rel_path_to_edge_dump_file +:+ QUOTE +:+
    " excludeEmpty=" +:+ QUOTE +:+ "true" +:+ QUOTE +:+ "/>" +:+ NL in
  let str_additional :=
    ("<additional>" +:+ NL +:+ NL) +:+ str_edge_dump +:+ (NL +:+ "</additional>" +:+ NL) in
  Fs.write_text path_to_additional_file str_additional.

(** ** class_simulation.py: customize_vtype_file *)

Definition old_string : string := "tau=" +:+ QUOTE +:+ "1.0" +:+ QUOTE.

Definition customize_vtype_file
    (path_to_vtypes_ref path_to_vtypes_new : path) (tau : float) : M unit :=
  let* file_content := Fs.read_text path_to_vtypes_ref in
  let new_string := "tau=" +:+ QUOTE +:+ float_str tau +:+ QUOTE in
  let new_content := Text.replace old_string new_string file_content in
  Fs.write_text path_to_vtypes_new new_content.

(** ** createSUMOConfigFile.py *)

(** [f('..' / Path.relative_to(p, path_to_sumo))]. *)
Definition rel_to_sumo (path_to_sumo p : path) : M path :=
  let* rel := lift ValueError (relative_to p path_to_sumo) in
  ret (".." :: rel).

Definition value_line (name value : string) : string :=
  TAB +:+ TAB +:+ "<" +:+ name +:+ " value = " +:+ QUOTE +:+ value +:+ QUOTE +:+ "/>" +:+ NL.

Definition str_bool (b : bool) : string := if b then "True" else "False".

Definition create_sumo_config_file
    (path_to_sumo path_to_net_file : path) (list_path_to_trip_files : list path)
    (sumo_start_time : Z) (sumo_duration : Pd.Timedelta)
    (sumo_step_length sumo_action_step_length
     sumo_max_depart_delay sumo_fcd_output_interval : Time.timedelta)
    (sumo_use_tls : bool)
    (path_to_sumo_config_file path_to_fcd_output_file path_to_additional_file
     path_to_taz_file path_to_vtypes_file path_to_gui_view path_to_poly_file : path)
    : M unit :=
  let* rel_path_to_net_file := rel_to_sumo path_to_sumo path_to_net_file in
  let* rel_path_to_route_file_list :=
    for_each (rel_to_sumo path_to_sumo) list_path_to_trip_files in
  let* rel_path_to_fcd_output_file := rel_to_sumo path_to_sumo path_to_fcd_output_file in
  let* rel_path_to_taz_file := rel_to_sumo path_to_sumo path_to_taz_file in
  let* rel_path_to_vtypes_file := rel_to_sumo path_to_sumo path_to_vtypes_file in
  let* rel_path_to_gui_view_file := rel_to_sumo path_to_sumo path_to_gui_view in
  let* rel_path_to_poly_file := rel_to_sumo path_to_sumo path_to_poly_file in
  let* rel_path_to_additional_file := rel_to_sumo path_to_sumo path_to_additional_file in
  let t_start := sumo_start_time in
  let t_start_in_seconds :=
    (Time.hour t_start * 60 + Time.minute t_start) * 60
    + (Time.time_of_day t_start / Time.SECOND) mod 60 in
  let* whole_seconds := of_outcome (py_int (Pd.total_seconds sumo_duration)) in
  let t_end := t_start_in_seconds + whole_seconds in
  let str_traffic := Text.join ", " (map str_path rel_path_to_route_file_list) in
  let str_input_net := value_line "net-file" (str_path rel_path_to_net_file) in
  let str_input_route := value_line "route-files" str_traffic in
  let str_time_begin := value_line "begin" (Text.str_Z t_start_in_seconds) in
  let str_time_end := value_line "end" (Text.str_Z t_end) in
  let str_step_length :=
    value_line "step-length" (float_str (Time.total_seconds sumo_step_length)) in
  let str_action_step_length :=
    value_line "default.action-step-length"
               (float_str (Time.total_seconds sumo_action_step_length)) in
  let str_time_to_teleport := value_line "time-to-teleport" (Text.str_Z (-1)) in
  let str_max_depart_delay :=
    value_line "max-depart-delay" (float_str (Time.total_seconds sumo_max_depart_delay)) in
  let str_use_tls := value_line "tls.all-off" (str_bool (negb sumo_use_tls)) in
  let str_output_fcd := value_line "fcd-output" (str_path rel_path_to_fcd_output_file) in
  let str_output_fcd_period :=
    value_line "device.fcd.period" (float_str (Time.total_seconds sumo_fcd_output_interval)) in
  let str_input_additional :=
    value_line "additional-files"
      (str_path rel_path_to_vtypes_file +:+ ", " +:+ str_path rel_path_to_taz_file +:+ ", "
       +:+ str_path rel_path_to_poly_file +:+ ", " +:+ str_path rel_path_to_additional_file) in
  let str_gui_only :=
    NL +:+ TAB +:+ "<gui_only>" +:+ NL +:+ TAB +:+ TAB +:+ " <gui-settings-file value="
    +:+ QUOTE +:+ str_path rel_path_to_gui_view_file +:+ QUOTE +:+ "/>" +:+ NL
    +:+ TAB +:+ "</gui_only>" +:+ NL in
  let str_seed := value_line "seed" (Text.str_Z 23424) in
  let str_input :=
    (TAB +:+ "<input>" +:+ NL) +:+ str_input_net +:+ str_input_route
    +:+ str_input_additional +:+ str_seed +:+ (TAB +:+ "</input>" +:+ NL) in
  let str_output :=
    (NL +:+ TAB +:+ "<output>" +:+ NL) +:+ str_output_fcd +:+ str_output_fcd_period
    +:+ (TAB +:+ "</output>" +:+ NL) in
  let str_time :=
    (NL +:+ TAB +:+ "<time>" +:+ NL) +:+ str_time_begin +:+ str_time_end
    +:+ str_step_length +:+ (TAB +:+ "</time>" +:+ NL) in
  let str_processing :=
    (NL +:+ TAB +:+ "<processing>" +:+ NL) +:+ str_action_step_length
    +:+ str_time_to_teleport +:+ str_use_tls +:+ str_max_depart_delay
    +:+ (TAB +:+ "</processing>" +:+ NL) in
  let str_config :=
    ("<configuration>" +:+ NL +:+ NL) +:+ str_input +:+ str_output +:+ str_time
    +:+ str_processing +:+ str_gui_only +:+ (NL +:+ "</configuration>" +:+ NL) in
  Fs.write_text path_to_sumo_config_file str_config.

(** ** class_simulation.py: Simulation.__prepare_sumo *)

(** [self._start_time = time(hour=0, minute=0, second=0)]. *)
Definition _start_time : Z := 0.

(** [datetime.combine(date.today(), self._start_time)]. *)
Definition base_start_time : Time.datetime := Time.midnight today + _start_time.

(** The body of the loop over [enumerate(self._qsv_sequence)], up to
    the call that emits the demand matrix: the check of the code, the
    traffic factor, the start time and the duration of the segment. *)
Definition time_segment (self : Simulation) (idx : nat) (qsv : ascii)
    : outcome TimeSegment :=
  match dict_qsv_x qsv with
  | None => Raise TypeError
  | Some qsv_limits =>
      match py_truediv (py_sum qsv_limits) (Z.of_nat (length qsv_limits)) with
      | None => Raise ZeroDivisionError
      | Some traffic_factor =>
          match Pd.td_truediv (_duration self) (Z.of_nat (length (_qsv_sequence self))) with
          | Raise e => Raise e
          | Ok duration =>
              match Pd.td_mul duration (Z.of_nat idx) with
              | Raise e => Raise e
              | Ok offset =>
                  match Time.dt_add base_start_time (Pd.to_pytimedelta offset) with
                  | None => Raise OverflowError
                  | Some start_time =>
                      Ok {| seg_idx := idx; seg_qsv := qsv; seg_factor := traffic_factor;
                            seg_start := start_time; seg_duration := duration |}
                  end
              end
          end
      end
  end.

(** [self._path_to_routes / '{0}_odm_{1}_{2}_qsv_{3}.od'.format(...)]. *)
Definition od_file_name (self : Simulation) (key : string) (idx : nat) (qsv : ascii) : path :=
  _path_to_routes self //
    (sim_id self +:+ "_odm_" +:+ key +:+ "_" +:+ Text.str_Z (Z.of_nat idx)
     +:+ "_qsv_" +:+ String qsv "" +:+ ".od").

(** One pass of the inner loop. *)
Definition od_matrix_step (self : Simulation) (key : string) (vtype : Z)
    (item : nat * ascii) : M path :=
  let '(idx, qsv) := item in
  let* seg := of_outcome (time_segment self idx qsv) in
  let od_file_name := od_file_name self key idx qsv in
  create_od_matrix_file (_path_to_traffic self // ("odm_" +:+ key +:+ ".csv"))
                        (seg_factor seg) vtype od_file_name
                        (seg_start seg) (seg_duration seg) ;;
  ret od_file_name.

(** The inner loop: the demand matrices of one traffic type. *)
Definition od_matrices (self : Simulation) (key : string) (vtype : Z) : M (list path) :=
  for_each (od_matrix_step self key vtype) (enumerate (_qsv_sequence self)).

Definition cmd_od2trips (self : Simulation) (key : string)
    (list_od_matrix_files : list path) (path_to_od_trip_file : path) : string :=
  let str_list_od_files := Text.join "," (map str_path list_od_matrix_files) in
  let depart_lane := if String.eqb key "sv" then "first" else "best" in
  "od2trips -n " +:+ str_path (_path_to_taz_file self) +:+ " -X never -d "
  +:+ str_list_od_files +:+ " --flow-output " +:+ str_path path_to_od_trip_file
  +:+ " --prefix " +:+ key +:+ "_ --departlane " +:+ depart_lane.

(** One pass of the outer loop over [dict_traffic_types.items()]. *)
Definition od_trips_step (self : Simulation) (item : string * Z) : M path :=
  let '(key, vtype) := item in
  let* list_od_matrix_files := od_matrices self key vtype in
  let path_to_od_trip_file :=
    _path_to_routes self // (sim_id self +:+ "_trip_" +:+ key +:+ ".odtrips.xml") in
  system (cmd_od2trips self key list_od_matrix_files path_to_od_trip_file) ;;
  ret path_to_od_trip_file.

Definition cmd_duarouter (self : Simulation) : string :=
  "duarouter -n " +:+ str_path (_path_to_net_file self)
  +:+ " -X never --route-files " +:+ str_path (_path_to_obstruction_trips_file self)
  +:+ " --additional-files " +:+ str_path (_path_to_vtypes self)
  +:+ " -o " +:+ str_path (_path_to_odroute_file self).

(** The conversion of the trip of the rolling obstruction. *)
Definition obstruction_route (self : Simulation) : M (list path) :=
  if _obstruction self then
    Fs.resolve_strict (_path_to_obstruction_trips_file self) ;;
    system (cmd_duarouter self) ;;
    ret [_path_to_odroute_file self]
  else ret [].

Definition prepare_sumo (self : Simulation) : M unit :=
  create_additional_file (_path_to_sumo self) (_path_to_additional_file self)
                         (_path_to_edge_dump_file self) _sumo_edge_dump_interval ;;
  customize_vtype_file (_path_to_vtypes_ref self) (_path_to_vtypes self) (_tau self) ;;
  let* od_trip_files := for_each (od_trips_step self) dict_traffic_types in
  let* od_route_files := obstruction_route self in
  let list_trip_files := od_trip_files ++ od_route_files in
  create_sumo_config_file
    (_path_to_sumo self) (_path_to_net_file self) list_trip_files
    _start_time (_duration self) _sumo_step_length _sumo_action_step_length
    _sumo_max_depart_delay _sumo_fcd_output_interval (_use_tls self)
    (_path_to_sumo_config_file self) (_path_to_fcd_output_file self)
    (_path_to_additional_file self) (_path_to_taz_file self)
    (_path_to_vtypes self) (_path_to_gui_view_file self) (_path_to_poly_file self).

(** ** class_simulation.py: Simulation.clean *)

Definition objects_2_delete (self : Simulation) : list path :=
  [ _path_to_vtypes self;
    _path_to_sumo_config_file self;
    _path_to_omnetpp_file_long self;
    _path_to_services_file self;
    _path_to_routes self;
    _path_to_additional_file self ].

Definition delete_object (fs : FS) (object_2_delete : path) : FS :=
  if Fs.is_file fs object_2_delete then Fs.remove object_2_delete fs
  else if Fs.is_dir fs object_2_delete then Fs.rmtree object_2_delete fs
  else fs.

Definition clean (self : Simulation) (fs : FS) : FS :=
  fold_left delete_object (objects_2_delete self) fs.

(** ** createOmnetppFile.py: convert_lon_lat_2_xy_omnet *)


End Scripts.

(* ===================================================================== *)
(** * A concrete environment *)
(* ===================================================================== *)

(** Simple stand-ins for the external collaborators and a small
    scenario, on which the scripts can be run. *)
Module Sample.

(** [s.split(sep)]. *)
Fixpoint split_go (sep : ascii) (cur : string) (s : string) : list string :=
  match s with
  | EmptyString => [String.rev cur]
  | String c s' =>
      if Ascii.eqb c sep then String.rev cur :: split_go sep "" s'
      else split_go sep (String c cur) s'
  end.

Definition split (sep : ascii) (s : string) : list string := split_go sep "" s.

Definition parse_Z (s : string) : option Z :=
  match s with
  | EmptyString => None
  | _ => option_map Z.of_int (NilEmpty.int_of_string s)
  end.

Definition parse_row (line : string) : option od_row :=
  match split ";" line with
  | [f; t; n] =>
      match parse_Z n with
      | Some num => Some {| od_from := f; od_to := t; od_num := num |}
      | None => None
      end
  | _ => None
  end.

Fixpoint parse_rows (lines : list string) : option (list od_row) :=
  match lines with
  | [] => Some []
  | "" :: rest => parse_rows rest
  | line :: rest =>
      match parse_row line, parse_rows rest with
      | Some r, Some rs => Some (r :: rs)
      | _, _ => None
      end
  end.

(** A reader for tables of integers with the header [from;to;num]. *)
Definition read_csv (text : string) : outcome (list od_row) :=
  match split "010" text with
  | header :: lines =>
      if String.eqb header "from;to;num" then
        match parse_rows lines with
        | Some rows => Ok rows
        | None => Raise ParserError
        end
      else Raise ParserError
  | [] => Raise ParserError
  end.

(** The fewest decimals, at least one, that give the float back. *)
Fixpoint shortest (fuel : nat) (k : nat) (x : float) : string :=
  match fuel with
  | O => Float.fmt_f k x
  | S fuel' =>
      match x with
      | S754_finite s m e =>
          let y := Float.dec (cond_Zopp s (Float.scaled k m e)) k in
          if SFeqb x y then Float.fmt_f k x else shortest fuel' (S k) x
      | _ => Float.fmt_f k x
      end
  end.

Definition float_str (x : float) : string := shortest 16 1 x.

(** An external tool that fails and writes nothing. *)
Definition os_system_failing (cmd : string) (fs : FS) : Z * FS := (1, fs).

(** A network of bounding box [(0, 0, 1000, 500)] and offset
    [(-100, -200)] whose projection shifts both coordinates. *)
Definition net : Net :=
  {| getBoundary := (Float.of_Z 0, Float.of_Z 0, Float.of_Z 1000, Float.of_Z 500);
     getLocationOffset := (Float.of_Z (-100), Float.of_Z (-200));
     convertLonLat2XY := fun lon lat =>
       (Float.add lon (Float.of_Z 300), Float.add lat (Float.of_Z 400)) |}.


(** 2026-11-04. *)
Definition today : Z := 739924.

Definition scenario (id : string) (seconds : Z) (codes : list ascii) : Simulation :=
  {| sim_id := id; _net := "net.net.xml"; _traffic := "A9"; _obstruction := false;
     _duration := Pd.seconds seconds; _qsv_sequence := codes;
     _v2x_rate := Float.dec 25 2; _tau := Float.dec 15 1;
     _num_repeat := 1; _use_tls := true;
     _path_to_simulation := [".."; "dave"]; path_to_results := [".."; "results"] |}.

Definition vtypes_template : string :=
  "<additional><vType id=" +:+ QUOTE +:+ "car" +:+ QUOTE +:+ " " +:+ old_string
  +:+ "/></additional>".

(** The directories that [__init__] creates or requires, and the
    inputs of a scenario: one demand row per traffic type. *)
Definition files (self : Simulation) : FS :=
  list_to_map
    [ (_path_to_simulation self, Dir);
      (_path_to_sumo self, Dir);
      (_path_to_additional self, Dir);
      (_path_to_config self, Dir);
      (_path_to_traffic self, Dir);
      (_path_to_routes self, Dir);
      (_path_to_results_config self, Dir);
      (_path_to_net_file self, File "<net/>");
      (_path_to_vtypes_ref self, File vtypes_template);
      (_path_to_sim_config_copy self, File "SzenarioID;...");
      (_path_to_traffic self // "odm_miv.csv", File ("from;to;num" +:+ NL +:+ "1;2;100" +:+ NL));
      (_path_to_traffic self // "odm_sv.csv", File ("from;to;num" +:+ NL +:+ "1;2;7" +:+ NL)) ].

(** Duration 7200 s, codes [ab]. *)
Definition two_hours : Simulation := scenario "s1" 7200 ["a"; "b"]%char.

(** Duration 3600 s, seven codes. *)
Definition seven_parts : Simulation :=
  scenario "s7" 3600 ["a"; "b"; "c"; "d"; "e"; "f"; "g"]%char.

(** Duration 1044 s, one code. *)
Definition short_run : Simulation := scenario "s2" 1044 ["a"]%char.

(** Duration 7200 s, a known code and then an unknown one. *)
Definition bad_code : Simulation := scenario "s3" 7200 ["a"; "?"]%char.

(** Duration 36 h, two codes. *)
Definition two_days : Simulation := scenario "s4" (36 * 3600) ["a"; "b"]%char.

(** A scenario whose results are kept below its route directory. *)
Definition nested_results : Simulation :=
  {| sim_id := "s5"; _net := "net.net.xml"; _traffic := "A9"; _obstruction := false;
     _duration := Pd.seconds 7200; _qsv_sequence := ["a"; "b"]%char;
     _v2x_rate := Float.dec 25 2; _tau := Float.dec 15 1;
     _num_repeat := 1; _use_tls := true;
     _path_to_simulation := [".."; "dave"]; path_to_results := ["sumo"; "routes"] |}.

(** A template with the line ends of another system and without the
    marker. *)
Definition crlf_template : string :=
  "<additional>" +:+ String Text.CR (String Text.LF "</additional>").

End Sample.

(* ===================================================================== *)
(** * Notions of the specification *)
(* ===================================================================== *)


(** The rational number that a finite float stands for. *)
Definition value (x : float) : Q :=
  match x with
  | S754_finite s m e => (inject_Z (cond_Zopp s (Z.pos m)) * Qpower 2 e)%Q
  | _ => 0%Q
  end.

(** The arithmetic mean of two numbers. *)
Definition mean (a b : Q) : Q := ((a + b) / 2)%Q.

(** A loop of pure steps that stops at the first one that raises. *)
Fixpoint traverse {A B} (f : A -> outcome B) (l : list A) : outcome (list B) :=
  match l with
  | [] => Ok []
  | a :: rest =>
      match f a with
      | Raise e => Raise e
      | Ok b =>
          match traverse f rest with
          | Raise e => Raise e
          | Ok bs => Ok (b :: bs)
          end
      end
  end.

(** The time segments of a scenario: what the passes of the loop over
    [enumerate(self._qsv_sequence)] derive, in order. *)
Definition time_segments (today : Z) (self : Simulation) : outcome (list TimeSegment) :=
  traverse (fun item => time_segment today self item.1 item.2)
           (enumerate (_qsv_sequence self)).

(** The first instant that is no [datetime] any more. *)
Definition END_OF_TIME : Z := (Time.MAXORDINAL + 1) * Time.DAY.

(** The run ends before the calendar does. The division of the
    duration into segments is exact below [2^53] nanoseconds (about
    104 days); for a longer duration, whose segments are rounded, the
    calendar is to last another [2^64] nanoseconds (about 585 years)
    from the start. *)
Definition ends_in_calendar (today : Z) (self : Simulation) : Prop :=
  base_start_time today + _duration self / 1000 < END_OF_TIME /\
  (_duration self < 2 ^ 53 /\ Z.of_nat (length (_qsv_sequence self)) < 2 ^ 63 \/
   base_start_time today + 2 ^ 64 / 1000 < END_OF_TIME).

(** The segment that the pass for [item] derives when it succeeds:
    its duration is the duration of the scenario over the number of
    codes, cut to whole nanoseconds, and its start the whole
    microseconds of that many durations after the base. *)
Definition segment_at (today : Z) (self : Simulation) (item : nat * ascii) : TimeSegment :=
  let d := _duration self / Z.of_nat (length (_qsv_sequence self)) in
  {| seg_idx := item.1; seg_qsv := item.2;
     seg_factor :=
       match dict_qsv_x item.2 with
       | Some l => Float.div (py_sum l) (Float.of_Z (Z.of_nat (length l)))
       | None => S754_nan
       end;
     seg_start := base_start_time today + d * Z.of_nat item.1 / 1000;
     seg_duration := d |}.

(** The rows of a demand matrix, given the count of every row. *)
Definition od_body (rows : list od_row) (counts : list Z) : string :=
  Text.concat_all (zip_with str_matrix_line rows counts).

(** An external tool of the same effect whose exit status is always 0. *)
Definition always_zero (os_system : string -> FS -> Z * FS) (cmd : string) (fs : FS)
    : Z * FS :=
  (0, (os_system cmd fs).2).

(** The computation changes the file system at most on the paths of [S]. *)
Definition touches {A} (c : M A) (S : path -> Prop) : Prop :=
  forall fs p, ~ S p -> (c fs).2 !! p = fs !! p.

(** The computation raises from every state. *)
Definition raises {A} (c : M A) : Prop :=
  forall fs, exists e, (c fs).1 = Raise e.

(** A path that names its file directly: after the steps up that it
    may start with, plain names only. *)
Fixpoint resolved (p : path) : bool :=
  match p with
  | [] => true
  | c :: rest =>
      if String.eqb c ".." then resolved rest else forallb plain_name (c :: rest)
  end.

(** Twice a float: the exponent one up. *)
Definition scale2 (x : float) : float :=
  match x with
  | S754_finite s m e => S754_finite s m (e + 1)
  | _ => x
  end.

(** The significand [m] with location [l], cut to 53 bits and rounded
    to nearest, ties to even. *)
Definition rounded (m : Z) (l : location) : Z :=
  let mrs := (shr (shr_record_of_loc m l) 0 (Zdigits2 m - 53)).1 in
  round_nearest_even (shr_m mrs) (loc_of_shr_record mrs).

(** A rounded significand, cut to 53 bits once more. *)
Definition final_mantissa (m1 : Z) : Z :=
  shr_m (shr (shr_record_of_loc m1 loc_Exact) 0 (Zdigits2 m1 - 53)).1.

(** A zero, or a positive finite float of exponent in [lo, hi] and
    significand below [2^53]. *)
Definition bounded_float (lo hi : Z) (x : float) : Prop :=
  match x with
  | S754_zero _ => True
  | S754_finite s m e => s = false /\ lo <= e <= hi /\ Z.pos m < 2 ^ 53
  | _ => False
  end.

(** The binary64 float that holds the positive integer [n] below
    [2^53] exactly: the significand is [n] shifted to 53 bits. *)
Definition exact_float (n : Z) : float :=
  S754_finite false (Z.to_pos (n * 2 ^ (53 - Zdigits2 n))) (Zdigits2 n - 53).

(** The files that [__prepare_sumo] writes itself: the additional
    file, the vehicle-type copy, the demand matrices of every traffic
    type and segment, and the configuration of the traffic simulator. *)
Definition written_by_prepare_sumo (self : Simulation) (p : path) : Prop :=
  p = _path_to_additional_file self \/
  p = _path_to_vtypes self \/
  (exists key vtype idx qsv,
      In (key, vtype) dict_traffic_types /\ _qsv_sequence self !! idx = Some qsv /\
      p = od_file_name self key idx qsv) \/
  p = _path_to_sumo_config_file self.

(** What the scripts read and never write: the files of the traffic
    directory (demand tables, zones, RSU and detector tables, the trip
    of the obstruction), each under its plain name, the network, and
    the template of the vehicle types. *)
Definition input_of_prepare_sumo (self : Simulation) (p : path) : Prop :=
  (exists name, plain_name name = true /\ p = _path_to_traffic self // name) \/
  p = _path_to_net_file self \/
  p = _path_to_vtypes_ref self.

(** What deleting the object [o] takes away: [o] itself when it is a
    file, [o] and everything below it when it is a directory. *)
Definition removed_with (fs : FS) (o p : path) : bool :=
  (Fs.is_file fs o && bool_decide (p = o)) ||
  (Fs.is_dir fs o && bool_decide (o `prefix_of` p)).

(** A relation between the file system before and after a step holds
    along a computation. *)
Definition along {A : Type} (R : FS -> FS -> Prop) (c : M A) : Prop :=
  forall fs, R fs (c fs).2.

(** What the preparation needs of the file system: the directories
    that [Simulation.__init__] creates or checks, the inputs of the
    scenario (the template of the vehicle types, one demand table per
    traffic type that [read_csv] reads, with counts that 64 bits hold,
    the trip of the obstruction when there is one), and no directory
    in the place of a file to write. *)
Definition ready (read_csv : string -> outcome (list od_row)) (self : Simulation)
    (fs : FS) : Prop :=
  fs !! _path_to_additional self = Some Dir /\
  fs !! _path_to_routes self = Some Dir /\
  fs !! _path_to_config self = Some Dir /\
  (exists content, fs !! _path_to_vtypes_ref self = Some (File content)) /\
  (forall key vtype, In (key, vtype) dict_traffic_types ->
     exists text rows,
       fs !! (_path_to_traffic self // ("odm_" +:+ key +:+ ".csv")) = Some (File text) /\
       read_csv text = Ok rows /\
       Forall (fun row => 0 <= od_num row < 2 ^ 63) rows) /\
  (_obstruction self = true -> is_Some (fs !! _path_to_obstruction_trips_file self)) /\
  (forall p, written_by_prepare_sumo self p -> fs !! p <> Some Dir).

(** From a state that satisfies [I] the computation returns a result
    that satisfies [Q], in a state that satisfies [I] again. *)
Definition ensures {A : Type} (I : FS -> Prop) (c : M A) (Q : A -> Prop) : Prop :=
  forall fs, I fs -> exists a, (c fs).1 = Ok a /\ Q a /\ I (c fs).2.

(** The text holds no carriage return. *)
Fixpoint no_cr (s : string) : bool :=
  match s with
  | EmptyString => true
  | String c s' => negb (Ascii.eqb c Text.CR) && no_cr s'
  end.

(** The text holds no line end at all. *)
Fixpoint no_line_end (s : string) : bool :=
  match s with
  | EmptyString => true
  | String c s' => negb (Ascii.eqb c Text.CR) && negb (Ascii.eqb c Text.LF) && no_line_end s'
  end.

(** The text holds no underscore. *)
Fixpoint no_underscore (s : string) : bool :=
  match s with
  | EmptyString => true
  | String c s' => negb (Ascii.eqb c "_") && no_underscore s'
  end.

(** One step of [os.path.normpath] on a relative path, the components
    read so far in reverse: [..] cancels the name before it. *)
Definition normpath_step (acc : list string) (c : string) : list string :=
  if String.eqb c ".." then
    match acc with
    | a :: acc' => if String.eqb a ".." then c :: acc else acc'
    | [] => [c]
    end
  else c :: acc.

(** [os.path.normpath(p)] for a relative path without [.] components. *)
Definition normpath (p : path) : path := rev (fold_left normpath_step p []).


Local Open Scope py_scope.

(* ===================================================================== *)
(** * Properties *)
(* ===================================================================== *)

(* ===================================================================== *)
(** * Properties *)
(* ===================================================================== *)

(** ** Text *)

Lemma length_append (a b : string) :
  String.length (a +:+ b) = (String.length a + String.length b)%nat.
Proof. induction a as [|c a IH]; simpl; [reflexivity | now rewrite IH]. Qed.

Lemma append_inj_l (a b c : string) : a +:+ b = a +:+ c -> b = c.
Proof. induction a as [|x a IH]; simpl; intros H; [assumption | injection H; auto]. Qed.

(** A suffix that is longer than the whole word cannot complete it. *)
Lemma append_neq_shorter (a b c : string) :
  (String.length c < String.length b)%nat -> a +:+ b <> c.
Proof.
  intros Hlen Heq. apply (f_equal String.length) in Heq.
  rewrite length_append in Heq. lia.
Qed.

Lemma contains_tail (old : string) (c : ascii) (s : string) :
  Text.contains old (String c s) = false ->
  Text.starts_with old (String c s) = false /\ Text.contains old s = false.
Proof.
  intros H. change (Text.starts_with old (String c s) || Text.contains old s = false) in H.
  now apply orb_false_elim in H.
Qed.

(** [replace] changes nothing in a text without the marker. *)
Lemma replace_absent (old new s : string) :
  Text.contains old s = false -> Text.replace old new s = s.
Proof.
  unfold Text.replace. induction s as [|c s IH]; intros H; [reflexivity|].
  apply contains_tail in H as [Hs Hc].
  cbn [Text.replace_go]. rewrite Hs. f_equal. now apply IH.
Qed.

(** ** Line ends *)

Lemma universal_newlines_id (s : string) :
  no_cr s = true -> Text.universal_newlines s = s.
Proof.
  induction s as [|c s IH]; [reflexivity|]. cbn [no_cr Text.universal_newlines].
  intros H. apply andb_prop in H as [Hc Hs].
  apply negb_true_iff in Hc. rewrite Hc. f_equal. now apply IH.
Qed.

(** A word without line ends starts the translated text where it
    starts the text. *)
Lemma starts_with_newlines (old s : string) :
  no_line_end old = true ->
  Text.starts_with old (Text.universal_newlines s) = Text.starts_with old s.
Proof.
  revert s. induction old as [|a old IH]; intros s H.
  - destruct s as [|c s]; [reflexivity|]. cbn [Text.universal_newlines].
    destruct (Ascii.eqb c Text.CR); reflexivity.
  - cbn [no_line_end] in H. apply andb_prop in H as [H Hold]. apply andb_prop in H as [Hcr Hlf].
    apply negb_true_iff in Hcr, Hlf.
    destruct s as [|c s]; [reflexivity|]. cbn [Text.universal_newlines].
    destruct (Ascii.eqb_spec c Text.CR) as [-> | Hc].
    + cbn [Text.starts_with]. now rewrite Hcr, Hlf.
    + cbn [Text.starts_with]. destruct (Ascii.eqb a c); [now apply IH | reflexivity].
Qed.

Lemma contains_cons (old : string) (c : ascii) (s : string) :
  Text.contains old (String c s) = Text.starts_with old (String c s) || Text.contains old s.
Proof. reflexivity. Qed.

Lemma contains_newlines_upto (n : nat) (old s : string) :
  (String.length s <= n)%nat -> no_line_end old = true ->
  Text.contains old (Text.universal_newlines s) = Text.contains old s.
Proof.
  revert s. induction n as [|n IH]; intros s Hlen Hold.
  - destruct s; [reflexivity | simpl in Hlen; lia].
  - destruct s as [|c s]; [reflexivity|].
    destruct old as [|a old]; [destruct (Text.universal_newlines (String c s)); reflexivity|].
    pose proof Hold as Ha. cbn [no_line_end] in Ha. apply andb_prop in Ha as [Ha _].
    apply andb_prop in Ha as [Hcr Hlf]. apply negb_true_iff in Hcr, Hlf.
    simpl in Hlen. cbn [Text.universal_newlines].
    destruct (Ascii.eqb_spec c Text.CR) as [-> | Hc].
    + rewrite !contains_cons. cbn [Text.starts_with]. rewrite Hcr, Hlf. cbn [orb].
      destruct s as [|c' s]; [reflexivity|]. simpl in Hlen.
      destruct (Ascii.eqb_spec c' Text.LF) as [-> | Hc'].
      * rewrite contains_cons. cbn [Text.starts_with]. rewrite Hlf. cbn [orb].
        apply IH; [lia | exact Hold].
      * apply IH; [simpl; lia | exact Hold].
    + rewrite !contains_cons. f_equal; [| apply IH; [lia | exact Hold]].
      pose proof (starts_with_newlines (String a old) (String c s) Hold) as Hsw.
      cbn [Text.universal_newlines] in Hsw.
      destruct (Ascii.eqb_spec c Text.CR); [contradiction | exact Hsw].
Qed.

(** A word without line ends occurs in the translated text exactly
    when it occurs in the text. *)
Lemma contains_newlines (old s : string) :
  no_line_end old = true ->
  Text.contains old (Text.universal_newlines s) = Text.contains old s.
Proof. apply (contains_newlines_upto (String.length s)). lia. Qed.

(** ** Paths *)

Lemma child_inj (p q : path) (a b : string) : p // a = q // b -> p = q /\ a = b.
Proof. unfold child. intros H. apply app_inj_tail in H. exact H. Qed.

Lemma child_neq_name (p : path) (a b : string) : a <> b -> p // a <> p // b.
Proof. intros Hne H. apply child_inj in H as [_ H]. contradiction. Qed.

Lemma parent_child (p : path) (a : string) : parent (p // a) = p.
Proof. unfold parent, child. apply removelast_last. Qed.

(** ** The monad *)

Lemma bind_ok {A B} (c : M A) (k : A -> M B) (fs fs' : FS) (a : A) :
  c fs = (Ok a, fs') -> bind c k fs = k a fs'.
Proof. intros H. unfold bind. now rewrite H. Qed.

Lemma bind_raise {A B} (c : M A) (k : A -> M B) (fs fs' : FS) (e : exn) :
  c fs = (Raise e, fs') -> bind c k fs = (Raise e, fs').
Proof. intros H. unfold bind. now rewrite H. Qed.

Lemma read_raw_file (p : path) (c : string) (fs : FS) :
  fs !! p = Some (File c) -> Fs.read_raw p fs = (Ok c, fs).
Proof. intros H. unfold Fs.read_raw. now rewrite H. Qed.

Lemma read_text_file (p : path) (c : string) (fs : FS) :
  fs !! p = Some (File c) -> Fs.read_text p fs = (Ok (Text.universal_newlines c), fs).
Proof. intros H. unfold Fs.read_text. now rewrite H. Qed.

Lemma write_text_ok (p : path) (c : string) (fs : FS) :
  fs !! p <> Some Dir -> fs !! parent p = Some Dir ->
  Fs.write_text p c fs = (Ok tt, <[p := File c]> fs).
Proof.
  intros Hp Hd. unfold Fs.write_text. rewrite Hd.
  destruct (fs !! p) as [[|]|]; congruence.
Qed.

(** A write changes at most the written path. *)
Lemma write_text_frame (p q : path) (c : string) (fs : FS) :
  p <> q -> (Fs.write_text p c fs).2 !! q = fs !! q.
Proof.
  intros Hne. unfold Fs.write_text.
  destruct (fs !! p) as [[|]|]; destruct (fs !! parent p) as [[|]|]; simpl;
    try reflexivity; now apply lookup_insert_ne.
Qed.


(** ** Binary64 arithmetic: digits, shifts and rounding *)

Lemma digits_spec (p : positive) :
  2 ^ (Zdigits2 (Z.pos p) - 1) <= Z.pos p < 2 ^ Zdigits2 (Z.pos p).
Proof.
  induction p as [p IH|p IH|]; cbn [Zdigits2 digits2_pos] in *.
  - rewrite Pos2Z.inj_succ.
    replace (Z.succ (Z.pos (digits2_pos p)) - 1) with (Z.succ (Z.pos (digits2_pos p) - 1)) by lia.
    rewrite !Z.pow_succ_r by lia. lia.
  - rewrite Pos2Z.inj_succ.
    replace (Z.succ (Z.pos (digits2_pos p)) - 1) with (Z.succ (Z.pos (digits2_pos p) - 1)) by lia.
    rewrite !Z.pow_succ_r by lia. lia.
  - simpl. lia.
Qed.

Lemma digits_nonneg (m : Z) : 0 <= Zdigits2 m.
Proof. destruct m; simpl; lia. Qed.

Lemma digits_upper (m : Z) : 0 <= m -> m < 2 ^ Zdigits2 m.
Proof.
  destruct m as [|p|p]; intros H; [simpl; lia | apply digits_spec | lia].
Qed.

Lemma digits_le (m k : Z) : 0 <= m < 2 ^ k -> 0 <= k -> Zdigits2 m <= k.
Proof.
  intros [H0 Hm] Hk. destruct m as [|p|p]; [simpl; lia | | lia].
  pose proof (digits_spec p) as [Hlo _].
  assert (Hlt : 2 ^ (Zdigits2 (Z.pos p) - 1) < 2 ^ k) by lia.
  apply Z.pow_lt_mono_r_iff in Hlt; lia.
Qed.

Lemma shr_1_m (mrs : shr_record) : 0 <= shr_m mrs -> shr_m (shr_1 mrs) = shr_m mrs / 2.
Proof.
  destruct mrs as [m r s]. simpl. intros Hm.
  destruct m as [|[p|p|]|p]; cbn [shr_m];
    first [ reflexivity
          | lia
          | apply Z.div_unique with (r := 1); [left; lia | lia]
          | apply Z.div_unique with (r := 0); [left; lia | lia] ].
Qed.

Lemma iter_shr_m (p : positive) (mrs : shr_record) :
  0 <= shr_m mrs -> shr_m (SpecFloat.iter_pos shr_1 p mrs) = shr_m mrs / 2 ^ Z.pos p.
Proof.
  revert mrs. induction p as [p IH|p IH|]; intros mrs Hm; cbn [SpecFloat.iter_pos].
  - assert (H1 : 0 <= shr_m (shr_1 mrs)) by (rewrite shr_1_m by lia; apply Z.div_pos; lia).
    assert (H2 : 0 <= shr_m (SpecFloat.iter_pos shr_1 p (shr_1 mrs)))
      by (rewrite IH by lia; apply Z.div_pos; lia).
    rewrite IH, IH, shr_1_m by lia.
    rewrite !Z.div_div by lia. f_equal.
    replace (Z.pos p~1) with (1 + Z.pos p + Z.pos p) by lia.
    rewrite !Z.pow_add_r by lia. change (2 ^ 1) with 2. ring.
  - assert (H2 : 0 <= shr_m (SpecFloat.iter_pos shr_1 p mrs))
      by (rewrite IH by lia; apply Z.div_pos; lia).
    rewrite IH, IH by lia. rewrite Z.div_div by lia. f_equal.
    replace (Z.pos p~0) with (Z.pos p + Z.pos p) by lia.
    rewrite Z.pow_add_r by lia. ring.
  - rewrite shr_1_m by lia. reflexivity.
Qed.

(** A shift cuts [max 0 n] bits, whatever the exponent it starts
    from, and adds them to the exponent. *)
Lemma shr_spec (mrs : shr_record) (e n : Z) :
  0 <= shr_m mrs ->
  shr mrs e n = ((shr mrs 0 n).1, e + Z.max 0 n) /\
  shr_m (shr mrs 0 n).1 = shr_m mrs / 2 ^ Z.max 0 n.
Proof.
  intros Hm. destruct n as [|p|p]; simpl.
  - rewrite Z.add_0_r, Z.div_1_r. auto.
  - split; [reflexivity | now apply iter_shr_m].
  - rewrite Z.add_0_r, Z.div_1_r. auto.
Qed.

Lemma shr_record_of_loc_m (m : Z) (l : location) : shr_m (shr_record_of_loc m l) = m.
Proof. destruct l as [|[]]; reflexivity. Qed.

Lemma round_nearest_even_bounds (m : Z) (l : location) :
  m <= round_nearest_even m l <= m + 1.
Proof. unfold round_nearest_even. destruct l as [|[]]; try destruct (Z.even m); lia. Qed.

(** Cutting a significand to 53 bits leaves less than [2^53]. *)
Lemma cut_below (m : Z) : 0 <= m -> 0 <= m / 2 ^ Z.max 0 (Zdigits2 m - 53) < 2 ^ 53.
Proof.
  intros Hm. pose proof (digits_upper m Hm) as Hup. pose proof (digits_nonneg m) as Hd.
  split; [apply Z.div_pos; lia|].
  apply Z.div_lt_upper_bound; [lia|]. rewrite <- Z.pow_add_r by lia.
  destruct (Z.max_spec 0 (Zdigits2 m - 53)) as [[H ->]|[H ->]].
  - replace (Zdigits2 m - 53 + 53) with (Zdigits2 m) by lia. assumption.
  - eapply Z.lt_le_trans; [exact Hup|]. apply Z.pow_le_mono_r; lia.
Qed.

Lemma rounded_bounds (m : Z) (l : location) : 0 <= m -> 0 <= rounded m l <= 2 ^ 53.
Proof.
  intros Hm. unfold rounded.
  destruct (shr_spec (shr_record_of_loc m l) 0 (Zdigits2 m - 53)) as [_ Hs];
    [rewrite shr_record_of_loc_m; lia|].
  rewrite shr_record_of_loc_m in Hs. rewrite Hs.
  pose proof (cut_below m Hm).
  pose proof (round_nearest_even_bounds (m / 2 ^ Z.max 0 (Zdigits2 m - 53))
                (loc_of_shr_record (shr (shr_record_of_loc m l) 0 (Zdigits2 m - 53)).1)).
  lia.
Qed.

Lemma final_mantissa_bounds (m1 : Z) :
  0 <= m1 <= 2 ^ 53 ->
  0 <= final_mantissa m1 < 2 ^ 53 /\ Z.max 0 (Zdigits2 m1 - 53) <= 1.
Proof.
  intros Hm. unfold final_mantissa.
  destruct (shr_spec (shr_record_of_loc m1 loc_Exact) 0 (Zdigits2 m1 - 53)) as [_ Hs];
    [simpl; lia|].
  rewrite Hs. simpl shr_m. split; [apply cut_below; lia|].
  assert (Zdigits2 m1 <= 54) by (apply digits_le; lia). lia.
Qed.


(** Away from the subnormal range the exponent function is linear. *)
Lemma fexp_normal (x : Z) : - 1021 <= x -> fexp 53 1024 x = x - 53.
Proof. intros H. unfold fexp, emin. lia. Qed.

(** Rounding, in closed form: the significand is cut to 53 bits,
    rounded, and cut once more; the exponent grows by the bits cut.
    Neither significand depends on the exponent. *)
Lemma round_aux_eq (s : bool) (m e : Z) (l : location) :
  0 <= m -> - 1021 <= e ->
  binary_round_aux 53 1024 s m e l
  = let n1 := Z.max 0 (Zdigits2 m - 53) in
    let m1 := rounded m l in
    let n2 := Z.max 0 (Zdigits2 m1 - 53) in
    match final_mantissa m1 with
    | Z0 => S754_zero s
    | Z.pos p => if e + n1 + n2 <=? 971 then S754_finite s p (e + n1 + n2)
                 else S754_infinity s
    | Z.neg _ => S754_nan
    end.
Proof.
  intros Hm He. cbv zeta. unfold binary_round_aux, shr_fexp.
  pose proof (digits_nonneg m) as Hd.
  rewrite (fexp_normal (Zdigits2 m + e)) by lia.
  replace (Zdigits2 m + e - 53 - e) with (Zdigits2 m - 53) by lia.
  destruct (shr_spec (shr_record_of_loc m l) e (Zdigits2 m - 53)) as [-> _];
    [rewrite shr_record_of_loc_m; lia|].
  fold (rounded m l).
  pose proof (rounded_bounds m l Hm) as Hr.
  pose proof (digits_nonneg (rounded m l)) as Hd1.
  rewrite (fexp_normal (Zdigits2 (rounded m l) + _)) by lia.
  replace (Zdigits2 (rounded m l) + (e + Z.max 0 (Zdigits2 m - 53)) - 53
           - (e + Z.max 0 (Zdigits2 m - 53)))
    with (Zdigits2 (rounded m l) - 53) by lia.
  destruct (shr_spec (shr_record_of_loc (rounded m l) loc_Exact)
              (e + Z.max 0 (Zdigits2 m - 53)) (Zdigits2 (rounded m l) - 53)) as [-> _];
    [simpl; lia|].
  fold (final_mantissa (rounded m l)). reflexivity.
Qed.

(** Away from the ends of the exponent range, rounding gives a zero
    or a finite float of 53 bits whose exponent has grown by the bits
    cut, and by one more at most. *)
Lemma round_aux_bounded (m e : Z) (l : location) :
  0 <= m -> - 1021 <= e -> e + Z.max 0 (Zdigits2 m - 53) + 1 <= 971 ->
  bounded_float e (e + Z.max 0 (Zdigits2 m - 53) + 1)
                (binary_round_aux 53 1024 false m e l).
Proof.
  intros Hm He Hhi. rewrite round_aux_eq by assumption. cbv zeta.
  pose proof (rounded_bounds m l Hm) as Hr.
  destruct (final_mantissa_bounds _ Hr) as [Hf Hn2].
  destruct (final_mantissa (rounded m l)) as [|p|p]; [exact I | | lia].
  destruct (Z.leb_spec (e + Z.max 0 (Zdigits2 m - 53) + Z.max 0 (Zdigits2 (rounded m l) - 53)) 971);
    simpl; [split; [reflexivity | lia] | lia].
Qed.

(** One up in the exponent before rounding is one up after. *)
Lemma round_aux_shift (s : bool) (m e : Z) (l : location) :
  0 <= m -> - 1021 <= e -> e + Z.max 0 (Zdigits2 m - 53) + 1 < 971 ->
  binary_round_aux 53 1024 s m (e + 1) l = scale2 (binary_round_aux 53 1024 s m e l).
Proof.
  intros Hm He Hhi. rewrite !round_aux_eq by lia. cbv zeta.
  pose proof (rounded_bounds m l Hm) as Hr.
  destruct (final_mantissa_bounds _ Hr) as [Hf Hn2].
  destruct (final_mantissa (rounded m l)) as [|p|p]; [reflexivity | | reflexivity].
  destruct (Z.leb_spec (e + Z.max 0 (Zdigits2 m - 53) + Z.max 0 (Zdigits2 (rounded m l) - 53)) 971);
    destruct (Z.leb_spec (e + 1 + Z.max 0 (Zdigits2 m - 53)
                          + Z.max 0 (Zdigits2 (rounded m l) - 53)) 971);
    try lia.
  simpl. f_equal. lia.
Qed.


Lemma bounded_float_weaken (lo hi lo' hi' : Z) (x : float) :
  lo' <= lo -> hi <= hi' -> bounded_float lo hi x -> bounded_float lo' hi' x.
Proof. destruct x as [| | |s m e]; simpl; try tauto. intros ? ? (? & ? & ?). split; [assumption | lia]. Qed.

(** ** Multiplication and division under scaling by two *)

Lemma mul_scale (x y : float) (lo1 hi1 lo2 hi2 : Z) :
  bounded_float lo1 hi1 x -> bounded_float lo2 hi2 y ->
  - 1021 <= lo1 + lo2 -> hi1 + hi2 + 55 < 971 ->
  Float.mul x (scale2 y) = scale2 (Float.mul x y) /\
  bounded_float (lo1 + lo2) (hi1 + hi2 + 54) (Float.mul x y).
Proof.
  intros Hx Hy Hlo Hhi.
  destruct x as [sx| | |sx mx ex], y as [sy| | |sy my ey]; simpl in Hx, Hy; try contradiction;
    try (split; [reflexivity | exact I]).
  destruct Hx as (-> & Hex & Hmx), Hy as (-> & Hey & Hmy).
  unfold Float.mul, scale2 at 1, SFmul. simpl xorb.
  replace (ex + (ey + 1)) with (ex + ey + 1) by lia.
  assert (Hd : Zdigits2 (Z.pos (mx * my)) <= 106).
  { apply digits_le; [| lia]. rewrite Pos2Z.inj_mul.
    change (2 ^ 106) with (2 ^ 53 * 2 ^ 53). split; [lia|].
    apply Z.mul_lt_mono_nonneg; lia. }
  split.
  - apply round_aux_shift; lia.
  - eapply bounded_float_weaken; [| | apply round_aux_bounded]; lia.
Qed.

(** The quotient before rounding, in closed form. *)
Lemma div_core_eq (m1 e1 m2 e2 : Z) :
  0 < m1 -> 0 < m2 -> - 1021 <= Zdigits2 m1 + e1 - (Zdigits2 m2 + e2) ->
  SFdiv_core_binary 53 1024 m1 e1 m2 e2
  = let e' := Z.min (Zdigits2 m1 + e1 - (Zdigits2 m2 + e2) - 53) (e1 - e2) in
    let m' := m1 * 2 ^ (e1 - e2 - e') in
    (m' / m2, e', new_location m2 (m' mod m2)).
Proof.
  intros H1 H2 HX. unfold SFdiv_core_binary. cbv zeta.
  rewrite fexp_normal by assumption.
  set (e' := Z.min (Zdigits2 m1 + e1 - (Zdigits2 m2 + e2) - 53) (e1 - e2)).
  assert (Hs : 0 <= e1 - e2 - e') by (unfold e'; lia).
  assert (Hm : match e1 - e2 - e' with
               | Z0 => m1
               | Z.pos _ => Z.shiftl m1 (e1 - e2 - e')
               | Z.neg _ => 0
               end = m1 * 2 ^ (e1 - e2 - e')).
  { destruct (e1 - e2 - e') as [|p|p] eqn:E.
    - simpl. lia.
    - apply Z.shiftl_mul_pow2. lia.
    - lia. }
  rewrite Hm. unfold Z.div, Z.modulo.
  destruct (Z.div_eucl (m1 * 2 ^ (e1 - e2 - e')) m2) as [q r]. reflexivity.
Qed.

Lemma div_finite_scale (sx : bool) (mx : positive) (ex : Z) (my : positive) (ey : Z) :
  sx = false ->
  Z.pos mx < 2 ^ 64 -> Z.pos my < 2 ^ 53 ->
  - 400 <= ex <= 400 -> - 400 <= ey <= 400 ->
  Float.div (S754_finite sx mx (ex + 1)) (S754_finite false my ey)
  = scale2 (Float.div (S754_finite sx mx ex) (S754_finite false my ey)) /\
  bounded_float (ex - ey - 105) (ex - ey + 12)
                (Float.div (S754_finite sx mx ex) (S754_finite false my ey)).
Proof.
  intros -> Hmx Hmy Hex Hey. unfold Float.div, SFdiv. simpl xorb.
  assert (Hd1 : 1 <= Zdigits2 (Z.pos mx) <= 64)
    by (split; [simpl; lia | apply digits_le; lia]).
  assert (Hd2 : 1 <= Zdigits2 (Z.pos my) <= 53)
    by (split; [simpl; lia | apply digits_le; lia]).
  rewrite !div_core_eq by lia. cbv zeta.
  set (d1 := Zdigits2 (Z.pos mx)) in *. set (d2 := Zdigits2 (Z.pos my)) in *.
  replace (Z.min (d1 + (ex + 1) - (d2 + ey) - 53) (ex + 1 - ey))
    with (Z.min (d1 + ex - (d2 + ey) - 53) (ex - ey) + 1) by lia.
  set (e' := Z.min (d1 + ex - (d2 + ey) - 53) (ex - ey)).
  replace (ex + 1 - ey - (e' + 1)) with (ex - ey - e') by lia.
  set (s := ex - ey - e').
  assert (Hs : 0 <= s <= 105) by (unfold s, e'; lia).
  set (q := Z.pos mx * 2 ^ s / Z.pos my).
  assert (Hq : 0 <= q < 2 ^ (d1 + s)).
  { assert (Hp : 0 < 2 ^ s) by (apply Z.pow_pos_nonneg; lia).
    split; [apply Z.div_pos; lia|].
    apply Z.le_lt_trans with (Z.pos mx * 2 ^ s).
    - apply Z.div_le_upper_bound; [lia|]. nia.
    - rewrite Z.pow_add_r by lia. pose proof (digits_upper (Z.pos mx) ltac:(lia)).
      fold d1 in H. nia. }
  assert (Hdq : Zdigits2 q <= d1 + s) by (apply digits_le; lia).
  split.
  - apply round_aux_shift; unfold s, e' in *; lia.
  - eapply bounded_float_weaken; [| | apply round_aux_bounded]; unfold s, e' in *; lia.
Qed.


(** Twice the significand is one more in the exponent, for a quotient
    that still has all its 53 bits to compute. *)
Lemma div_double (p : positive) (ex : Z) (my : positive) (ey : Z) :
  Zdigits2 (Z.pos p~0) <= Zdigits2 (Z.pos my) + 53 ->
  - 400 <= ex <= 400 -> - 400 <= ey <= 400 ->
  Z.pos p < 2 ^ 64 -> Z.pos my < 2 ^ 53 ->
  Float.div (S754_finite false p~0 ex) (S754_finite false my ey)
  = Float.div (S754_finite false p (ex + 1)) (S754_finite false my ey).
Proof.
  intros Hd Hex Hey Hp Hmy. unfold Float.div, SFdiv. simpl xorb.
  assert (Hd1 : Zdigits2 (Z.pos p~0) = Zdigits2 (Z.pos p) + 1)
    by (simpl; lia).
  assert (Hd0 : 1 <= Zdigits2 (Z.pos p) <= 64)
    by (split; [simpl; lia | apply digits_le; lia]).
  assert (Hd2 : 1 <= Zdigits2 (Z.pos my) <= 53)
    by (split; [simpl; lia | apply digits_le; lia]).
  rewrite !div_core_eq by lia. cbv zeta.
  rewrite Hd1 in *.
  set (d1 := Zdigits2 (Z.pos p)) in *. set (d2 := Zdigits2 (Z.pos my)) in *.
  replace (Z.min (d1 + 1 + ex - (d2 + ey) - 53) (ex - ey))
    with (d1 + 1 + ex - (d2 + ey) - 53) by lia.
  replace (Z.min (d1 + (ex + 1) - (d2 + ey) - 53) (ex + 1 - ey))
    with (d1 + 1 + ex - (d2 + ey) - 53) by lia.
  set (e' := d1 + 1 + ex - (d2 + ey) - 53).
  replace (ex + 1 - ey - e') with (ex - ey - e' + 1) by lia.
  assert (Hs : 0 <= ex - ey - e') by (unfold e'; lia).
  rewrite Z.pow_add_r by lia. change (2 ^ 1) with 2.
  replace (Z.pos p~0 * 2 ^ (ex - ey - e')) with (Z.pos p * (2 ^ (ex - ey - e') * 2)) by lia.
  reflexivity.
Qed.

(** ** Integers as floats *)

Lemma iter_xO (d p : positive) : Z.pos (Pos.iter xO p d) = 2 ^ Z.pos d * Z.pos p.
Proof. exact (shift_pos_correct d p). Qed.

Lemma of_Z_bounded (c : Z) :
  0 <= c < 2 ^ 64 -> bounded_float (- 52) 12 (Float.of_Z c).
Proof.
  intros Hc. destruct c as [|p|p]; [exact I | | lia].
  unfold Float.of_Z, binary_normalize, binary_round.
  assert (Hd : 1 <= Zdigits2 (Z.pos p) <= 64)
    by (split; [simpl; lia | apply digits_le; lia]).
  change (Z.pos (digits2_pos p)) with (Zdigits2 (Z.pos p)).
  rewrite Z.add_0_r.
  assert (Hf : fexp Float.prec Float.emax (Zdigits2 (Z.pos p)) = Zdigits2 (Z.pos p) - 53)
    by (unfold fexp, emin, Float.prec, Float.emax; lia).
  rewrite Hf. set (d := Zdigits2 (Z.pos p)) in *.
  unfold shl_align. rewrite Z.sub_0_r.
  destruct (d - 53) as [|q|q] eqn:E.
  - eapply bounded_float_weaken; [| | apply round_aux_bounded]; fold d; lia.
  - eapply bounded_float_weaken; [| | apply round_aux_bounded]; fold d; lia.
  - assert (Hm : Z.pos (Pos.iter xO p q) < 2 ^ 53).
    { rewrite iter_xO. pose proof (digits_upper (Z.pos p) ltac:(lia)) as Hu. fold d in Hu.
      replace 53 with (Z.pos q + d) by lia. rewrite Z.pow_add_r by lia.
      assert (0 < 2 ^ Z.pos q) by (apply Z.pow_pos_nonneg; lia). nia. }
    assert (Hdm : Zdigits2 (Z.pos (Pos.iter xO p q)) <= 53) by (apply digits_le; lia).
    eapply bounded_float_weaken; [| | apply round_aux_bounded]; lia.
Qed.

(** ** Truncation under scaling by two *)

Lemma trunc_scale2 (x : float) (lo hi : Z) :
  bounded_float lo hi x ->
  exists n, Float.trunc x = Some n /\ 0 <= n /\
            (Float.trunc (scale2 x) = Some (2 * n) \/
             Float.trunc (scale2 x) = Some (2 * n + 1)).
Proof.
  destruct x as [s| | |s m e]; simpl; try contradiction.
  - intros _. exists 0. split; [reflexivity | split; [lia | left; reflexivity]].
  - intros (-> & _ & _). simpl cond_Zopp.
    destruct (Z.leb_spec 0 e) as [He|He].
    + exists (Z.pos m * 2 ^ e). split; [reflexivity|]. split; [nia|].
      left. destruct (Z.leb_spec 0 (e + 1)); [|lia].
      rewrite Z.pow_add_r by lia. change (2 ^ 1) with 2. f_equal. lia.
    + destruct (Z.leb_spec 0 (e + 1)) as [He1|He1].
      * assert (e = - 1) by lia. subst e. change (- - 1) with 1. change (-1 + 1) with 0.
        change (2 ^ 1) with 2. change (2 ^ 0) with 1. rewrite Z.mul_1_r.
        exists (Z.pos m / 2). split; [reflexivity|]. split; [apply Z.div_pos; lia|].
        pose proof (Z.div_mod (Z.pos m) 2 ltac:(lia)) as Hdm.
        pose proof (Z.mod_pos_bound (Z.pos m) 2 ltac:(lia)) as Hb.
        assert (Hc : Z.pos m mod 2 = 0 \/ Z.pos m mod 2 = 1) by lia.
        destruct Hc as [Hc|Hc]; [left | right]; f_equal; lia.
      * set (k := - (e + 1)). assert (Hk : 0 < k) by (unfold k; lia).
        replace (- e) with (k + 1) by (unfold k; lia).
        rewrite Z.pow_add_r by lia. change (2 ^ 1) with 2.
        assert (Hp : 0 < 2 ^ k) by (apply Z.pow_pos_nonneg; lia).
        rewrite <- Z.div_div by lia.
        set (a := Z.pos m / 2 ^ k). assert (Ha : 0 <= a) by (apply Z.div_pos; lia).
        exists (a / 2). split; [reflexivity|]. split; [apply Z.div_pos; lia|].
        pose proof (Z.div_mod a 2 ltac:(lia)) as Hdm.
        pose proof (Z.mod_pos_bound a 2 ltac:(lia)) as Hb.
        assert (Hc : a mod 2 = 0 \/ a mod 2 = 1) by lia.
        destruct Hc as [Hc|Hc]; [left | right]; f_equal; lia.
Qed.


(** ** Binary64 arithmetic: exact results *)

Lemma digits_ge (m k : Z) : 0 <= k -> 2 ^ k <= m -> k + 1 <= Zdigits2 m.
Proof.
  intros Hk Hm. assert (H0 : 0 <= m) by (pose proof (Z.pow_pos_nonneg 2 k); lia).
  pose proof (digits_upper m H0) as Hup. pose proof (digits_nonneg m) as Hd.
  assert (Hlt : 2 ^ k < 2 ^ Zdigits2 m) by lia.
  apply Z.pow_lt_mono_r_iff in Hlt; lia.
Qed.

Lemma digits_pos (m : Z) : 0 < m -> 1 <= Zdigits2 m.
Proof. destruct m; simpl; lia. Qed.

Lemma digits_lower (m : Z) : 0 < m -> 2 ^ (Zdigits2 m - 1) <= m.
Proof. destruct m as [|p|p]; try lia. intros _. apply digits_spec. Qed.

Lemma digits_shift (q j : Z) : 0 < q -> 0 <= j -> Zdigits2 (q * 2 ^ j) = Zdigits2 q + j.
Proof.
  intros Hq Hj. pose proof (digits_pos q Hq) as Hd.
  pose proof (digits_lower q Hq) as Hlo. pose proof (digits_upper q ltac:(lia)) as Hup.
  assert (Hp : 0 < 2 ^ j) by (apply Z.pow_pos_nonneg; lia).
  apply Z.le_antisymm.
  - apply digits_le; [| lia]. rewrite Z.pow_add_r by lia. nia.
  - replace (Zdigits2 q + j) with (Zdigits2 q - 1 + j + 1) by lia.
    apply digits_ge; [lia|]. rewrite Z.pow_add_r by lia. nia.
Qed.

Lemma digits_53 (m : Z) : 2 ^ 52 <= m < 2 ^ 53 -> Zdigits2 m = 53.
Proof.
  intros [Hlo Hhi]. apply Z.le_antisymm.
  - apply digits_le; lia.
  - apply (digits_ge m 52); lia.
Qed.

Lemma shr_1_even (c : Z) :
  0 <= c ->
  shr_1 {| shr_m := 2 * c; shr_r := false; shr_s := false |}
  = {| shr_m := c; shr_r := false; shr_s := false |}.
Proof. destruct c as [|p|p]; [reflexivity | reflexivity | lia]. Qed.

Lemma iter_shr_exact (p : positive) (c : Z) :
  0 <= c ->
  SpecFloat.iter_pos shr_1 p {| shr_m := c * 2 ^ Z.pos p; shr_r := false; shr_s := false |}
  = {| shr_m := c; shr_r := false; shr_s := false |}.
Proof.
  revert c. induction p as [p IH|p IH|]; intros c Hc; cbn [SpecFloat.iter_pos].
  - assert (Hp : 0 < 2 ^ Z.pos p) by (apply Z.pow_pos_nonneg; lia).
    replace (c * 2 ^ Z.pos p~1) with (2 * (c * 2 ^ Z.pos p * 2 ^ Z.pos p)).
    + rewrite shr_1_even by nia. rewrite IH by nia. now apply IH.
    + replace (Z.pos p~1) with (1 + Z.pos p + Z.pos p) by lia.
      rewrite !Z.pow_add_r by lia. change (2 ^ 1) with 2. ring.
  - assert (Hp : 0 < 2 ^ Z.pos p) by (apply Z.pow_pos_nonneg; lia).
    replace (c * 2 ^ Z.pos p~0) with (c * 2 ^ Z.pos p * 2 ^ Z.pos p).
    + rewrite IH by nia. now apply IH.
    + replace (Z.pos p~0) with (Z.pos p + Z.pos p) by lia.
      rewrite !Z.pow_add_r by lia. ring.
  - change (2 ^ 1) with 2. rewrite Z.mul_comm. now apply shr_1_even.
Qed.

(** Cutting bits that are all zero loses nothing. *)
Lemma shr_exact (c t : Z) :
  0 <= c -> 0 <= t ->
  (shr {| shr_m := c * 2 ^ t; shr_r := false; shr_s := false |} 0 t).1
  = {| shr_m := c; shr_r := false; shr_s := false |}.
Proof.
  intros Hc Ht. destruct t as [|p|p]; [| | lia].
  - simpl. now rewrite Z.mul_1_r.
  - simpl. now apply iter_shr_exact.
Qed.

(** A significand of 53 bits followed by zeros rounds to itself. *)
Lemma round_aux_exact (m t e : Z) :
  2 ^ 52 <= m < 2 ^ 53 -> 0 <= t -> - 1021 <= e -> e + t <= 971 ->
  binary_round_aux 53 1024 false (m * 2 ^ t) e loc_Exact
  = S754_finite false (Z.to_pos m) (e + t).
Proof.
  intros Hm Ht He Hhi.
  assert (Hp : 0 < 2 ^ t) by (apply Z.pow_pos_nonneg; lia).
  rewrite round_aux_eq by nia. cbv zeta.
  assert (Hd : Zdigits2 (m * 2 ^ t) = 53 + t).
  { rewrite digits_shift by lia. now rewrite (digits_53 m). }
  assert (Hr : rounded (m * 2 ^ t) loc_Exact = m).
  { unfold rounded. rewrite Hd. replace (53 + t - 53) with t by lia.
    cbn [shr_record_of_loc]. rewrite shr_exact by lia. reflexivity. }
  rewrite Hr, Hd, (digits_53 m Hm).
  assert (Hf : final_mantissa m = m).
  { unfold final_mantissa. rewrite (digits_53 m Hm). reflexivity. }
  rewrite Hf. replace (53 + t - 53) with t by lia.
  destruct m as [|p|p]; try lia.
  replace (e + Z.max 0 t + Z.max 0 (53 - 53)) with (e + t) by lia.
  destruct (Z.leb_spec (e + t) 971); [reflexivity | lia].
Qed.

Lemma exact_mantissa (n : Z) :
  0 < n < 2 ^ 53 ->
  2 ^ 52 <= n * 2 ^ (53 - Zdigits2 n) < 2 ^ 53 /\ 1 <= Zdigits2 n <= 53.
Proof.
  intros Hn. pose proof (digits_pos n ltac:(lia)) as Hd1.
  assert (Hd2 : Zdigits2 n <= 53) by (apply digits_le; lia).
  pose proof (digits_lower n ltac:(lia)) as Hlo.
  pose proof (digits_upper n ltac:(lia)) as Hup.
  assert (Hp : 0 < 2 ^ (53 - Zdigits2 n)) by (apply Z.pow_pos_nonneg; lia).
  split; [| lia]. split.
  - replace 52 with (Zdigits2 n - 1 + (53 - Zdigits2 n)) by lia.
    rewrite Z.pow_add_r by lia. nia.
  - replace 53 with (Zdigits2 n + (53 - Zdigits2 n)) at 2 by lia.
    rewrite Z.pow_add_r by lia. nia.
Qed.

(** An integer with trailing zeros rounds to the float that holds it. *)
Lemma round_aux_int (n j e : Z) :
  0 < n < 2 ^ 53 -> 0 <= j -> 53 <= Zdigits2 n + j ->
  - 1021 <= e -> e + j <= 900 ->
  binary_round_aux 53 1024 false (n * 2 ^ j) e loc_Exact
  = S754_finite false (Z.to_pos (n * 2 ^ (53 - Zdigits2 n))) (e + j - (53 - Zdigits2 n)).
Proof.
  intros Hn Hj Hd He Hhi. destruct (exact_mantissa n Hn) as [Hm Hdn].
  replace (n * 2 ^ j)
    with (n * 2 ^ (53 - Zdigits2 n) * 2 ^ (j - (53 - Zdigits2 n))).
  - rewrite round_aux_exact by lia. f_equal. lia.
  - rewrite <- Z.mul_assoc, <- Z.pow_add_r by lia. do 2 f_equal. lia.
Qed.

(** The conversion of an integer below [2^53] is exact. *)
Lemma of_Z_exact (n : Z) : 0 < n < 2 ^ 53 -> Float.of_Z n = exact_float n.
Proof.
  intros Hn. destruct (exact_mantissa n Hn) as [Hm Hd].
  destruct n as [|p|p]; try lia.
  unfold Float.of_Z, binary_normalize, binary_round, exact_float.
  change (Z.pos (digits2_pos p)) with (Zdigits2 (Z.pos p)).
  rewrite Z.add_0_r.
  assert (Hf : fexp Float.prec Float.emax (Zdigits2 (Z.pos p)) = Zdigits2 (Z.pos p) - 53)
    by (unfold fexp, emin, Float.prec, Float.emax; lia).
  rewrite Hf. set (d := Zdigits2 (Z.pos p)) in *.
  set (M := Z.pos p * 2 ^ (53 - d)) in *.
  pose proof (round_aux_exact M 0 (d - 53) Hm ltac:(lia) ltac:(lia) ltac:(lia)) as Hr.
  change (2 ^ 0) with 1 in Hr. rewrite Z.mul_1_r, Z.add_0_r in Hr.
  unfold shl_align. rewrite Z.sub_0_r. unfold Float.prec, Float.emax.
  destruct (d - 53) as [|q|q] eqn:E; [| lia |].
  - assert (HM : M = Z.pos p).
    { unfold M. replace (53 - d) with 0 by lia. change (2 ^ 0) with 1. lia. }
    rewrite HM in Hr |- *. exact Hr.
  - assert (HM : M = Z.pos (Pos.iter xO p q)).
    { unfold M. rewrite iter_xO. replace (53 - d) with (Z.pos q) by lia. lia. }
    rewrite HM in Hr |- *. exact Hr.
Qed.

(** The integer comes back from its float. *)
Lemma trunc_exact (n : Z) : 0 < n < 2 ^ 53 -> Float.trunc (exact_float n) = Some n.
Proof.
  intros Hn. destruct (exact_mantissa n Hn) as [Hm Hd].
  unfold exact_float, Float.trunc. cbn [cond_Zopp].
  rewrite Z2Pos.id by lia.
  destruct (Z.leb_spec 0 (Zdigits2 n - 53)) as [H|H].
  - replace (Zdigits2 n - 53) with 0 by lia. replace (53 - Zdigits2 n) with 0 by lia.
    f_equal. simpl. lia.
  - replace (- (Zdigits2 n - 53)) with (53 - Zdigits2 n) by lia.
    rewrite Z.div_mul; [reflexivity|].
    assert (0 < 2 ^ (53 - Zdigits2 n)) by (apply Z.pow_pos_nonneg; lia). lia.
Qed.


(** A quotient that is an integer below [2^53] is computed exactly. *)
Lemma div_exact (m1 : positive) (e1 : Z) (m2 : positive) (e2 : Z) (q : Z) :
  let e' := Z.min (Zdigits2 (Z.pos m1) + e1 - (Zdigits2 (Z.pos m2) + e2) - 53) (e1 - e2) in
  0 < q < 2 ^ 53 -> - 900 <= e' <= 0 ->
  Z.pos m1 * 2 ^ (e1 - e2 - e') = q * 2 ^ (- e') * Z.pos m2 ->
  Float.div (S754_finite false m1 e1) (S754_finite false m2 e2) = exact_float q.
Proof.
  intros e' Hq He' Heq. unfold Float.div, SFdiv. simpl xorb.
  pose proof (digits_pos (Z.pos m1) ltac:(lia)) as Hd1.
  pose proof (digits_pos (Z.pos m2) ltac:(lia)) as Hd2.
  rewrite div_core_eq by (fold e' in He'; lia). cbv zeta. fold e'.
  set (s := e1 - e2 - e') in *.
  assert (Hs : 0 <= s) by (unfold s, e'; lia).
  assert (Hp : 0 < 2 ^ (- e')) by (apply Z.pow_pos_nonneg; lia).
  rewrite Heq. rewrite Z.div_mul by lia. rewrite Z.mod_mul by lia.
  assert (Hloc : new_location (Z.pos m2) 0 = loc_Exact)
    by (unfold new_location; destruct (Z.even (Z.pos m2)); reflexivity).
  rewrite Hloc.
  (* the quotient has 53 bits at least *)
  assert (Hdq : 53 <= Zdigits2 q + - e').
  { rewrite <- digits_shift by lia.
    pose proof (digits_lower (Z.pos m1 * 2 ^ s)
                  ltac:(pose proof (Z.pow_pos_nonneg 2 s); nia)) as Hlo.
    rewrite digits_shift in Hlo by lia.
    pose proof (digits_upper (Z.pos m2) ltac:(lia)) as Hup.
    set (d1 := Zdigits2 (Z.pos m1)) in *. set (d2 := Zdigits2 (Z.pos m2)) in *.
    assert (Hexp : 52 + d2 <= d1 + s - 1) by (unfold s, e'; lia).
    assert (Hpow : 2 ^ (52 + d2) <= 2 ^ (d1 + s - 1)) by (apply Z.pow_le_mono_r; lia).
    rewrite Z.pow_add_r in Hpow by lia.
    assert (H52 : 2 ^ 52 <= q * 2 ^ (- e')).
    { assert (0 < 2 ^ d2) by (apply Z.pow_pos_nonneg; lia).
      assert (2 ^ 52 * Z.pos m2 < q * 2 ^ (- e') * Z.pos m2) by nia.
      nia. }
    replace 53 with (52 + 1) by lia. apply digits_ge; lia. }
  rewrite round_aux_int by lia.
  unfold exact_float. f_equal. lia.
Qed.

(** A product that is an integer below [2^53] is computed exactly. *)
Lemma mul_exact (a b : Z) :
  0 < a -> 0 < b -> a * b < 2 ^ 53 ->
  Float.mul (exact_float a) (exact_float b) = exact_float (a * b).
Proof.
  intros Ha Hb Hab.
  assert (Ha' : 0 < a < 2 ^ 53) by nia. assert (Hb' : 0 < b < 2 ^ 53) by nia.
  destruct (exact_mantissa a Ha') as [Hma Hda]. destruct (exact_mantissa b Hb') as [Hmb Hdb].
  destruct (exact_mantissa (a * b) ltac:(nia)) as [Hmab Hdab].
  unfold exact_float at 1 2. unfold Float.mul, SFmul. simpl xorb.
  rewrite Pos2Z.inj_mul, !Z2Pos.id by lia.
  set (da := Zdigits2 a) in *. set (db := Zdigits2 b) in *.
  replace (a * 2 ^ (53 - da) * (b * 2 ^ (53 - db)))
    with (a * b * 2 ^ (106 - da - db)).
  2: { replace (106 - da - db) with (53 - da + (53 - db)) by lia.
       rewrite Z.pow_add_r by lia. ring. }
  assert (Hd : da + db - 1 <= Zdigits2 (a * b)).
  { pose proof (digits_lower a Ha) as Hla. pose proof (digits_lower b Hb) as Hlb.
    fold da in Hla. fold db in Hlb.
    assert (0 < 2 ^ (da - 1)) by (apply Z.pow_pos_nonneg; lia).
    assert (0 < 2 ^ (db - 1)) by (apply Z.pow_pos_nonneg; lia).
    replace (da + db - 1) with (da - 1 + (db - 1) + 1) by lia.
    apply digits_ge; [lia|]. rewrite Z.pow_add_r by lia. nia. }
  rewrite round_aux_int by (try nia; lia).
  unfold exact_float. f_equal. lia.
Qed.

(** ** The quotient of two integers, cut to an integer *)

Lemma final_mantissa_eq (m1 : Z) :
  0 <= m1 -> final_mantissa m1 = m1 / 2 ^ Z.max 0 (Zdigits2 m1 - 53).
Proof.
  intros Hm. unfold final_mantissa.
  destruct (shr_spec (shr_record_of_loc m1 loc_Exact) 0 (Zdigits2 m1 - 53)) as [_ Hs];
    [simpl; lia|].
  rewrite Hs. reflexivity.
Qed.

Lemma loc_of_record_of_loc (m : Z) (l : location) :
  loc_of_shr_record (shr_record_of_loc m l) = l.
Proof. destruct l as [|[]]; reflexivity. Qed.

(** The location of a remainder tells on which side of the half it
    lies. *)
Lemma new_location_upper (n r : Z) :
  0 < n -> 0 <= r < n ->
  new_location n r = loc_Inexact Eq \/ new_location n r = loc_Inexact Gt -> n <= 2 * r.
Proof.
  intros Hn Hr. unfold new_location, new_location_even, new_location_odd.
  destruct (Z.even n); destruct (Z.eqb_spec r 0) as [-> | Hne].
  - intros [H|H]; discriminate.
  - destruct (Z.compare_spec (2 * r) n) as [Hc|Hc|Hc]; intros [H|H]; try discriminate; lia.
  - intros [H|H]; discriminate.
  - destruct (Z.compare_spec (2 * r + 1) n) as [Hc|Hc|Hc]; intros [H|H]; try discriminate; lia.
Qed.

(** A significand of 53 bits is rounded where it stands, upward from
    the upper half only. *)
Lemma rounded_53 (q : Z) (l : location) :
  Zdigits2 q = 53 ->
  rounded q l = q \/
  (rounded q l = q + 1 /\ (l = loc_Inexact Eq \/ l = loc_Inexact Gt)).
Proof.
  intros Hd. unfold rounded. rewrite Hd. change (53 - 53) with 0.
  cbn [shr fst]. rewrite shr_record_of_loc_m, loc_of_record_of_loc.
  destruct l as [|[]]; simpl; auto.
  destruct (Z.even q); auto.
Qed.

(** A significand of 54 bits loses its last bit, and is rounded
    upward only when that bit is set. *)
Lemma rounded_54 (q : Z) (l : location) :
  0 <= q -> Zdigits2 q = 54 ->
  rounded q l = q / 2 \/ (rounded q l = q / 2 + 1 /\ q mod 2 = 1).
Proof.
  intros Hq Hd. unfold rounded. rewrite Hd. change (54 - 53) with 1.
  cbn [shr fst SpecFloat.iter_pos].
  assert (Hm : shr_m (shr_1 (shr_record_of_loc q l)) = q / 2)
    by (rewrite shr_1_m; rewrite shr_record_of_loc_m; [reflexivity | lia]).
  rewrite Hm.
  destruct q as [|q|q]; [discriminate Hd | | lia].
  destruct q as [p|p|].
  - assert (Hodd : Z.pos p~1 mod 2 = 1)
      by (symmetry; apply Z.mod_unique with (q := Z.pos p); lia).
    destruct l as [|[]]; cbn [shr_record_of_loc shr_1 loc_of_shr_record orb round_nearest_even];
      try (right; split; [reflexivity | exact Hodd]).
    destruct (Z.even (Z.pos p~1 / 2)); [left; reflexivity | right; split; [reflexivity | exact Hodd]].
  - left. destruct l as [|[]]; reflexivity.
  - discriminate Hd.
Qed.

(** What is left of the quotient after rounding: the integer part of
    [D / n], as soon as the bits that remain below the unit are more
    than the divisor has. *)
Lemma floor_after_rounding (D n K n1 m1 : Z) :
  0 < n -> 0 <= D -> 0 <= K -> n1 = 0 \/ n1 = 1 ->
  n < 2 ^ (K + 1) ->
  let A := D * 2 ^ (K + n1) in
  let N := n * 2 ^ n1 in
  m1 = A / N \/ (m1 = A / N + 1 /\ N <= 2 * (A mod N)) ->
  m1 / 2 ^ K = D / n.
Proof.
  intros Hn HD HK Hn1 HnK A N Hm.
  assert (HP : 0 < 2 ^ K) by (apply Z.pow_pos_nonneg; lia).
  assert (HE : 0 < 2 ^ n1) by (apply Z.pow_pos_nonneg; lia).
  assert (HN : 0 < N) by (unfold N; nia).
  assert (HA : A = D * 2 ^ K * 2 ^ n1)
    by (unfold A; rewrite Z.pow_add_r by lia; ring).
  assert (Hq1 : A / N = D * 2 ^ K / n).
  { rewrite HA. unfold N. apply Z.div_mul_cancel_r; lia. }
  assert (Hfloor : D * 2 ^ K / n / 2 ^ K = D / n).
  { rewrite Z.div_div by lia. apply Z.div_mul_cancel_r; lia. }
  destruct Hm as [-> | [-> Hup]].
  - now rewrite Hq1.
  - rewrite Hq1. rewrite <- Hfloor.
    set (q1 := D * 2 ^ K / n) in *.
    pose proof (Z.div_mod q1 (2 ^ K) ltac:(lia)) as Hdm.
    pose proof (Z.mod_pos_bound q1 (2 ^ K) HP) as Hrho.
    pose proof (Z.div_mod A N ltac:(lia)) as HdmA.
    pose proof (Z.mod_pos_bound A N HN) as HR.
    pose proof (Z.div_mod D n ltac:(lia)) as HdmD.
    pose proof (Z.mod_pos_bound D n Hn) as HrD.
    rewrite Hq1 in HdmA. fold q1 in HdmA.
    assert (Ht : q1 / 2 ^ K = D / n) by exact Hfloor.
    assert (Hlt : q1 mod 2 ^ K + 1 < 2 ^ K).
    { destruct (Z_lt_le_dec (q1 mod 2 ^ K + 1) (2 ^ K)) as [H|H]; [exact H | exfalso].
      assert (Hrho' : q1 mod 2 ^ K = 2 ^ K - 1) by lia.
      rewrite Ht, Hrho' in Hdm.
      rewrite Z.pow_add_r in HnK by lia. change (2 ^ 1) with 2 in HnK.
      set (P := 2 ^ K) in *. set (E := 2 ^ n1) in *. set (t := D / n) in *.
      set (R := A mod N) in *.
      assert (HAeq : D * P * E = (P * t + (P - 1)) * (n * E) + R)
        by (rewrite <- HA, <- Hdm; unfold N in HdmA; lia).
      assert (Hk : P * E * ((t + 1) * n - D) = n * E - R) by nia.
      assert (Hpos : 0 < (t + 1) * n - D) by nia.
      assert (Hhalf : 2 * (n * E - R) <= n * E) by (unfold N in Hup; lia).
      assert (HE' : E = 1 \/ E = 2) by (unfold E; destruct Hn1 as [-> | ->]; auto).
      nia. }
    symmetry. apply Z.div_unique with (r := q1 mod 2 ^ K + 1); lia.
Qed.

Lemma digits_54 (m : Z) : 2 ^ 53 <= m < 2 ^ 54 -> Zdigits2 m = 54.
Proof.
  intros [Hlo Hhi]. apply Z.le_antisymm.
  - apply digits_le; lia.
  - apply (digits_ge m 53); lia.
Qed.

(** The integer part of a positive float [m * 2^(-K)]. *)
Lemma trunc_finite (m : positive) (K : Z) :
  0 <= K -> Float.trunc (S754_finite false m (- K)) = Some (Z.pos m / 2 ^ K).
Proof.
  intros HK. unfold Float.trunc. cbn [cond_Zopp].
  destruct (Z.leb_spec 0 (- K)) as [H|H].
  - replace K with 0 by lia. change (- 0) with 0. change (2 ^ 0) with 1.
    now rewrite Z.mul_1_r, Z.div_1_r.
  - now rewrite Z.opp_involutive.
Qed.

(** [int(a / b)] for two integers of Python: as long as [a] is below
    [2^53] the float quotient, cut, is the quotient of the integers. *)
Lemma truediv_trunc (D n : Z) :
  0 <= D < 2 ^ 53 -> 0 < n < 2 ^ 63 ->
  Float.trunc (Float.truediv_Z D n) = Some (D / n).
Proof.
  intros HD Hn. destruct n as [|pn|pn]; try lia.
  destruct D as [|pD|pD]; [reflexivity | | lia].
  unfold Float.truediv_Z, Float.raw, Float.div, SFdiv. simpl xorb.
  pose proof (digits_pos (Z.pos pD) ltac:(lia)) as HdD1.
  assert (HdD2 : Zdigits2 (Z.pos pD) <= 53) by (apply digits_le; lia).
  pose proof (digits_pos (Z.pos pn) ltac:(lia)) as Hdn1.
  assert (Hdn2 : Zdigits2 (Z.pos pn) <= 63) by (apply digits_le; lia).
  pose proof (digits_lower (Z.pos pD) ltac:(lia)) as HloD.
  pose proof (digits_upper (Z.pos pD) ltac:(lia)) as HupD.
  pose proof (digits_lower (Z.pos pn) ltac:(lia)) as Hlon.
  pose proof (digits_upper (Z.pos pn) ltac:(lia)) as Hupn.
  rewrite div_core_eq by lia. cbv zeta.
  set (dD := Zdigits2 (Z.pos pD)) in *. set (dn := Zdigits2 (Z.pos pn)) in *.
  replace (Z.min (dD + 0 - (dn + 0) - 53) (0 - 0)) with (- (53 + dn - dD)) by lia.
  replace (0 - 0 - - (53 + dn - dD)) with (53 + dn - dD) by lia.
  set (s := 53 + dn - dD).
  assert (Hs : 1 <= s) by (unfold s; lia).
  set (A := Z.pos pD * 2 ^ s). set (q := A / Z.pos pn). set (r := A mod Z.pos pn).
  assert (HA : 2 ^ 52 * 2 ^ dn <= A < 2 ^ 53 * 2 ^ dn).
  { unfold A.
    assert (E1 : 2 ^ (dD - 1) * 2 ^ s = 2 ^ 52 * 2 ^ dn)
      by (rewrite <- !Z.pow_add_r by lia; f_equal; unfold s; lia).
    assert (E2 : 2 ^ dD * 2 ^ s = 2 ^ 53 * 2 ^ dn)
      by (rewrite <- !Z.pow_add_r by lia; f_equal; unfold s; lia).
    assert (0 < 2 ^ s) by (apply Z.pow_pos_nonneg; lia). nia. }
  assert (Hdn : 2 ^ dn = 2 * 2 ^ (dn - 1)).
  { replace dn with (1 + (dn - 1)) at 1 by lia. rewrite Z.pow_add_r by lia. reflexivity. }
  pose proof (Z.div_mod A (Z.pos pn) ltac:(lia)) as Hdm. fold q r in Hdm.
  pose proof (Z.mod_pos_bound A (Z.pos pn) ltac:(lia)) as Hr. fold r in Hr.
  assert (Hq : 2 ^ 52 <= q < 2 ^ 54).
  { split.
    - apply Z.div_le_lower_bound; [lia | nia].
    - apply Z.div_lt_upper_bound; [lia|]. change (2 ^ 54) with (2 * 2 ^ 53). nia. }
  rewrite round_aux_eq by lia. cbv zeta.
  (* the rounded significand and what was cut below it *)
  set (n1 := Z.max 0 (Zdigits2 q - 53)).
  set (K := s - n1).
  assert (Hcase : (n1 = 0 \/ n1 = 1) /\
            (rounded q (new_location (Z.pos pn) r) = A / (Z.pos pn * 2 ^ n1) \/
             (rounded q (new_location (Z.pos pn) r) = A / (Z.pos pn * 2 ^ n1) + 1 /\
              Z.pos pn * 2 ^ n1 <= 2 * (A mod (Z.pos pn * 2 ^ n1))))).
  { destruct (Z_lt_le_dec q (2 ^ 53)) as [Hlt|Hge].
    - assert (Hd : Zdigits2 q = 53) by (apply digits_53; lia).
      unfold n1. rewrite Hd. change (Z.max 0 (53 - 53)) with 0.
      change (2 ^ 0) with 1. rewrite Z.mul_1_r. fold q r.
      split; [auto|].
      destruct (rounded_53 q (new_location (Z.pos pn) r) Hd) as [E | [E Hl]]; [now left | right].
      split; [exact E|]. apply new_location_upper; [lia | exact Hr | exact Hl].
    - assert (Hd : Zdigits2 q = 54) by (apply digits_54; lia).
      unfold n1. rewrite Hd. change (Z.max 0 (54 - 53)) with 1.
      change (2 ^ 1) with 2. split; [auto|].
      assert (E2 : A / (Z.pos pn * 2) = q / 2) by (unfold q; now rewrite Z.div_div by lia).
      rewrite E2.
      destruct (rounded_54 q (new_location (Z.pos pn) r) ltac:(lia) Hd) as [E | [E Hodd]];
        [now left | right].
      split; [exact E|].
      pose proof (Z.div_mod q 2 ltac:(lia)) as Hq2.
      assert (Hmod : A mod (Z.pos pn * 2) = Z.pos pn + r).
      { symmetry. apply Z.mod_unique with (q := q / 2); [lia|]. nia. }
      rewrite Hmod. lia. }
  destruct Hcase as [Hn1 Hround].
  set (m1 := rounded q (new_location (Z.pos pn) r)) in *.
  assert (HK : 0 <= K) by (unfold K; lia).
  assert (Hfloor : m1 / 2 ^ K = Z.pos pD / Z.pos pn).
  { apply (floor_after_rounding (Z.pos pD) (Z.pos pn) K n1 m1); try lia.
    - apply Z.lt_le_trans with (2 ^ dn); [exact Hupn|].
      apply Z.pow_le_mono_r; unfold K, s; lia.
    - cbv zeta. replace (K + n1) with s by (unfold K; lia). exact Hround. }
  assert (Hm1 : 2 ^ 52 <= m1 <= 2 ^ 53).
  { assert (Hq1 : 2 ^ 52 <= A / (Z.pos pn * 2 ^ n1) < 2 ^ 53).
    { destruct Hn1 as [E|E]; rewrite E.
      - change (2 ^ 0) with 1. rewrite Z.mul_1_r. fold q.
        unfold n1 in E. pose proof (digits_ge q 53 ltac:(lia)) as Hg.
        destruct (Z_lt_le_dec q (2 ^ 53)); [lia | specialize (Hg ltac:(lia)); lia].
      - change (2 ^ 1) with 2. rewrite <- Z.div_div by lia. fold q.
        unfold n1 in E. pose proof (digits_lower q ltac:(lia)) as Hl.
        replace (Zdigits2 q - 1) with 53 in Hl by lia.
        split; [apply Z.div_le_lower_bound; lia | apply Z.div_lt_upper_bound; lia]. }
    destruct Hround as [-> | [-> _]]; lia. }
  replace (- s + n1) with (- K) by (unfold K; lia).
  destruct (Z.eq_dec m1 (2 ^ 53)) as [E53 | Hne].
  - rewrite E53 in *. change (final_mantissa (2 ^ 53)) with (2 ^ 52).
    change (Zdigits2 (2 ^ 53)) with 54. change (Z.max 0 (54 - 53)) with 1.
    change (2 ^ 52) with (Z.pos 4503599627370496).
    destruct (Z.leb_spec (- K + 1) 971); [| lia].
    rewrite <- Hfloor.
    destruct (Z.eq_dec K 0) as [-> | HK0].
    + reflexivity.
    + replace (- K + 1) with (- (K - 1)) by lia. rewrite trunc_finite by lia.
      f_equal. change (2 ^ 53) with (Z.pos 4503599627370496 * 2).
      replace K with (1 + (K - 1)) at 2 by lia. rewrite Z.pow_add_r by lia.
      change (2 ^ 1) with 2. rewrite Z.mul_comm.
      rewrite Z.div_mul_cancel_l; [reflexivity | | lia].
      assert (0 < 2 ^ (K - 1)) by (apply Z.pow_pos_nonneg; lia). lia.
  - assert (Hd : Zdigits2 m1 = 53) by (apply digits_53; lia).
    rewrite final_mantissa_eq by lia. rewrite Hd. change (Z.max 0 (53 - 53)) with 0.
    change (2 ^ 0) with 1. rewrite Z.div_1_r, Z.add_0_r.
    destruct m1 as [|p1|p1]; try lia.
    destruct (Z.leb_spec (- K) 971); [| lia].
    rewrite trunc_finite by lia. now rewrite Hfloor.
Qed.

(** [td / n] in nanoseconds: below [2^53] (about 104 days) the
    quotient of pandas is the quotient of the integers, cut. *)
Lemma td_truediv_floor (D n : Z) :
  0 <= D < 2 ^ 53 -> 0 < n < 2 ^ 63 -> Pd.td_truediv D n = Ok (D / n).
Proof.
  intros HD Hn. unfold Pd.td_truediv.
  destruct (Z.eqb_spec n 0) as [E|_]; [lia|].
  unfold py_int. rewrite truediv_trunc by assumption.
  assert (Hq : 0 <= D / n <= D).
  { split; [apply Z.div_pos; lia|]. apply Z.div_le_upper_bound; [lia | nia]. }
  unfold Pd.int64.
  destruct (Z.leb_spec (- 2 ^ 63) (D / n)); [| lia].
  destruct (Z.ltb_spec (D / n) (2 ^ 63)); [reflexivity | lia].
Qed.

(** ** Addition *)

(** The rounding of an integer significand, in closed form: it is
    shifted to 53 bits when it has fewer. *)
Lemma binary_round_eq (m : positive) (e : Z) :
  - 1021 <= Zdigits2 (Z.pos m) + e ->
  binary_round 53 1024 false m e
  = binary_round_aux 53 1024 false
      (Z.pos m * 2 ^ Z.max 0 (53 - Zdigits2 (Z.pos m)))
      (e - Z.max 0 (53 - Zdigits2 (Z.pos m))) loc_Exact.
Proof.
  intros He. unfold binary_round.
  change (Z.pos (digits2_pos m)) with (Zdigits2 (Z.pos m)).
  rewrite fexp_normal by assumption.
  set (d := Zdigits2 (Z.pos m)) in *.
  unfold shl_align.
  destruct (d + e - 53 - e) as [|k|k] eqn:E.
  - replace (Z.max 0 (53 - d)) with 0 by lia. change (2 ^ 0) with 1.
    now rewrite Z.mul_1_r, Z.sub_0_r.
  - replace (Z.max 0 (53 - d)) with 0 by lia. change (2 ^ 0) with 1.
    now rewrite Z.mul_1_r, Z.sub_0_r.
  - replace (Z.max 0 (53 - d)) with (Z.pos k) by lia.
    rewrite iter_xO. f_equal; lia.
Qed.

Lemma shl_align_fst (m : positive) (e ez : Z) :
  ez <= e -> Z.pos (shl_align m e ez).1 = Z.pos m * 2 ^ (e - ez).
Proof.
  intros H. unfold shl_align. destruct (ez - e) as [|k|k] eqn:E; cbn [fst].
  - replace (e - ez) with 0 by lia. change (2 ^ 0) with 1. lia.
  - lia.
  - rewrite iter_xO. replace (e - ez) with (Z.pos k) by lia. lia.
Qed.

(** The sum of two positive floats, before it is rounded. *)
Lemma add_finite_eq (mx : positive) (ex : Z) (my : positive) (ey : Z) :
  let ez := Z.min ex ey in
  let M := Z.pos mx * 2 ^ (ex - ez) + Z.pos my * 2 ^ (ey - ez) in
  Float.add (S754_finite false mx ex) (S754_finite false my ey)
  = binary_round 53 1024 false (Z.to_pos M) ez.
Proof.
  intros ez M. unfold Float.add, SFadd. cbn [cond_Zopp]. fold ez.
  rewrite !shl_align_fst by (unfold ez; lia). fold M.
  assert (HM : 0 < M).
  { assert (0 < 2 ^ (ex - ez)) by (apply Z.pow_pos_nonneg; unfold ez; lia).
    assert (0 < 2 ^ (ey - ez)) by (apply Z.pow_pos_nonneg; unfold ez; lia).
    unfold M. nia. }
  destruct M as [|p|p]; try lia. reflexivity.
Qed.

(** Addition under scaling by two, and the range of a sum. *)
Lemma add_scale (x y : float) (lo hi : Z) :
  bounded_float lo hi x -> bounded_float lo hi y ->
  - 900 <= lo -> hi <= 900 ->
  Float.add (scale2 x) (scale2 y) = scale2 (Float.add x y) /\
  bounded_float (lo - 52) (hi + 2) (Float.add x y).
Proof.
  intros Hx Hy Hlo Hhi.
  destruct x as [sx| | |sx mx ex], y as [sy| | |sy my ey]; simpl in Hx, Hy;
    try contradiction.
  - destruct sx, sy; split; try reflexivity; exact I.
  - split; [reflexivity|]. destruct Hy as (-> & He & Hm). simpl. split; [reflexivity | lia].
  - split; [reflexivity|]. destruct Hx as (-> & He & Hm). simpl. split; [reflexivity | lia].
  - destruct Hx as (-> & Hex & Hmx), Hy as (-> & Hey & Hmy).
    unfold scale2 at 1 2. rewrite !add_finite_eq. cbv zeta.
    replace (Z.min (ex + 1) (ey + 1)) with (Z.min ex ey + 1) by lia.
    set (ez := Z.min ex ey).
    replace (ex + 1 - (ez + 1)) with (ex - ez) by lia.
    replace (ey + 1 - (ez + 1)) with (ey - ez) by lia.
    set (M := Z.pos mx * 2 ^ (ex - ez) + Z.pos my * 2 ^ (ey - ez)).
    assert (H1 : 0 < 2 ^ (ex - ez)) by (apply Z.pow_pos_nonneg; unfold ez; lia).
    assert (H2 : 0 < 2 ^ (ey - ez)) by (apply Z.pow_pos_nonneg; unfold ez; lia).
    assert (HM : 0 < M) by (unfold M; nia).
    assert (Hup : M < 2 ^ (54 + (hi - lo))).
    { assert (Ha : 2 ^ (ex - ez) <= 2 ^ (hi - lo)) by (apply Z.pow_le_mono_r; unfold ez; lia).
      assert (Hb : 2 ^ (ey - ez) <= 2 ^ (hi - lo)) by (apply Z.pow_le_mono_r; unfold ez; lia).
      rewrite Z.pow_add_r by lia. change (2 ^ 54) with (2 * 2 ^ 53). unfold M. nia. }
    assert (Hup' : M < 2 ^ (54 + (Z.max ex ey - ez))).
    { assert (Ha : 2 ^ (ex - ez) <= 2 ^ (Z.max ex ey - ez))
        by (apply Z.pow_le_mono_r; unfold ez; lia).
      assert (Hb : 2 ^ (ey - ez) <= 2 ^ (Z.max ex ey - ez))
        by (apply Z.pow_le_mono_r; unfold ez; lia).
      rewrite Z.pow_add_r by (unfold ez; lia). change (2 ^ 54) with (2 * 2 ^ 53).
      unfold M. nia. }
    pose proof (digits_pos M HM) as Hd1.
    assert (Hd2 : Zdigits2 M <= 54 + (Z.max ex ey - ez))
      by (apply digits_le; [lia | unfold ez; lia]).
    rewrite !binary_round_eq by (rewrite Z2Pos.id by lia; unfold ez; lia).
    rewrite !Z2Pos.id by lia.
    set (k := Z.max 0 (53 - Zdigits2 M)).
    assert (Hk : 0 <= k <= 52) by (unfold k; lia).
    assert (Hdk : Zdigits2 (M * 2 ^ k) = Zdigits2 M + k) by (apply digits_shift; lia).
    assert (Hpk : 0 < 2 ^ k) by (apply Z.pow_pos_nonneg; lia).
    replace (ez + 1 - k) with (ez - k + 1) by lia.
    split.
    + apply round_aux_shift; [nia | unfold ez; lia | rewrite Hdk; unfold ez, k in *; lia].
    + eapply bounded_float_weaken; [| | apply round_aux_bounded];
        rewrite ?Hdk; unfold ez, k in *; lia.
Qed.

(** ** The seconds of a duration *)

Lemma exact_float_double (n : Z) :
  0 < n -> 2 * n < 2 ^ 53 -> exact_float (2 * n) = scale2 (exact_float n).
Proof.
  intros Hn Hmax. unfold exact_float, scale2.
  assert (Hd : Zdigits2 (2 * n) = Zdigits2 n + 1).
  { replace (2 * n) with (n * 2 ^ 1) by (change (2 ^ 1) with 2; lia).
    apply digits_shift; lia. }
  assert (Hd53 : Zdigits2 (2 * n) <= 53) by (apply digits_le; lia).
  rewrite Hd in *. pose proof (digits_pos n Hn) as Hd1.
  f_equal; [| lia].
  f_equal.
  replace (53 - Zdigits2 n) with (1 + (53 - (Zdigits2 n + 1))) by lia.
  rewrite Z.pow_add_r by lia. change (2 ^ 1) with 2. ring.
Qed.

Lemma div_scale (x : float) (lo hi : Z) (my : positive) (ey : Z) :
  bounded_float lo hi x ->
  - 400 <= lo -> hi <= 400 -> - 400 <= ey <= 400 -> Z.pos my < 2 ^ 53 ->
  Float.div (scale2 x) (S754_finite false my ey)
  = scale2 (Float.div x (S754_finite false my ey)) /\
  bounded_float (lo - ey - 105) (hi - ey + 12) (Float.div x (S754_finite false my ey)).
Proof.
  intros Hx Hlo Hhi Hey Hmy.
  destruct x as [s| | |s m e]; simpl in Hx; try contradiction.
  - split; [reflexivity | exact I].
  - destruct Hx as (-> & He & Hm). unfold scale2 at 1.
    destruct (div_finite_scale false m e my ey) as [Heq Hb];
      [reflexivity | lia | lia | lia | lia |].
    split; [exact Heq|].
    eapply bounded_float_weaken; [| | exact Hb]; lia.
Qed.

(** The seconds of a number of microseconds, and of twice as many. *)
Lemma micro_seconds_double (u : Z) :
  0 <= u < 2 ^ 62 ->
  Time.total_seconds (2 * u) = scale2 (Time.total_seconds u) /\
  bounded_float (- 105) 12 (Time.total_seconds u).
Proof.
  intros Hu. destruct u as [|p|p]; try lia.
  { split; [reflexivity | exact I]. }
  change (2 * Z.pos p) with (Z.pos p~0).
  unfold Time.total_seconds, Float.truediv_Z.
  change (Float.raw (10 ^ 6)) with (S754_finite false 1000000 0).
  change (Float.raw (Z.pos p~0)) with (S754_finite false p~0 0).
  change (Float.raw (Z.pos p)) with (S754_finite false p 0).
  assert (Hdp : Zdigits2 (Z.pos p~0) <= 63) by (apply digits_le; lia).
  rewrite div_double;
    [| change (Zdigits2 (Z.pos 1000000)) with 20; lia | lia | lia | lia | lia].
  change (0 + 1) with 1.
  destruct (div_finite_scale false p 0 1000000 0) as [Heq Hb];
    [reflexivity | lia | lia | lia | lia |].
  split; [exact Heq | exact Hb].
Qed.

Lemma of_Z_double (S : Z) :
  0 <= S -> 2 * S < 2 ^ 53 -> Float.of_Z (2 * S) = scale2 (Float.of_Z S).
Proof.
  intros HS Hmax. destruct (Z.eq_dec S 0) as [-> | Hne]; [reflexivity|].
  rewrite !of_Z_exact by lia. apply exact_float_double; lia.
Qed.

(** The parts of a duration in nanoseconds: whole seconds and whole
    microseconds below the second. *)
Lemma duration_parts (d : Z) :
  0 <= d < 2 ^ 63 ->
  0 <= d / 10 ^ 9 < 2 ^ 34 /\ 0 <= d mod 10 ^ 9 / 1000 < 10 ^ 6.
Proof.
  intros Hd.
  pose proof (Z.mod_pos_bound d (10 ^ 9) ltac:(lia)) as Hr.
  split; split.
  - apply Z.div_pos; lia.
  - apply Z.div_lt_upper_bound; lia.
  - apply Z.div_pos; lia.
  - apply Z.div_lt_upper_bound; lia.
Qed.

(** Every duration that 64 bits hold has its seconds as a float in a
    modest range. *)
Lemma pd_total_seconds_bounded (d : Z) :
  0 <= d < 2 ^ 63 -> bounded_float (- 157) 14 (Pd.total_seconds d).
Proof.
  intros Hd. destruct (duration_parts d Hd) as [HS Hu].
  unfold Pd.total_seconds.
  fold (Time.total_seconds (d mod 10 ^ 9 / 1000)).
  destruct (micro_seconds_double (d mod 10 ^ 9 / 1000) ltac:(lia)) as [_ Hb].
  pose proof (of_Z_bounded (d / 10 ^ 9) ltac:(lia)) as Ha.
  apply (add_scale _ _ (- 105) 12); [| exact Hb | lia | lia].
  eapply bounded_float_weaken; [| | exact Ha]; lia.
Qed.

(** Twice a duration has twice the seconds, as long as the doubling
    carries nothing from the nanoseconds into the microseconds nor
    from the microseconds into the seconds. *)
Lemma pd_total_seconds_double (d : Z) :
  0 <= d < 2 ^ 62 -> d mod 1000 < 500 -> d mod 10 ^ 9 < 5 * 10 ^ 8 ->
  Pd.total_seconds (2 * d) = scale2 (Pd.total_seconds d).
Proof.
  intros Hd Hns Hus. destruct (duration_parts d ltac:(lia)) as [HS Hu].
  pose proof (Z.div_mod d (10 ^ 9) ltac:(lia)) as HdS.
  pose proof (Z.mod_pos_bound d (10 ^ 9) ltac:(lia)) as Hr.
  set (S := d / 10 ^ 9) in *. set (r := d mod 10 ^ 9) in *.
  pose proof (Z.div_mod r 1000 ltac:(lia)) as Hru.
  pose proof (Z.mod_pos_bound r 1000 ltac:(lia)) as Ht.
  assert (Et : r mod 1000 = d mod 1000).
  { apply Z.mod_unique with (q := S * 10 ^ 6 + r / 1000); lia. }
  assert (E1 : 2 * d / 10 ^ 9 = 2 * S).
  { symmetry. apply Z.div_unique with (r := 2 * r); lia. }
  assert (E2 : (2 * d) mod 10 ^ 9 = 2 * r).
  { symmetry. apply Z.mod_unique with (q := 2 * S); lia. }
  assert (E3 : 2 * r / 1000 = 2 * (r / 1000)).
  { symmetry. apply Z.div_unique with (r := 2 * (r mod 1000)); lia. }
  unfold Pd.total_seconds. fold S r. rewrite E1, E2, E3.
  fold (Time.total_seconds (2 * (r / 1000))). fold (Time.total_seconds (r / 1000)).
  destruct (micro_seconds_double (r / 1000) ltac:(lia)) as [-> Hb].
  rewrite of_Z_double by lia.
  pose proof (of_Z_bounded S ltac:(lia)) as Ha.
  apply (add_scale _ _ (- 105) 12); [| exact Hb | lia | lia].
  eapply bounded_float_weaken; [| | exact Ha]; lia.
Qed.

(** A whole number of seconds is held exactly. *)
Lemma pd_total_seconds_whole (k : Z) :
  0 < k < 2 ^ 53 -> Pd.total_seconds (Pd.seconds k) = exact_float k.
Proof.
  intros Hk. unfold Pd.total_seconds, Pd.seconds.
  rewrite Z.div_mul by lia. rewrite Z.mod_mul by lia.
  rewrite of_Z_exact by assumption. reflexivity.
Qed.

Lemma py_int_whole_seconds (k : Z) :
  0 <= k < 2 ^ 53 -> py_int (Pd.total_seconds (Pd.seconds k)) = Ok k.
Proof.
  intros Hk. destruct (Z.eq_dec k 0) as [-> | Hne]; [reflexivity|].
  rewrite pd_total_seconds_whole by lia. unfold py_int. now rewrite trunc_exact by lia.
Qed.

(** ** The time factor of a segment *)

Lemma time_factor_bounded (d : Pd.Timedelta) :
  0 <= d < 2 ^ 63 -> bounded_float (- 221) 67 (time_factor d).
Proof.
  intros Hd. unfold time_factor.
  change (Float.of_Z od_matrix_duration)
    with (S754_finite false 7916483719987200 (- 41)).
  destruct (div_scale (Pd.total_seconds d) (- 157) 14 7916483719987200 (- 41))
    as [_ Hb]; [now apply pd_total_seconds_bounded | lia | lia | lia | lia |].
  eapply bounded_float_weaken; [| | exact Hb]; lia.
Qed.

Lemma time_factor_double (d : Pd.Timedelta) :
  0 <= d < 2 ^ 62 -> d mod 1000 < 500 -> d mod 10 ^ 9 < 5 * 10 ^ 8 ->
  time_factor (2 * d) = scale2 (time_factor d).
Proof.
  intros Hd Hns Hus. unfold time_factor.
  rewrite pd_total_seconds_double by assumption.
  change (Float.of_Z od_matrix_duration)
    with (S754_finite false 7916483719987200 (- 41)).
  apply (div_scale (Pd.total_seconds d) (- 157) 14 7916483719987200 (- 41));
    [apply pd_total_seconds_bounded | | | |]; lia.
Qed.

Lemma time_factor_whole_hours (k : Z) :
  0 < k -> 3600 * k < 2 ^ 53 ->
  time_factor (Pd.seconds (3600 * k)) = exact_float k.
Proof.
  intros Hk Hmax. unfold time_factor.
  rewrite pd_total_seconds_whole by lia.
  change (Float.of_Z od_matrix_duration)
    with (S754_finite false 7916483719987200 (- 41)).
  destruct (exact_mantissa (3600 * k) ltac:(lia)) as [Hm Hd].
  destruct (exact_mantissa k ltac:(lia)) as [Hmk Hdk].
  unfold exact_float at 1.
  set (d := Zdigits2 (3600 * k)) in *.
  assert (Hdig : Zdigits2 (Z.pos (Z.to_pos (3600 * k * 2 ^ (53 - d)))) = 53).
  { rewrite Z2Pos.id by lia. now apply digits_53. }
  assert (Hd12 : 12 <= d).
  { replace 12 with (11 + 1) by lia. apply digits_ge; [lia|]. change (2 ^ 11) with 2048. lia. }
  apply div_exact; cbv zeta; try rewrite Hdig;
    try change (Zdigits2 (Z.pos 7916483719987200)) with 53.
  - lia.
  - lia.
  - rewrite Z2Pos.id by lia.
    replace (Z.min (53 + (d - 53) - (53 + -41) - 53) (d - 53 - -41)) with (d - 65) by lia.
    replace (d - 53 - -41 - (d - 65)) with 53 by lia.
    replace (- (d - 65)) with (53 - d + 12) by lia.
    change (Z.pos 7916483719987200) with (3600 * 2 ^ 41).
    rewrite (Z.pow_add_r 2 (53 - d) 12) by lia.
    change (2 ^ 53) with (2 ^ 12 * 2 ^ 41). ring.
Qed.


(** ** Vehicle-type customization *)

Lemma vtypes_ref_neq_vtypes (self : Simulation) :
  _path_to_vtypes self <> _path_to_vtypes_ref self.
Proof.
  unfold _path_to_vtypes, _path_to_vtypes_ref. apply child_neq_name.
  apply append_neq_shorter. simpl. lia.
Qed.

(** The template is left alone also when the call raises. *)
Lemma customize_vtype_file_frame
    (float_str : float -> string) (ref new : path) (tau : float) (fs : FS) (q : path) :
  new <> q -> (customize_vtype_file float_str ref new tau fs).2 !! q = fs !! q.
Proof.
  intros Hne. unfold customize_vtype_file, bind, Fs.read_text.
  destruct (fs !! ref) as [[c|]|]; simpl; try reflexivity.
  now apply write_text_frame.
Qed.

Lemma old_string_no_line_end : no_line_end old_string = true.
Proof. reflexivity. Qed.

(** C9, as the code has it. For a scenario whose identifier is a plain
    name, vehicle-type customization never modifies the template file,
    whatever the outcome of the call. When the marker [tau="1.0"] does
    not occur in the template, the call succeeds (the directory of the
    vehicle-type files being there) and the file it writes holds the
    content of the template as text mode reads it: with every line end
    turned into a line feed. The copy is the content of the template
    byte for byte when that holds no carriage return. *)
Theorem customize_vtype_file_keeps_template
    (float_str : float -> string) (self : Simulation) (fs : FS) :
  plain_name (sim_id self) = true ->
  let run := customize_vtype_file float_str (_path_to_vtypes_ref self)
                                  (_path_to_vtypes self) (_tau self) fs in
  run.2 !! _path_to_vtypes_ref self = fs !! _path_to_vtypes_ref self /\
  (forall content,
     fs !! _path_to_vtypes_ref self = Some (File content) ->
     fs !! _path_to_additional self = Some Dir ->
     fs !! _path_to_vtypes self <> Some Dir ->
     Text.contains old_string content = false ->
     run.1 = Ok tt /\
     run.2 !! _path_to_vtypes self = Some (File (Text.universal_newlines content)) /\
     (no_cr content = true -> run.2 !! _path_to_vtypes self = Some (File content))).
Proof.
  intros _ run. subst run. split.
  - apply customize_vtype_file_frame, vtypes_ref_neq_vtypes.
  - intros content Href Hdir Hnew Habsent. unfold customize_vtype_file.
    rewrite (bind_ok _ _ _ _ _ (read_text_file _ _ _ Href)).
    rewrite <- (contains_newlines _ _ old_string_no_line_end) in Habsent.
    rewrite (replace_absent _ _ _ Habsent).
    rewrite write_text_ok; [| assumption |].
    + simpl. split; [reflexivity|]. split; [apply lookup_insert_eq|].
      intros Hcr. rewrite lookup_insert_eq. now rewrite universal_newlines_id.
    + unfold _path_to_vtypes. now rewrite parent_child.
Qed.

(** ** The coordinate transform *)


(** ** The traffic factor *)

Lemma assoc_In {A} (k : ascii) (v : A) (l : list (ascii * A)) :
  assoc k l = Some v -> In (k, v) l.
Proof.
  induction l as [|[k' v'] l IH]; simpl; [discriminate|].
  destruct (Ascii.eqb k k') eqn:E.
  - intros [= ->]. apply Ascii.eqb_eq in E as ->. now left.
  - intros H. right. now apply IH.
Qed.


(** ** Scratch cleanup *)

Lemma rmtree_lookup (o p : path) (fs : FS) :
  Fs.rmtree o fs !! p = if decide (o `prefix_of` p) then None else fs !! p.
Proof.
  unfold Fs.rmtree. destruct (decide (o `prefix_of` p)) as [Hp|Hp].
  - apply map_lookup_filter_None. right. intros x _ Hn. simpl in Hn. contradiction.
  - destruct (fs !! p) as [x|] eqn:E.
    + apply map_lookup_filter_Some. split; [assumption | exact Hp].
    + apply map_lookup_filter_None. now left.
Qed.

(** Deleting removes the object. *)
Lemma delete_object_self (fs : FS) (o : path) : delete_object fs o !! o = None.
Proof.
  unfold delete_object, Fs.is_file, Fs.is_dir, Fs.remove.
  destruct (fs !! o) as [[c|]|] eqn:E.
  - apply lookup_delete_eq.
  - rewrite rmtree_lookup. now rewrite decide_True.
  - assumption.
Qed.

(** Deleting creates nothing. *)
Lemma delete_object_none (fs : FS) (o p : path) :
  fs !! p = None -> delete_object fs o !! p = None.
Proof.
  intros Hp. unfold delete_object, Fs.is_file, Fs.is_dir, Fs.remove.
  destruct (fs !! o) as [[c|]|] eqn:E.
  - destruct (decide (o = p)) as [->|Hne];
      [apply lookup_delete_eq | now rewrite lookup_delete_ne].
  - rewrite rmtree_lookup. now destruct (decide _).
  - assumption.
Qed.

(** Deleting touches only the object and what lies below it. *)
Lemma delete_object_frame (fs : FS) (o p : path) :
  ~ o `prefix_of` p -> delete_object fs o !! p = fs !! p.
Proof.
  intros Hp. unfold delete_object, Fs.is_file, Fs.is_dir, Fs.remove.
  destruct (fs !! o) as [[c|]|] eqn:E.
  - apply lookup_delete_ne. intros ->. now apply Hp.
  - rewrite rmtree_lookup. now rewrite decide_False.
  - reflexivity.
Qed.

Lemma fold_delete_none (l : list path) (fs : FS) (p : path) :
  fs !! p = None -> fold_left delete_object l fs !! p = None.
Proof.
  revert fs. induction l as [|o l IH]; intros fs Hp; simpl; [assumption|].
  apply IH. now apply delete_object_none.
Qed.

Lemma fold_delete_member (l : list path) (fs : FS) (o : path) :
  In o l -> fold_left delete_object l fs !! o = None.
Proof.
  revert fs. induction l as [|o' l IH]; intros fs Hin; simpl; [contradiction|].
  destruct Hin as [->|Hin].
  - apply fold_delete_none, delete_object_self.
  - now apply IH.
Qed.

Lemma fold_delete_frame (l : list path) (fs : FS) (p : path) :
  (forall o, In o l -> ~ o `prefix_of` p) -> fold_left delete_object l fs !! p = fs !! p.
Proof.
  revert fs. induction l as [|o l IH]; intros fs Hl; simpl; [reflexivity|].
  rewrite IH.
  - apply delete_object_frame, Hl. now left.
  - intros o' Ho'. apply Hl. now right.
Qed.

(** Paths are compared component by component below the directory of
    the simulation. *)
Ltac path_normal :=
  unfold _path_to_vtypes, _path_to_vtypes_ref, _path_to_sumo_config_file,
    _path_to_omnetpp_file_long, _path_to_services_file, _path_to_routes,
    _path_to_additional_file, _path_to_sim_config_copy, _path_to_results_config,
    _path_to_results, _path_to_additional, _path_to_traffic, _path_to_sumo, child in *;
  repeat rewrite <- app_assoc in *; simpl in *.

Ltac no_prefix H :=
  repeat match type of H with
         | (_ ++ _) `prefix_of` (_ ++ _) => apply prefix_app_inv in H
         | (_ :: _) `prefix_of` (_ :: _) =>
             let E := fresh "E" in
             pose proof (prefix_cons_inv_1 _ _ _ _ H) as E;
             apply prefix_cons_inv_2 in H;
             try discriminate E
         | (_ :: _) `prefix_of` [] => now apply prefix_nil_not in H
         end.

Lemma template_outside_objects (self : Simulation) (o : path) :
  In o (objects_2_delete self) -> ~ o `prefix_of` _path_to_vtypes_ref self.
Proof.
  unfold objects_2_delete. intros Hin H.
  repeat destruct Hin as [<-|Hin]; try contradiction; path_normal; no_prefix H.
  all: match goal with
       | E : ?a +:+ ?b = ?c |- _ => apply (append_neq_shorter a b c); [simpl; lia | exact E]
       end.
Qed.

Lemma config_copy_outside_objects (self : Simulation) (o : path) :
  In (_path_to_simulation self, path_to_results self) main_paths ->
  In o (objects_2_delete self) -> ~ o `prefix_of` _path_to_sim_config_copy self.
Proof.
  unfold objects_2_delete, main_paths. intros Hmain Hin H.
  destruct Hmain as [Hm|[Hm|[]]]; injection Hm as Hs Hr;
    repeat destruct Hin as [<-|Hin]; try contradiction; path_normal;
    rewrite <- Hs, <- Hr in H; simpl in H; no_prefix H.
  all: match goal with
       | E : ?a +:+ ?b = ?c |- _ => apply (append_neq_shorter a b c); [simpl; lia | exact E]
       end.
Qed.


Lemma delete_object_lookup (fs : FS) (o p : path) :
  delete_object fs o !! p = if removed_with fs o p then None else fs !! p.
Proof.
  unfold delete_object, removed_with, Fs.is_file, Fs.is_dir, Fs.remove.
  destruct (fs !! o) as [[c|]|] eqn:E; simpl.
  - rewrite orb_false_r. destruct (bool_decide_reflect (p = o)) as [->|Hne].
    + apply lookup_delete_eq.
    + apply lookup_delete_ne. congruence.
  - rewrite rmtree_lookup.
    destruct (decide (o `prefix_of` p)) as [Hp|Hp].
    + now rewrite bool_decide_eq_true_2.
    + now rewrite bool_decide_eq_false_2.
  - reflexivity.
Qed.

(** Objects none of which lies below another are deleted
    independently: what goes is what each of them takes away from the
    file system as it was at the start. *)
Lemma fold_delete_lookup (l : list path) (fs : FS) (p : path) :
  NoDup l ->
  (forall o o', In o l -> In o' l -> o `prefix_of` o' -> o = o') ->
  fold_left delete_object l fs !! p
  = if existsb (fun o => removed_with fs o p) l then None else fs !! p.
Proof.
  revert fs. induction l as [|o l IH]; intros fs Hnd Hind; [reflexivity|].
  apply NoDup_cons in Hnd as [Ho Hnd]. cbn [fold_left existsb].
  rewrite IH; [| assumption | intros o1 o2 H1 H2; apply Hind; now right].
  assert (Hsame : forall o', In o' l ->
                    removed_with (delete_object fs o) o' p = removed_with fs o' p).
  { intros o' Ho'. unfold removed_with, Fs.is_file, Fs.is_dir.
    rewrite delete_object_frame; [reflexivity|].
    intros Hp. apply Ho. rewrite list_elem_of_In.
    rewrite (Hind o o'); [assumption | now left | now right | assumption]. }
  assert (Hex : existsb (fun o' => removed_with (delete_object fs o) o' p) l
                = existsb (fun o' => removed_with fs o' p) l).
  { clear IH Hnd Hind Ho. induction l as [|o' l IHl]; [reflexivity|].
    cbn [existsb]. rewrite Hsame by now left.
    rewrite IHl; [reflexivity|]. intros o2 H2. apply Hsame. now right. }
  rewrite Hex, delete_object_lookup.
  destruct (removed_with fs o p); simpl; [| reflexivity].
  destruct (existsb (fun o' => removed_with fs o' p) l); reflexivity.
Qed.

(** None of the six objects of the cleanup lies below another. *)
Lemma objects_independent (self : Simulation) :
  NoDup (objects_2_delete self) /\
  (forall o o', In o (objects_2_delete self) -> In o' (objects_2_delete self) ->
                o `prefix_of` o' -> o = o').
Proof.
  assert (Hind : forall o o', In o (objects_2_delete self) -> In o' (objects_2_delete self) ->
                              o `prefix_of` o' -> o = o').
  { unfold objects_2_delete. intros o o' Ho Ho' H.
    repeat destruct Ho as [<-|Ho]; try contradiction;
      repeat destruct Ho' as [<-|Ho']; try contradiction;
      try reflexivity; exfalso; path_normal; no_prefix H.
    all: try match goal with
             | E : ?a +:+ ?b = ?c |- _ =>
                 first [ apply (append_neq_shorter a b c); [simpl; lia | exact E]
                       | apply append_inj_l in E; discriminate E ]
             end. }
  split; [| exact Hind].
  unfold objects_2_delete.
  repeat (apply NoDup_cons; split;
          [ rewrite list_elem_of_In; intros Hin; simpl in Hin;
            repeat destruct Hin as [Hin|Hin]; try contradiction;
            path_normal; apply app_inv_head in Hin;
            repeat (injection Hin as Hin); try discriminate;
            try match goal with
                | E : ?a +:+ ?b = ?a +:+ ?c |- _ => apply append_inj_l in E; discriminate E
                end
          | ]).
  apply NoDup_nil_2.
Qed.

Lemma removed_with_true (fs : FS) (o p : path) :
  removed_with fs o p = true <->
  ((exists c, fs !! o = Some (File c)) /\ p = o) \/ (fs !! o = Some Dir /\ o `prefix_of` p).
Proof.
  unfold removed_with, Fs.is_file, Fs.is_dir.
  destruct (fs !! o) as [[c|]|]; simpl.
  - rewrite orb_false_r, bool_decide_eq_true. split.
    + intros ->. left. split; [now exists c | reflexivity].
    + intros [[_ H] | [H _]]; [exact H | discriminate H].
  - rewrite bool_decide_eq_true. split.
    + intros H. right. now split.
    + intros [[[c H] _] | [_ H]]; [discriminate H | exact H].
  - split; [discriminate|]. intros [[[c H] _] | [H _]]; discriminate H.
Qed.

(** C8, as the code has it. For the directories that [main.py] passes
    and a scenario whose identifier is a plain name, scratch cleanup
    removes exactly the six scenario-scoped paths: the vehicle-type
    copy, the traffic-simulator configuration, the long path of the
    network-simulator configuration, the service file, the directory of
    generated routes, the additional file. A path is gone after the
    cleanup exactly when it was not there before, or is one of the six
    and was a file, or is or lies below one of the six that was a
    directory (so the directory of the routes goes with everything
    below it); every other path holds what it held. In particular the
    shared template of the vehicle types and the archived copy of the
    configuration are as before. *)
Theorem clean_removes_exactly (self : Simulation) (fs : FS) :
  In (_path_to_simulation self, path_to_results self) main_paths ->
  plain_name (sim_id self) = true ->
  let six := [ _path_to_vtypes self; _path_to_sumo_config_file self;
               _path_to_omnetpp_file_long self; _path_to_services_file self;
               _path_to_routes self; _path_to_additional_file self ] in
  (forall p, resolved p = true ->
     (clean self fs !! p = None <->
      fs !! p = None \/
      exists o, In o six /\
        (((exists c, fs !! o = Some (File c)) /\ p = o) \/
         (fs !! o = Some Dir /\ o `prefix_of` p)))) /\
  (forall p, resolved p = true ->
     clean self fs !! p <> None -> clean self fs !! p = fs !! p) /\
  clean self fs !! _path_to_vtypes_ref self = fs !! _path_to_vtypes_ref self /\
  clean self fs !! _path_to_sim_config_copy self = fs !! _path_to_sim_config_copy self.
Proof.
  intros Hmain _ six.
  destruct (objects_independent self) as [Hnd Hind].
  assert (Hlook : forall p, clean self fs !! p
                  = if existsb (fun o => removed_with fs o p) six then None else fs !! p).
  { intros p. unfold clean. now apply fold_delete_lookup. }
  split; [| split; [| split]].
  - intros p _. rewrite Hlook.
    destruct (existsb (fun o => removed_with fs o p) six) eqn:E.
    + split; [| reflexivity]. intros _. right.
      apply existsb_exists in E as (o & Ho & Hrm). exists o. split; [exact Ho|].
      now apply removed_with_true.
    + split; [now left|]. intros [H | (o & Ho & Hrm)]; [exact H | exfalso].
      apply removed_with_true in Hrm.
      assert (Ht : existsb (fun o => removed_with fs o p) six = true)
        by (apply existsb_exists; now exists o).
      congruence.
  - intros p _. rewrite Hlook.
    destruct (existsb (fun o => removed_with fs o p) six); [congruence | reflexivity].
  - unfold clean. apply fold_delete_frame, template_outside_objects.
  - unfold clean. apply fold_delete_frame. intros o. now apply config_copy_outside_objects.
Qed.


(** ** Time segments *)

Lemma enumerate_from_lookup {A} (l : list A) (start i : nat) :
  enumerate_from start l !! i = (fun a => ((start + i)%nat, a)) <$> l !! i.
Proof.
  revert start i. induction l as [|a l IH]; intros start i; [reflexivity|].
  destruct i as [|i]; simpl.
  - now rewrite Nat.add_0_r.
  - rewrite IH. now rewrite Nat.add_succ_r.
Qed.

Lemma enumerate_from_length {A} (l : list A) (start : nat) :
  length (enumerate_from start l) = length l.
Proof. revert start. induction l as [|a l IH]; intros; simpl; [reflexivity | now rewrite IH]. Qed.

(** A loop whose passes all succeed returns their results, one per
    element and in order. *)
Lemma traverse_ok {A B} (f : A -> outcome B) (g : A -> B) (l : list A) :
  (forall a, In a l -> f a = Ok (g a)) -> traverse f l = Ok (map g l).
Proof.
  induction l as [|a l IH]; intros H; simpl; [reflexivity|].
  rewrite (H a) by now left. rewrite IH; [reflexivity|].
  intros a' Ha'. apply H. now right.
Qed.

Lemma enumerate_In {A} (l : list A) (item : nat * A) :
  In item (enumerate l) -> (item.1 < length l)%nat /\ l !! item.1 = Some item.2.
Proof.
  intros Hin. apply list_elem_of_In, list_elem_of_lookup in Hin as [i Hi].
  unfold enumerate in Hi. rewrite enumerate_from_lookup in Hi.
  destruct (l !! i) as [a|] eqn:E; [|discriminate].
  injection Hi as <-. simpl. split; [now apply lookup_lt_Some in E | assumption].
Qed.

Lemma qsv_items_two :
  Forall (fun entry : ascii * list float => exists lo hi, entry.2 = [lo; hi]) qsv_items.
Proof.
  unfold qsv_items.
  repeat (apply Forall_cons; split; [eexists; eexists; reflexivity |]).
  apply Forall_nil_2.
Qed.

Lemma known_code_factor (qsv : ascii) :
  is_Some (dict_qsv_x qsv) ->
  exists lo hi, dict_qsv_x qsv = Some [lo; hi] /\
    py_truediv (py_sum [lo; hi]) (Z.of_nat (length [lo; hi]))
    = Some (Float.div (py_sum [lo; hi]) (Float.of_Z 2)).
Proof.
  intros [l Hl].
  pose proof (proj1 (List.Forall_forall _ _) qsv_items_two _ (assoc_In _ _ _ Hl))
    as (lo & hi & Hlo).
  simpl in Hlo. subst l. exists lo, hi. split; [assumption | reflexivity].
Qed.

(** The offsets of the segments stay within the duration. *)
Lemma segment_offset_range (D n i : Z) :
  0 <= D -> 0 <= i < n -> 0 <= D / n * i <= D.
Proof.
  intros HD Hi.
  assert (Hq : 0 <= D / n) by (apply Z.div_pos; lia).
  pose proof (Z.mul_div_le D n ltac:(lia)) as Hle.
  split; [nia|]. nia.
Qed.

(** A pass succeeds on a known code when the scenario lasts less than
    [2^53] nanoseconds and ends within the calendar. *)
Lemma time_segment_ok (today : Z) (self : Simulation) (item : nat * ascii) :
  is_Some (dict_qsv_x item.2) ->
  (item.1 < length (_qsv_sequence self))%nat ->
  0 <= _duration self < 2 ^ 53 ->
  Z.of_nat (length (_qsv_sequence self)) < 2 ^ 63 ->
  1 <= today ->
  base_start_time today + _duration self / 1000 < END_OF_TIME ->
  time_segment today self item.1 item.2 = Ok (segment_at today self item).
Proof.
  intros Hq Hlt HD Hn Htoday Hend.
  destruct (known_code_factor _ Hq) as (lo & hi & Hl & Hf).
  unfold time_segment, segment_at. rewrite Hl, Hf.
  set (n := Z.of_nat (length (_qsv_sequence self))) in *.
  set (D := _duration self) in *.
  rewrite td_truediv_floor by lia.
  destruct (segment_offset_range D n (Z.of_nat item.1) ltac:(lia) ltac:(lia)) as [Ho1 Ho2].
  unfold Pd.td_mul, Pd.int64.
  destruct (Z.leb_spec (- 2 ^ 63) (D / n * Z.of_nat item.1)); [| lia].
  destruct (Z.ltb_spec (D / n * Z.of_nat item.1) (2 ^ 63)); [| lia].
  cbn [andb]. unfold Pd.to_pytimedelta, Time.dt_add.
  assert (Hv : Time.valid_datetime (base_start_time today + D / n * Z.of_nat item.1 / 1000)
               = true).
  { assert (0 <= D / n * Z.of_nat item.1 / 1000) by (apply Z.div_pos; lia).
    assert (D / n * Z.of_nat item.1 / 1000 <= D / 1000) by (apply Z.div_le_mono; lia).
    unfold Time.valid_datetime, base_start_time, Time.midnight, _start_time in *.
    unfold END_OF_TIME in Hend.
    apply andb_true_intro. split; [apply Z.leb_le | apply Z.ltb_lt];
      unfold Time.DAY, Time.HOUR, Time.MINUTE, Time.SECOND in *; lia. }
  rewrite Hv. reflexivity.
Qed.

(** Whole microseconds of a sum: the sum of the whole microseconds, or
    one more. *)
Lemma micros_step (a b : Z) :
  a / 1000 + b / 1000 <= (a + b) / 1000 <= a / 1000 + b / 1000 + 1.
Proof.
  pose proof (Z.div_mod a 1000 ltac:(lia)). pose proof (Z.mod_pos_bound a 1000 ltac:(lia)).
  pose proof (Z.div_mod b 1000 ltac:(lia)). pose proof (Z.mod_pos_bound b 1000 ltac:(lia)).
  pose proof (Z.div_mod (a + b) 1000 ltac:(lia)).
  pose proof (Z.mod_pos_bound (a + b) 1000 ltac:(lia)). lia.
Qed.

(** C1, as the code has it. The duration [D] of a scenario is a
    duration of pandas, in nanoseconds. For every scenario of duration
    [0 <= D < 2^53] nanoseconds (about 104 days) whose [n] congestion
    codes are all in the table, and whose dates stay in the calendar,
    there are exactly [n] segments; each has the duration
    [d = D / n] cut to whole nanoseconds; segment [i] starts at the
    base start time plus the whole microseconds of [d * i], for a
    [datetime] holds microseconds. In nanoseconds the segments
    [d * i, d * (i + 1)) are contiguous, of equal length and do not
    overlap, and they cover [n * d = D - D mod n] nanoseconds: all of
    [D] exactly when [n] divides it, and less than [n] nanoseconds short
    of it otherwise. The start of a segment lies the whole microseconds
    of [d] after the start of the one before, or one microsecond more;
    it lies exactly there when [d] is a whole number of microseconds. *)
Theorem time_segments_partition (today : Z) (self : Simulation) :
  let n := Z.of_nat (length (_qsv_sequence self)) in
  let D := _duration self in
  let d := D / n in
  0 <= D < 2 ^ 53 ->
  n < 2 ^ 63 ->
  1 <= today ->
  base_start_time today + D / 1000 < END_OF_TIME ->
  Forall (fun qsv => is_Some (dict_qsv_x qsv)) (_qsv_sequence self) ->
  exists segs,
    time_segments today self = Ok segs /\
    length segs = length (_qsv_sequence self) /\
    (forall i seg, segs !! i = Some seg ->
       seg_idx seg = i /\ _qsv_sequence self !! i = Some (seg_qsv seg) /\
       seg_duration seg = d /\
       seg_start seg = base_start_time today + d * Z.of_nat i / 1000) /\
    (0 < n -> n * d = D - D mod n /\ 0 <= D mod n < n /\ (n * d = D <-> D mod n = 0)) /\
    (forall i seg seg', segs !! i = Some seg -> segs !! S i = Some seg' ->
       seg_start seg + d / 1000 <= seg_start seg' <= seg_start seg + d / 1000 + 1 /\
       (d mod 1000 = 0 -> seg_start seg' = seg_start seg + d / 1000)).
Proof.
  intros n D d HD Hn Htoday Hend Hcodes.
  exists (map (segment_at today self) (enumerate (_qsv_sequence self))).
  assert (Hlook : forall i seg,
             map (segment_at today self) (enumerate (_qsv_sequence self)) !! i = Some seg ->
             exists qsv, _qsv_sequence self !! i = Some qsv /\ seg = segment_at today self (i, qsv)).
  { intros i seg Hi. rewrite list_lookup_fmap in Hi. unfold enumerate in Hi.
    rewrite enumerate_from_lookup in Hi.
    destruct (_qsv_sequence self !! i) as [qsv|]; [|discriminate].
    exists qsv. split; [reflexivity|]. now injection Hi as <-. }
  split; [| split; [| split; [| split]]].
  - apply traverse_ok. intros item Hin. apply enumerate_In in Hin as [Hlt Hitem].
    apply time_segment_ok; try assumption.
    apply (proj1 (List.Forall_forall _ _) Hcodes). apply list_elem_of_In.
    eapply list_elem_of_lookup_2. exact Hitem.
  - rewrite length_map. unfold enumerate. apply enumerate_from_length.
  - intros i seg Hi. apply Hlook in Hi as (qsv & Hq & ->). simpl. auto.
  - intros Hpos. pose proof (Z.div_mod D n ltac:(lia)) as Hdm.
    pose proof (Z.mod_pos_bound D n Hpos) as Hr. fold d in Hdm. lia.
  - intros i seg seg' Hi Hi'. apply Hlook in Hi as (qsv & Hq & ->).
    apply Hlook in Hi' as (qsv' & Hq' & ->). cbn [seg_start segment_at fst]. fold n D d.
    replace (d * Z.of_nat (S i)) with (d * Z.of_nat i + d) by lia.
    pose proof (micros_step (d * Z.of_nat i) d) as Hstep. split; [lia|].
    intros Hwhole.
    pose proof (Z.div_mod d 1000 ltac:(lia)) as Hd. rewrite Hwhole, Z.add_0_r in Hd.
    rewrite Hd at 2. rewrite (Z.mul_comm 1000), Z.div_add by lia. lia.
Qed.

(** ** The traffic factor *)

(** For every entry of the congestion table, the float that
    [sum(l) / len(l)] gives lies within [2^-54] of the mean of the two
    bounds, and it is that mean for every code but [b], [d] and [e],
    where the sum of the bounds is rounded. *)
Lemma qsv_items_near_mean :
  Forall (fun entry : ascii * list float =>
            exists lo hi, entry.2 = [lo; hi] /\
              (Qabs (value (Float.div (py_sum [lo; hi]) (Float.of_Z 2))
                     - mean (value lo) (value hi)) <= 1 # 18014398509481984)%Q /\
              (entry.1 <> "b"%char -> entry.1 <> "d"%char -> entry.1 <> "e"%char ->
               (value (Float.div (py_sum [lo; hi]) (Float.of_Z 2))
                == mean (value lo) (value hi))%Q))
         qsv_items.
Proof.
  unfold qsv_items.
  repeat (apply Forall_cons; split;
          [ eexists; eexists; split; [reflexivity|]; split;
            [ vm_compute; discriminate
            | cbn [fst]; intros Hb Hd He;
              first [ vm_compute; reflexivity
                    | exfalso; first [now apply Hb | now apply Hd | now apply He] ] ]
          | ]).
  apply Forall_nil_2.
Qed.

(** C2, as the code has it. For every congestion code of the table and
    every segment of a scenario that has this code (the scenario lasting
    less than [2^53] nanoseconds and ending within the calendar), the
    pass of the loop derives the segment, and its traffic factor is the
    binary64 value of [(0 + lo + hi) / 2]: it lies within [2^-54] of the
    arithmetic mean of the two bounds, and it is the mean exactly for
    every code but [b], [d] and [e]. Code [c], of bounds 0.55 and 0.75,
    has the factor 0.65. *)
Theorem traffic_factor_is_mean (today : Z) (self : Simulation) (idx : nat) (qsv : ascii) :
  _qsv_sequence self !! idx = Some qsv ->
  is_Some (dict_qsv_x qsv) ->
  0 <= _duration self < 2 ^ 53 ->
  Z.of_nat (length (_qsv_sequence self)) < 2 ^ 63 ->
  1 <= today ->
  base_start_time today + _duration self / 1000 < END_OF_TIME ->
  exists lo hi seg,
    dict_qsv_x qsv = Some [lo; hi] /\
    time_segment today self idx qsv = Ok seg /\
    (Qabs (value (seg_factor seg) - mean (value lo) (value hi))
     <= 1 # 18014398509481984)%Q /\
    (qsv <> "b"%char -> qsv <> "d"%char -> qsv <> "e"%char ->
     (value (seg_factor seg) == mean (value lo) (value hi))%Q) /\
    (qsv = "c"%char -> lo = lit2 55 /\ hi = lit2 75 /\ seg_factor seg = lit2 65).
Proof.
  intros Hidx Hq HD Hn Htoday Hend. destruct Hq as [l Hl].
  pose proof (proj1 (List.Forall_forall _ _) qsv_items_near_mean _ (assoc_In _ _ _ Hl))
    as (lo & hi & Hlo & Hnear & Hexact).
  cbn [fst snd] in Hlo, Hnear, Hexact. subst l.
  exists lo, hi, (segment_at today self (idx, qsv)).
  assert (Hf : seg_factor (segment_at today self (idx, qsv))
               = Float.div (py_sum [lo; hi]) (Float.of_Z 2)).
  { cbn [segment_at seg_factor snd]. rewrite Hl. reflexivity. }
  split; [exact Hl|]. split.
  - apply (time_segment_ok today self (idx, qsv)); try assumption.
    + cbn [snd]. rewrite Hl. now eexists.
    + cbn [fst]. now apply lookup_lt_Some in Hidx.
  - rewrite Hf. split; [exact Hnear|]. split; [exact Hexact|].
    intros ->. vm_compute in Hl. injection Hl as <- <-.
    repeat split; vm_compute; reflexivity.
Qed.


(** ** Emission of a demand matrix *)

Lemma od_lines_ok (tf : float) (rows : list od_row) (counts : list Z) (fs : FS) :
  Forall2 (fun row c => od_count (od_num row) tf = Ok c) rows counts ->
  for_each (fun row =>
              let* count := of_outcome (od_count (od_num row) tf) in
              ret (str_matrix_line row count)) rows fs
  = (Ok (zip_with str_matrix_line rows counts), fs).
Proof.
  induction 1 as [|row c rows counts Hc _ IH]; [reflexivity|].
  cbn [for_each zip_with]. unfold bind at 1. unfold bind at 1. unfold of_outcome at 1.
  rewrite Hc. unfold ret at 1. unfold bind at 1. rewrite IH. reflexivity.
Qed.

(** When its inputs are there, the emission succeeds and writes the
    header and one line per row. *)
Lemma create_od_matrix_file_ok
    (read_csv : string -> outcome (list od_row))
    (csv out : path) (traffic_factor : float) (vtype : Z)
    (start_time : Time.datetime) (duration : Pd.Timedelta)
    (fs : FS) (text : string) (rows : list od_row) (counts : list Z) :
  Time.valid_datetime (start_time + duration / 1000) = true ->
  fs !! csv = Some (File text) ->
  read_csv text = Ok rows ->
  Forall2 (fun row c => od_count (od_num row) (time_factor duration) = Ok c) rows counts ->
  fs !! out <> Some Dir ->
  fs !! parent out = Some Dir ->
  create_od_matrix_file read_csv csv traffic_factor vtype out start_time duration fs
  = (Ok tt,
     <[out := File (front_text traffic_factor vtype start_time (start_time + duration / 1000)
                    +:+ od_body rows counts)]> fs).
Proof.
  intros Hv Hcsv Hread Hcounts Hout Hparent. unfold create_od_matrix_file.
  unfold Time.dt_add, Pd.to_pytimedelta. rewrite Hv. unfold lift, bind at 1, ret at 1.
  unfold bind at 1, Fs.resolve_strict. rewrite Hcsv.
  rewrite (bind_ok _ _ _ _ _ (read_raw_file _ _ _ Hcsv)).
  unfold bind at 1, of_outcome at 1. rewrite Hread.
  rewrite (bind_ok _ _ _ _ _ (od_lines_ok _ _ _ _ Hcounts)).
  now apply write_text_ok.
Qed.

(** Hours and minutes together are the minutes of the day. *)
Lemma minutes_of_day (t : Z) :
  0 <= t -> t / Time.HOUR * 60 + (t / Time.MINUTE) mod 60 = t / Time.MINUTE.
Proof.
  intros Ht. change Time.HOUR with (60 * Time.MINUTE).
  rewrite Z.mul_comm with (n := 60) (m := Time.MINUTE).
  rewrite <- Z.div_div by (unfold Time.MINUTE, Time.SECOND; lia).
  pose proof (Z.div_mod (t / Time.MINUTE) 60 ltac:(lia)). lia.
Qed.

(** C10. An emitted demand matrix holds, in its window line, the
    from-time and the to-time as hours and minutes of their times of
    day: the to-time is the end instant of the segment (the start plus
    the whole microseconds of the duration) reduced modulo 24 hours.
    When the end instant falls on the calendar day after the start (the
    segment being shorter than a day), the to-time has wrapped around:
    it is the time of day of the start plus the duration less 24 hours,
    it lies before the from-time, and the printed window is not the
    interval from the start to the start plus the duration. In the
    scenario of 36 hours and two codes, the file of the second segment
    reads 18.00 to 12.00. *)
Theorem od_window_wraps
    (read_csv : string -> outcome (list od_row))
    (csv out : path) (traffic_factor : float) (vtype : Z)
    (start_time : Time.datetime) (duration : Pd.Timedelta)
    (fs : FS) (text : string) (rows : list od_row) (counts : list Z) :
  let from_time := start_time mod Time.DAY in
  let to_time := (start_time + duration / 1000) mod Time.DAY in
  Time.valid_datetime (start_time + duration / 1000) = true ->
  fs !! csv = Some (File text) ->
  read_csv text = Ok rows ->
  Forall2 (fun row c => od_count (od_num row) (time_factor duration) = Ok c) rows counts ->
  fs !! out <> Some Dir ->
  fs !! parent out = Some Dir ->
  create_od_matrix_file read_csv csv traffic_factor vtype out start_time duration fs
  = (Ok tt,
     <[out := File (("$OM;D2" +:+ NL +:+
                     "*vehicle type" +:+ NL +:+
                     Text.str_Z vtype +:+ NL +:+
                     "*from-time to-time" +:+ NL +:+
                     (Text.fmt_02d (from_time / Time.HOUR) +:+ "." +:+
                      Text.fmt_02d ((from_time / Time.MINUTE) mod 60)) +:+ TAB +:+
                     (Text.fmt_02d (to_time / Time.HOUR) +:+ "." +:+
                      Text.fmt_02d ((to_time / Time.MINUTE) mod 60)) +:+ NL +:+
                     "*factor" +:+ NL +:+ Float.fmt_2f traffic_factor +:+ NL +:+ NL)
                    +:+ od_body rows counts)]> fs)
  /\ (Time.DAY <= from_time + duration / 1000 < 2 * Time.DAY ->
      duration / 1000 < Time.DAY ->
      to_time = from_time + duration / 1000 - Time.DAY /\
      to_time < from_time /\
      to_time / Time.HOUR * 60 + (to_time / Time.MINUTE) mod 60
      <= from_time / Time.HOUR * 60 + (from_time / Time.MINUTE) mod 60)
  /\ (let run := od_matrices Sample.today Sample.read_csv Sample.two_days "miv" 5
                             (Sample.files Sample.two_days) in
      run.1 = Ok [od_file_name Sample.two_days "miv" 0 "a";
                  od_file_name Sample.two_days "miv" 1 "b"] /\
      run.2 !! od_file_name Sample.two_days "miv" 1 "b"
      = Some (File ("$OM;D2" +:+ NL +:+ "*vehicle type" +:+ NL +:+ "5" +:+ NL +:+
                    "*from-time to-time" +:+ NL +:+ "18.00" +:+ TAB +:+ "12.00" +:+ NL +:+
                    "*factor" +:+ NL +:+ "0.43" +:+ NL +:+ NL +:+
                    TAB +:+ " 1 " +:+ TAB +:+ " 2 " +:+ TAB +:+ " 1800" +:+ NL))).
Proof.
  intros from_time to_time Hv Hcsv Hread Hcounts Hout Hparent. split; [| split].
  - change (String.append "$OM;D2" _) with
      (front_text traffic_factor vtype start_time (start_time + duration / 1000)).
    now apply create_od_matrix_file_ok with (text := text).
  - intros Hnext Hshort.
    assert (Hto : to_time = from_time + duration / 1000 - Time.DAY).
    { unfold to_time, from_time in *.
      pose proof (Z.mod_pos_bound start_time Time.DAY ltac:(reflexivity)) as Hb.
      rewrite <- Zplus_mod_idemp_l.
      symmetry. apply Z.mod_unique with (q := 1); [left |]; lia. }
    split; [exact Hto|]. split; [lia|].
    assert (Hfrom : 0 <= from_time)
      by (apply Z.mod_pos_bound; reflexivity).
    rewrite !minutes_of_day by lia. apply Z.div_le_mono; [reflexivity | lia].
  - vm_compute. split; reflexivity.
Qed.


(** ** Frames and failures of computations *)

Lemma touches_mono {A} (c : M A) (S T : path -> Prop) :
  (forall p, S p -> T p) -> touches c S -> touches c T.
Proof. intros HST Hc fs p Hp. apply Hc. intros HS. apply Hp, HST, HS. Qed.

Lemma touches_ret {A} (a : A) (S : path -> Prop) : touches (ret a) S.
Proof. intros fs p _. reflexivity. Qed.

Lemma touches_raise {A} (e : exn) (S : path -> Prop) : touches (@raise A e) S.
Proof. intros fs p _. reflexivity. Qed.

Lemma touches_lift {A} (e : exn) (o : option A) (S : path -> Prop) : touches (lift e o) S.
Proof. destruct o; [apply touches_ret | apply touches_raise]. Qed.

Lemma touches_of_outcome {A} (o : outcome A) (S : path -> Prop) : touches (of_outcome o) S.
Proof. intros fs p _. reflexivity. Qed.

Lemma touches_bind {A B} (c : M A) (k : A -> M B) (S : path -> Prop) :
  touches c S -> (forall a, touches (k a) S) -> touches (bind c k) S.
Proof.
  intros Hc Hk fs p Hp. unfold bind. specialize (Hc fs p Hp).
  destruct (c fs) as [[a|e] fs']; simpl in *; [| assumption].
  rewrite Hk by assumption. assumption.
Qed.

Lemma touches_for_each {A B} (f : A -> M B) (l : list A) (S : path -> Prop) :
  (forall a, In a l -> touches (f a) S) -> touches (for_each f l) S.
Proof.
  induction l as [|a l IH]; intros Hf; simpl; [apply touches_ret|].
  apply touches_bind; [apply Hf; now left|]. intros b.
  apply touches_bind; [| intros; apply touches_ret].
  apply IH. intros a' Ha'. apply Hf. now right.
Qed.

Lemma touches_resolve_strict (p : path) (S : path -> Prop) : touches (Fs.resolve_strict p) S.
Proof. intros fs q _. unfold Fs.resolve_strict. now destruct (fs !! p). Qed.

Lemma touches_read_text (p : path) (S : path -> Prop) : touches (Fs.read_text p) S.
Proof. intros fs q _. unfold Fs.read_text. now destruct (fs !! p) as [[|]|]. Qed.

Lemma touches_read_raw (p : path) (S : path -> Prop) : touches (Fs.read_raw p) S.
Proof. intros fs q _. unfold Fs.read_raw. now destruct (fs !! p) as [[|]|]. Qed.

Lemma touches_write_text (p : path) (c : string) : touches (Fs.write_text p c) (eq p).
Proof. intros fs q Hq. now apply write_text_frame. Qed.

Lemma touches_create_od_matrix_file
    (read_csv : string -> outcome (list od_row)) (csv out : path) (tf : float) (vtype : Z)
    (start_time : Time.datetime) (duration : Pd.Timedelta) :
  touches (create_od_matrix_file read_csv csv tf vtype out start_time duration) (eq out).
Proof.
  unfold create_od_matrix_file.
  apply touches_bind; [apply touches_lift|]. intros e.
  apply touches_bind; [apply touches_resolve_strict|]. intros _.
  apply touches_bind; [apply touches_read_raw|]. intros text.
  apply touches_bind; [apply touches_of_outcome|]. intros rows.
  apply touches_bind; [| intros; apply touches_write_text].
  apply touches_for_each. intros row _.
  apply touches_bind; [apply touches_of_outcome | intros; apply touches_ret].
Qed.

Lemma touches_create_additional_file
    (float_str : float -> string) (sumo out dump : path) (interval : Time.timedelta) :
  touches (create_additional_file float_str sumo out dump interval) (eq out).
Proof.
  unfold create_additional_file.
  apply touches_bind; [apply touches_lift | intros; apply touches_write_text].
Qed.

Lemma touches_customize_vtype_file
    (float_str : float -> string) (ref new : path) (tau : float) :
  touches (customize_vtype_file float_str ref new tau) (eq new).
Proof.
  unfold customize_vtype_file.
  apply touches_bind; [apply touches_read_text | intros; apply touches_write_text].
Qed.

(** A pass of the inner loop writes at most its own demand matrix. *)
Lemma touches_od_matrix_step
    (today : Z) (read_csv : string -> outcome (list od_row))
    (self : Simulation) (key : string) (vtype : Z) (item : nat * ascii) :
  touches (od_matrix_step today read_csv self key vtype item)
          (eq (od_file_name self key item.1 item.2)).
Proof.
  destruct item as [idx qsv]. unfold od_matrix_step.
  apply touches_bind; [apply touches_of_outcome|]. intros seg.
  apply touches_bind; [apply touches_create_od_matrix_file | intros; apply touches_ret].
Qed.

Lemma raises_bind_l {A B} (c : M A) (k : A -> M B) : raises c -> raises (bind c k).
Proof.
  intros Hc fs. destruct (Hc fs) as [e He]. exists e. unfold bind.
  destruct (c fs) as [[a|e'] fs']; simpl in *; [discriminate | now injection He as ->].
Qed.

Lemma raises_bind_r {A B} (c : M A) (k : A -> M B) :
  (forall a, raises (k a)) -> raises (bind c k).
Proof.
  intros Hk fs. unfold bind. destruct (c fs) as [[a|e] fs']; [apply Hk | now exists e].
Qed.

(** A loop with a pass that raises from every state raises. *)
Lemma raises_for_each {A B} (f : A -> M B) (l : list A) (a : A) :
  In a l -> raises (f a) -> raises (for_each f l).
Proof.
  induction l as [|a' l IH]; intros Hin Ha; [contradiction|]. simpl.
  destruct Hin as [->|Hin].
  - now apply raises_bind_l.
  - apply raises_bind_r. intros b. apply raises_bind_l. now apply IH.
Qed.

(** One pass of a loop, and then the rest. *)
Lemma for_each_cons {A B} (f : A -> M B) (a : A) (l : list A) (fs : FS) :
  for_each f (a :: l) fs
  = match f a fs with
    | (Ok b, fs1) =>
        match for_each f l fs1 with
        | (Ok bs, fs2) => (Ok (b :: bs), fs2)
        | (Raise e, fs2) => (Raise e, fs2)
        end
    | (Raise e, fs1) => (Raise e, fs1)
    end.
Proof.
  simpl. unfold bind, ret. destruct (f a fs) as [[b|e] fs1]; [|reflexivity].
  destruct (for_each f l fs1) as [[bs|e] fs2]; reflexivity.
Qed.

(** A loop stops at a pass that raises without touching the state:
    what it leaves is what the passes before it left. *)
Lemma for_each_stop {A B} (f : A -> M B) (l1 l2 : list A) (a : A) (e : exn) (fs : FS) :
  (forall fs', f a fs' = (Raise e, fs')) ->
  for_each f (l1 ++ a :: l2) fs
  = match for_each f l1 fs with
    | (Ok _, fs1) => (Raise e, fs1)
    | (Raise e', fs1) => (Raise e', fs1)
    end.
Proof.
  intros Ha. revert fs. induction l1 as [|a1 l1 IH]; intros fs.
  - cbn [app]. rewrite for_each_cons, Ha. reflexivity.
  - cbn [app]. rewrite !for_each_cons.
    destruct (f a1 fs) as [[b|e'] fs1]; [|reflexivity].
    rewrite IH. destruct (for_each f l1 fs1) as [[bs|e'] fs2]; reflexivity.
Qed.

Lemma for_each_ext {A B} (f g : A -> M B) (l : list A) (fs : FS) :
  (forall a fs', f a fs' = g a fs') -> for_each f l fs = for_each g l fs.
Proof.
  intros Hfg. revert fs. induction l as [|a l IH]; intros fs; [reflexivity|].
  rewrite !for_each_cons, Hfg.
  destruct (g a fs) as [[b|e] fs1]; [|reflexivity]. now rewrite IH.
Qed.

Lemma bind_ext {A B} (c c' : M A) (k k' : A -> M B) (fs : FS) :
  (forall fs', c fs' = c' fs') -> (forall a fs', k a fs' = k' a fs') ->
  bind c k fs = bind c' k' fs.
Proof.
  intros Hc Hk. unfold bind. rewrite Hc. destruct (c' fs) as [[a|e] fs1]; [apply Hk | reflexivity].
Qed.


(** ** External tools and their exit status *)

Section ExitStatus.

Variable today : Z.
Variable float_str : float -> string.
Variable read_csv : string -> outcome (list od_row).
Variable os_system : string -> FS -> Z * FS.

Lemma od_trips_step_status (self : Simulation) (item : string * Z) (fs : FS) :
  od_trips_step today read_csv os_system self item fs
  = od_trips_step today read_csv (always_zero os_system) self item fs.
Proof.
  destruct item as [key vtype]. unfold od_trips_step, bind.
  destruct (od_matrices today read_csv self key vtype fs) as [[files|e] fs1]; [|reflexivity].
  unfold system, always_zero. now destruct (os_system _ fs1).
Qed.

Lemma obstruction_route_status (self : Simulation) (fs : FS) :
  obstruction_route os_system self fs = obstruction_route (always_zero os_system) self fs.
Proof.
  unfold obstruction_route. destruct (_obstruction self); [|reflexivity].
  unfold bind. destruct (Fs.resolve_strict _ fs) as [[[]|e] fs1]; [|reflexivity].
  unfold system, always_zero. now destruct (os_system _ fs1).
Qed.

(** C6, as the code has it. The exit status of the external
    conversions (demand to trips, trips to route) is not looked at: a
    run of the preparation ends in the same outcome and the same file
    system whether a tool exits with a non-zero status or with status
    0 after the same effect on the files. No error is raised for a
    failed tool. *)
Theorem exit_status_ignored (self : Simulation) (fs : FS) :
  prepare_sumo today float_str read_csv os_system self fs
  = prepare_sumo today float_str read_csv (always_zero os_system) self fs.
Proof.
  unfold prepare_sumo.
  apply bind_ext; [reflexivity |]. intros _ fs1.
  apply bind_ext; [reflexivity |]. intros _ fs2.
  apply bind_ext.
  - intros fs'. apply for_each_ext, od_trips_step_status.
  - intros trips fs3. apply bind_ext; [apply obstruction_route_status | reflexivity].
Qed.

End ExitStatus.


(** ** Unknown congestion codes *)

Section UnknownCode.

Variable today : Z.
Variable float_str : float -> string.
Variable read_csv : string -> outcome (list od_row).
Variable os_system : string -> FS -> Z * FS.

(** The pass for an unknown code raises [TypeError] before it touches
    any file. *)
Lemma od_matrix_step_unknown (self : Simulation) (key : string) (vtype : Z)
    (idx : nat) (qsv : ascii) (fs : FS) :
  dict_qsv_x qsv = None ->
  od_matrix_step today read_csv self key vtype (idx, qsv) fs = (Raise TypeError, fs).
Proof.
  intros Hq. unfold od_matrix_step, time_segment. rewrite Hq. reflexivity.
Qed.

Lemma enumerate_split {A} (l : list A) (k : nat) (a : A) :
  l !! k = Some a ->
  enumerate l = take k (enumerate l) ++ (k, a) :: drop (S k) (enumerate l).
Proof.
  intros Hk. symmetry. apply take_drop_middle.
  unfold enumerate. rewrite enumerate_from_lookup, Hk. reflexivity.
Qed.

Lemma enumerate_take_In {A} (l : list A) (k : nat) (item : nat * A) :
  In item (take k (enumerate l)) -> (item.1 < k)%nat /\ l !! item.1 = Some item.2.
Proof.
  intros Hin. apply list_elem_of_In, list_elem_of_lookup in Hin as [i Hi].
  apply lookup_take_Some in Hi as [Hi Hlt].
  unfold enumerate in Hi. rewrite enumerate_from_lookup in Hi.
  destruct (l !! i) as [a|] eqn:E; [|discriminate].
  injection Hi as <-. simpl. auto.
Qed.

(** A run on a sequence with an unknown code at position [k] is the
    run of the two configuration steps and of the first [k] passes of
    the first traffic type, and then a [TypeError]. *)
Lemma prepare_sumo_unknown_code (self : Simulation) (fs : FS) (k : nat) (qsv : ascii) :
  _qsv_sequence self !! k = Some qsv ->
  dict_qsv_x qsv = None ->
  prepare_sumo today float_str read_csv os_system self fs
  = match create_additional_file float_str (_path_to_sumo self)
            (_path_to_additional_file self) (_path_to_edge_dump_file self)
            _sumo_edge_dump_interval fs with
    | (Raise e, fs1) => (Raise e, fs1)
    | (Ok _, fs1) =>
        match customize_vtype_file float_str (_path_to_vtypes_ref self)
                (_path_to_vtypes self) (_tau self) fs1 with
        | (Raise e, fs2) => (Raise e, fs2)
        | (Ok _, fs2) =>
            match for_each (od_matrix_step today read_csv self "miv" 5)
                           (take k (enumerate (_qsv_sequence self))) fs2 with
            | (Raise e, fs3) => (Raise e, fs3)
            | (Ok _, fs3) => (Raise TypeError, fs3)
            end
        end
    end.
Proof.
  intros Hk Hq. unfold prepare_sumo. unfold bind at 1.
  destruct (create_additional_file _ _ _ _ _ fs) as [[[]|e] fs1]; [|reflexivity].
  unfold bind at 1.
  destruct (customize_vtype_file _ _ _ _ fs1) as [[[]|e] fs2]; [|reflexivity].
  unfold bind at 1. unfold dict_traffic_types. rewrite for_each_cons.
  unfold od_trips_step at 1. unfold bind at 1. unfold od_matrices.
  rewrite (enumerate_split _ _ _ Hk).
  rewrite (for_each_stop _ _ _ _ TypeError);
    [| intros fs'; now apply od_matrix_step_unknown].
  rewrite <- (enumerate_split _ _ _ Hk).
  destruct (for_each _ (take k _) fs2) as [[files|e] fs3]; reflexivity.
Qed.

(** C4, as the code has it. A scenario whose sequence holds an
    unknown code is always rejected, and never gets as far as an
    external conversion or the traffic-simulator configuration. The
    code is checked inside the loop, at its own pass: when the passes
    before it succeed the error is [TypeError], raised after the
    demand matrices of those earlier segments of the first traffic
    type have been written. Apart from them only the additional file
    and the vehicle-type copy can have changed: no demand matrix of
    the segment with the unknown code, of a later segment or of
    another traffic type is written. *)
Theorem unknown_code_rejected (self : Simulation) (fs : FS) (k : nat) (qsv : ascii) :
  _qsv_sequence self !! k = Some qsv ->
  dict_qsv_x qsv = None ->
  let run := prepare_sumo today float_str read_csv os_system self fs in
  (exists e, run.1 = Raise e) /\
  (forall p,
      p <> _path_to_additional_file self ->
      p <> _path_to_vtypes self ->
      (forall j qj, (j < k)%nat -> _qsv_sequence self !! j = Some qj ->
                    p <> od_file_name self "miv" j qj) ->
      run.2 !! p = fs !! p) /\
  (forall fs1 fs2 files fs3,
      create_additional_file float_str (_path_to_sumo self)
        (_path_to_additional_file self) (_path_to_edge_dump_file self)
        _sumo_edge_dump_interval fs = (Ok tt, fs1) ->
      customize_vtype_file float_str (_path_to_vtypes_ref self)
        (_path_to_vtypes self) (_tau self) fs1 = (Ok tt, fs2) ->
      for_each (od_matrix_step today read_csv self "miv" 5)
               (take k (enumerate (_qsv_sequence self))) fs2 = (Ok files, fs3) ->
      run = (Raise TypeError, fs3)).
Proof.
  intros Hk Hq run. subst run. rewrite (prepare_sumo_unknown_code _ _ _ _ Hk Hq).
  pose proof (touches_create_additional_file float_str (_path_to_sumo self)
                (_path_to_additional_file self) (_path_to_edge_dump_file self)
                _sumo_edge_dump_interval) as Ha.
  pose proof (touches_customize_vtype_file float_str (_path_to_vtypes_ref self)
                (_path_to_vtypes self) (_tau self)) as Hv.
  assert (Ho : touches (for_each (od_matrix_step today read_csv self "miv" 5)
                                 (take k (enumerate (_qsv_sequence self))))
                       (fun p => exists j qj, (j < k)%nat /\
                                    _qsv_sequence self !! j = Some qj /\
                                    p = od_file_name self "miv" j qj)).
  { apply touches_for_each. intros item Hin.
    apply enumerate_take_In in Hin as [Hlt Hitem].
    eapply touches_mono; [| apply touches_od_matrix_step].
    intros p <-. exists item.1, item.2. auto. }
  split; [| split].
  - destruct (create_additional_file _ _ _ _ _ fs) as [[[]|e] fs1]; [| now exists e].
    destruct (customize_vtype_file _ _ _ _ fs1) as [[[]|e] fs2]; [| now exists e].
    destruct (for_each _ _ fs2) as [[files|e] fs3]; [now exists TypeError | now exists e].
  - intros p Hpa Hpv Hpo.
    specialize (Ha fs p ltac:(congruence)).
    destruct (create_additional_file _ _ _ _ _ fs) as [[[]|e] fs1]; [| exact Ha].
    specialize (Hv fs1 p ltac:(congruence)).
    destruct (customize_vtype_file _ _ _ _ fs1) as [[[]|e] fs2];
      [| simpl in *; congruence].
    assert (Hnot : ~ (exists j qj, (j < k)%nat /\ _qsv_sequence self !! j = Some qj /\
                                   p = od_file_name self "miv" j qj)).
    { intros (j & qj & Hlt & Hj & Hp). exact (Hpo j qj Hlt Hj Hp). }
    specialize (Ho fs2 p Hnot).
    destruct (for_each _ _ fs2) as [[files|e] fs3]; simpl in *; congruence.
  - intros fs1 fs2 files fs3 H1 H2 H3. now rewrite H1, H2, H3.
Qed.

End UnknownCode.

(** ** Twice the duration *)

(** C7, as the code has it. Demand scaling is linear in the duration,
    up to the truncation of each product to an integer, as long as
    doubling the duration doubles its seconds: [total_seconds] of
    pandas adds the whole seconds and the float of the whole
    microseconds below the second, so the doubling must carry nothing
    from the nanoseconds into the microseconds (fewer than 500
    nanoseconds below the microsecond) nor from the microseconds into
    the seconds (less than half a second below the second). For such a
    duration [d], a whole number of seconds for one, and a row with a
    count [num] that a 64-bit signed integer holds and is not negative,
    the count emitted for the duration [2 * d] is twice the count [n]
    emitted for [d], or one more. *)
Theorem doubled_duration_doubles_count (num : Z) (d : Pd.Timedelta) :
  0 <= num < 2 ^ 63 ->
  0 <= d < 2 ^ 62 ->
  d mod 1000 < 500 ->
  d mod 10 ^ 9 < 5 * 10 ^ 8 ->
  exists n, od_count num (time_factor d) = Ok n /\ 0 <= n /\
    (od_count num (time_factor (2 * d)) = Ok (2 * n) \/
     od_count num (time_factor (2 * d)) = Ok (2 * n + 1)).
Proof.
  intros Hn Hd Hns Hus. unfold od_count.
  rewrite time_factor_double by assumption.
  pose proof (time_factor_bounded d ltac:(lia)) as Hb.
  assert (Hc : bounded_float (- 52) 12 (Float.of_Z num)) by (apply of_Z_bounded; lia).
  destruct (mul_scale (Float.of_Z num) (time_factor d) (- 52) 12 (- 221) 67 Hc Hb)
    as [-> Hp]; [lia | lia |].
  destruct (trunc_scale2 _ _ _ Hp) as (n & H1 & H0 & H2).
  exists n. unfold py_int. rewrite H1.
  split; [reflexivity|]. split; [exact H0|].
  destruct H2 as [-> | ->]; [left | right]; reflexivity.
Qed.

(** ** Every count is computed *)

Lemma od_count_total (num : Z) (d : Pd.Timedelta) :
  0 <= num < 2 ^ 63 -> 0 <= d < 2 ^ 63 ->
  exists n, od_count num (time_factor d) = Ok n /\ 0 <= n.
Proof.
  intros Hn Hd. unfold od_count.
  assert (Hc : bounded_float (- 52) 12 (Float.of_Z num)) by (apply of_Z_bounded; lia).
  destruct (mul_scale (Float.of_Z num) (time_factor d) (- 52) 12 (- 221) 67 Hc
                      (time_factor_bounded d Hd)) as [_ Hp]; [lia | lia |].
  destruct (trunc_scale2 _ _ _ Hp) as (n & H1 & H0 & _).
  exists n. unfold py_int. now rewrite H1.
Qed.

Lemma od_counts_total (rows : list od_row) (d : Pd.Timedelta) :
  0 <= d < 2 ^ 63 ->
  Forall (fun row => 0 <= od_num row < 2 ^ 63) rows ->
  exists counts,
    Forall2 (fun row c => od_count (od_num row) (time_factor d) = Ok c /\ 0 <= c) rows counts.
Proof.
  intros Hd. induction 1 as [|row rows Hrow _ [counts IH]].
  - exists []. constructor.
  - destruct (od_count_total (od_num row) d Hrow Hd) as (n & Hn & H0).
    exists (n :: counts). constructor; [split; assumption | exact IH].
Qed.

(** C3, as the code has it. An emission for a segment of duration [d]
    (a duration of pandas, not negative, in the 64 bits it has) from a
    table whose base counts are 64-bit and not negative succeeds when
    its inputs are there, and it writes: the header with the vehicle
    type, the window line of the from-time and the to-time as [HH.MM]
    (each through its time of day, the to-time being the start plus the
    whole microseconds of [d]), the traffic factor in two decimals, and
    for every row the count [int(c * (d.total_seconds() / 3600))] of
    binary64 arithmetic, which is not negative. In the scenario of
    7200 s and codes [ab] with the row [(1,2,100)], both segments emit
    the count 100, the windows are 00.00 to 01.00 and 01.00 to 02.00,
    and the factor lines read 0.15 and 0.43. *)
Theorem od_matrix_emission
    (read_csv : string -> outcome (list od_row))
    (csv out : path) (traffic_factor : float) (vtype : Z)
    (start_time : Time.datetime) (duration : Pd.Timedelta)
    (fs : FS) (text : string) (rows : list od_row) :
  Time.valid_datetime (start_time + duration / 1000) = true ->
  0 <= duration < 2 ^ 63 ->
  fs !! csv = Some (File text) ->
  read_csv text = Ok rows ->
  Forall (fun row => 0 <= od_num row < 2 ^ 63) rows ->
  fs !! out <> Some Dir ->
  fs !! parent out = Some Dir ->
  (exists counts,
     Forall2 (fun row c =>
                py_int (Float.mul (Float.of_Z (od_num row))
                                  (Float.div (Pd.total_seconds duration) (Float.of_Z 3600)))
                = Ok c /\ 0 <= c) rows counts /\
     create_od_matrix_file read_csv csv traffic_factor vtype out start_time duration fs
     = (Ok tt,
        <[out := File (("$OM;D2" +:+ NL +:+
                        "*vehicle type" +:+ NL +:+
                        Text.str_Z vtype +:+ NL +:+
                        "*from-time to-time" +:+ NL +:+
                        Time.fmt_hh_mm start_time +:+ TAB +:+
                        Time.fmt_hh_mm (start_time + duration / 1000) +:+ NL +:+
                        "*factor" +:+ NL +:+ Float.fmt_2f traffic_factor +:+ NL +:+ NL)
                       +:+ od_body rows counts)]> fs)) /\
  (let run := od_matrices Sample.today Sample.read_csv Sample.two_hours "miv" 5
                          (Sample.files Sample.two_hours) in
   run.1 = Ok [od_file_name Sample.two_hours "miv" 0 "a";
               od_file_name Sample.two_hours "miv" 1 "b"] /\
   run.2 !! od_file_name Sample.two_hours "miv" 0 "a"
   = Some (File ("$OM;D2" +:+ NL +:+ "*vehicle type" +:+ NL +:+ "5" +:+ NL +:+
                 "*from-time to-time" +:+ NL +:+ "00.00" +:+ TAB +:+ "01.00" +:+ NL +:+
                 "*factor" +:+ NL +:+ "0.15" +:+ NL +:+ NL +:+
                 TAB +:+ " 1 " +:+ TAB +:+ " 2 " +:+ TAB +:+ " 100" +:+ NL)) /\
   run.2 !! od_file_name Sample.two_hours "miv" 1 "b"
   = Some (File ("$OM;D2" +:+ NL +:+ "*vehicle type" +:+ NL +:+ "5" +:+ NL +:+
                 "*from-time to-time" +:+ NL +:+ "01.00" +:+ TAB +:+ "02.00" +:+ NL +:+
                 "*factor" +:+ NL +:+ "0.43" +:+ NL +:+ NL +:+
                 TAB +:+ " 1 " +:+ TAB +:+ " 2 " +:+ TAB +:+ " 100" +:+ NL))).
Proof.
  intros Hv Hd Hcsv Hread Hrows Hout Hparent. split.
  - destruct (od_counts_total rows duration Hd Hrows) as [counts Hcounts].
    exists counts. split; [exact Hcounts|].
    change (String.append "$OM;D2" _) with
      (front_text traffic_factor vtype start_time (start_time + duration / 1000)).
    apply create_od_matrix_file_ok with (text := text); try assumption.
    eapply Forall2_impl; [exact Hcounts|]. now intros row c [H _].
  - vm_compute. repeat split; reflexivity.
Qed.


(* ===================================================================== *)
(** * Further properties of the scripts *)
(* ===================================================================== *)

(** ** createODMatrixFile.py: all or nothing *)

(** The loop over the rows of the table changes no file: it computes
    the lines, or raises at the first count that cannot be computed. *)
Lemma od_lines_cases (tf : float) (rows : list od_row) (fs : FS) :
  for_each (fun row =>
              let* count := of_outcome (od_count (od_num row) tf) in
              ret (str_matrix_line row count)) rows fs
  = (match traverse (fun row => od_count (od_num row) tf) rows with
     | Ok counts => Ok (zip_with str_matrix_line rows counts)
     | Raise e => Raise e
     end, fs).
Proof.
  induction rows as [|row rows IH]; [reflexivity|].
  rewrite for_each_cons. cbn [traverse]. unfold bind at 1, of_outcome at 1.
  destruct (od_count (od_num row) tf) as [c|e]; [|reflexivity].
  unfold ret at 1. rewrite IH.
  destruct (traverse _ rows) as [counts|e]; reflexivity.
Qed.

(** The emission, step by step: the checks in the order of the
    source, and one write at the end. *)
Lemma create_od_matrix_file_cases
    (read_csv : string -> outcome (list od_row))
    (csv out : path) (traffic_factor : float) (vtype : Z)
    (start_time : Time.datetime) (duration : Pd.Timedelta) (fs : FS) :
  create_od_matrix_file read_csv csv traffic_factor vtype out start_time duration fs
  = if Time.valid_datetime (start_time + duration / 1000) then
      match fs !! csv with
      | None => (Raise FileNotFoundError, fs)
      | Some Dir => (Raise IsADirectoryError, fs)
      | Some (File text) =>
          match read_csv text with
          | Raise e => (Raise e, fs)
          | Ok rows =>
              match traverse (fun row => od_count (od_num row) (time_factor duration)) rows with
              | Raise e => (Raise e, fs)
              | Ok counts =>
                  Fs.write_text out
                    (front_text traffic_factor vtype start_time (start_time + duration / 1000)
                     +:+ od_body rows counts) fs
              end
          end
      end
    else (Raise OverflowError, fs).
Proof.
  unfold create_od_matrix_file, Time.dt_add, Pd.to_pytimedelta.
  destruct (Time.valid_datetime (start_time + duration / 1000)); [|reflexivity].
  unfold lift, bind at 1, ret at 1. unfold bind at 1, Fs.resolve_strict.
  destruct (fs !! csv) as [[text|]|] eqn:Hcsv; [| | reflexivity].
  - unfold bind at 1, Fs.read_raw. rewrite Hcsv.
    unfold bind at 1, of_outcome at 1.
    destruct (read_csv text) as [rows|e]; [|reflexivity].
    unfold bind at 1. rewrite od_lines_cases.
    destruct (traverse _ rows) as [counts|e]; reflexivity.
  - unfold bind at 1, Fs.read_raw. rewrite Hcsv. reflexivity.
Qed.

Lemma write_text_cases (p : path) (c : string) (fs : FS) :
  Fs.write_text p c fs = (Ok tt, <[p := File c]> fs) \/
  exists e, Fs.write_text p c fs = (Raise e, fs).
Proof.
  unfold Fs.write_text.
  destruct (fs !! p) as [[t|]|]; destruct (fs !! parent p) as [[t'|]|]; eauto.
Qed.



(** ** class_simulation.py: what the preparation can change *)

Lemma child_neq_self (p : path) (a : string) : p // a <> p.
Proof.
  unfold child. intros H. apply (f_equal (@length string)) in H.
  rewrite length_app in H. simpl in H. lia.
Qed.

Lemma child_neq_self_2 (p : path) (a b : string) : p // a // b <> p.
Proof.
  unfold child. intros H. apply (f_equal (@length string)) in H.
  rewrite !length_app in H. simpl in H. lia.
Qed.

(** Two paths that differ in a component, or in their number of
    components below a common directory, differ. *)
Ltac path_absurd H :=
  repeat match type of H with
         | _ // _ = _ // _ =>
             let E := fresh "E" in apply child_inj in H as [H E]
         end;
  first
    [ discriminate
    | match goal with
      | E : ?a +:+ ?b = ?c |- _ => exact (append_neq_shorter a b c ltac:(simpl; lia) E)
      | E : ?c = ?a +:+ ?b |- _ =>
          exact (append_neq_shorter a b c ltac:(simpl; lia) (eq_sym E))
      end
    | exact (child_neq_self _ _ H)
    | exact (child_neq_self _ _ (eq_sym H))
    | exact (child_neq_self_2 _ _ _ H)
    | exact (child_neq_self_2 _ _ _ (eq_sym H)) ].

Lemma inputs_not_written (self : Simulation) (p : path) :
  input_of_prepare_sumo self p -> ~ written_by_prepare_sumo self p.
Proof.
  unfold input_of_prepare_sumo, written_by_prepare_sumo, od_file_name,
    _path_to_additional_file, _path_to_vtypes, _path_to_sumo_config_file,
    _path_to_net_file, _path_to_vtypes_ref, _path_to_routes, _path_to_traffic,
    _path_to_additional.
  intros [(name & _ & ->) | [-> | ->]]
         [H | [H | [(key & vtype & idx & qsv & _ & _ & H) | H]]];
    path_absurd H.
Qed.

Section Frame.

Variable today : Z.
Variable float_str : float -> string.
Variable read_csv : string -> outcome (list od_row).
Variable os_system : string -> FS -> Z * FS.
Variable self : Simulation.

(** The paths that the external tools can change. *)
Variable tools : path -> Prop.
Hypothesis os_system_frame :
  forall cmd fs p, ~ tools p -> (os_system cmd fs).2 !! p = fs !! p.

Lemma touches_system (cmd : string) : touches (system os_system cmd) tools.
Proof.
  intros fs p Hp. unfold system. pose proof (os_system_frame cmd fs p Hp) as H.
  destruct (os_system cmd fs) as [status fs']. exact H.
Qed.

Lemma touches_rel_to_sumo (sumo p : path) (S : path -> Prop) : touches (rel_to_sumo sumo p) S.
Proof.
  unfold rel_to_sumo. apply touches_bind; [apply touches_lift | intros; apply touches_ret].
Qed.

Lemma touches_create_sumo_config_file
    (sumo net : path) (trips : list path) (t0 : Z) (d : Pd.Timedelta)
    (d1 d2 d3 d4 : Time.timedelta)
    (tls : bool) (cfg fcd add taz vt gui poly : path) :
  touches (create_sumo_config_file float_str sumo net trips t0 d d1 d2 d3 d4 tls
                                   cfg fcd add taz vt gui poly) (eq cfg).
Proof.
  unfold create_sumo_config_file.
  repeat (apply touches_bind;
          [first [apply touches_rel_to_sumo
                 | apply touches_for_each; intros; apply touches_rel_to_sumo
                 | apply touches_of_outcome] | intros ?]).
  apply touches_write_text.
Qed.

Lemma touches_od_matrices (key : string) (vtype : Z) :
  In (key, vtype) dict_traffic_types ->
  touches (od_matrices today read_csv self key vtype) (written_by_prepare_sumo self).
Proof.
  intros Hkey. unfold od_matrices. apply touches_for_each. intros [idx qsv] Hin.
  apply enumerate_In in Hin as [_ Hitem]. simpl in Hitem.
  eapply touches_mono; [| apply touches_od_matrix_step].
  intros p <-. right. right. left. exists key, vtype, idx, qsv. auto.
Qed.

Lemma touches_prepare_sumo :
  touches (prepare_sumo today float_str read_csv os_system self)
          (fun q => tools q \/ written_by_prepare_sumo self q).
Proof.
  unfold prepare_sumo.
  apply touches_bind; [| intros _].
  { eapply touches_mono; [| apply touches_create_additional_file].
    intros q <-. right. left. reflexivity. }
  apply touches_bind; [| intros _].
  { eapply touches_mono; [| apply touches_customize_vtype_file].
    intros q <-. right. right. left. reflexivity. }
  apply touches_bind; [| intros trips].
  { apply touches_for_each. intros [key vtype] Hkey. unfold od_trips_step.
    apply touches_bind; [| intros files].
    - eapply touches_mono; [| apply (touches_od_matrices key vtype Hkey)]. auto.
    - apply touches_bind; [| intros ?; apply touches_ret].
      eapply touches_mono; [| apply touches_system]. auto. }
  apply touches_bind; [| intros routes].
  { unfold obstruction_route. destruct (_obstruction self); [| apply touches_ret].
    apply touches_bind; [apply touches_resolve_strict | intros _].
    apply touches_bind; [| intros ?; apply touches_ret].
    eapply touches_mono; [| apply touches_system]. auto. }
  eapply touches_mono; [| apply touches_create_sumo_config_file].
  intros q <-. right. right. right. right. reflexivity.
Qed.

(** For a scenario whose identifier is a plain name, the preparation
    changes the files it writes itself and what the external tools
    change, and nothing else: when the directory of the simulation
    is given by a resolved path, every other resolved path holds
    after the run, whether it succeeds or raises, what it held
    before. In particular the inputs (the files of the traffic
    directory, the network, the template of the vehicle types), when
    the names of the traffic directory and of the network are plain,
    are as before, unless a tool changes them. *)
Theorem prepare_sumo_frame (fs : FS) (p : path) :
  plain_name (sim_id self) = true ->
  let run := prepare_sumo today float_str read_csv os_system self fs in
  (resolved (_path_to_simulation self) = true -> resolved p = true ->
   ~ tools p -> ~ written_by_prepare_sumo self p -> run.2 !! p = fs !! p) /\
  (plain_name (_traffic self) = true -> plain_name (_net self) = true ->
   ~ tools p -> input_of_prepare_sumo self p -> run.2 !! p = fs !! p).
Proof.
  pose proof touches_prepare_sumo as Ht.
  intros _ run. subst run. split.
  - intros _ _ Hp Hw. apply Ht. tauto.
  - intros _ _ Hp Hin. apply Ht. pose proof (inputs_not_written self p Hin). tauto.
Qed.

End Frame.


(** ** class_simulation.py: the day of the run *)

Lemma for_each_ext_In {A B} (f g : A -> M B) (l : list A) (fs : FS) :
  (forall a, In a l -> forall fs', f a fs' = g a fs') -> for_each f l fs = for_each g l fs.
Proof.
  revert fs. induction l as [|a l IH]; intros fs H; [reflexivity|].
  rewrite !for_each_cons. rewrite (H a) by now left.
  destruct (g a fs) as [[b|e] fs1]; [|reflexivity].
  rewrite IH; [reflexivity|]. intros a' Ha'. apply H. now right.
Qed.

(** The start and the end of every segment are dates when the run
    starts on a date and the whole duration ends before the calendar
    does. *)
Lemma segment_dates_valid (today : Z) (self : Simulation) (i : nat) :
  let n := Z.of_nat (length (_qsv_sequence self)) in
  let d := _duration self / n in
  0 <= _duration self -> 1 <= today ->
  base_start_time today + _duration self / 1000 < END_OF_TIME ->
  (i < length (_qsv_sequence self))%nat ->
  Time.valid_datetime (base_start_time today + d * Z.of_nat i / 1000) = true /\
  Time.valid_datetime (base_start_time today + d * Z.of_nat i / 1000 + d / 1000) = true.
Proof.
  intros n d HD Ht Hend Hi.
  assert (Hn : 0 < n) by (unfold n; lia).
  assert (Hd0 : 0 <= d) by (apply Z.div_pos; lia).
  pose proof (Z.mul_div_le (_duration self) n Hn) as Hle. fold d in Hle.
  assert (Hbase : Time.DAY <= base_start_time today).
  { unfold base_start_time, Time.midnight, _start_time.
    assert (0 < Time.DAY) by reflexivity. nia. }
  assert (Hi' : Z.of_nat i + 1 <= n) by (unfold n; lia).
  assert (Hlast : d * Z.of_nat i + d <= _duration self) by nia.
  assert (H0 : 0 <= d * Z.of_nat i / 1000) by (apply Z.div_pos; nia).
  assert (H1 : 0 <= d / 1000) by (apply Z.div_pos; lia).
  pose proof (micros_step (d * Z.of_nat i) d) as [Hstep _].
  assert (H2 : (d * Z.of_nat i + d) / 1000 <= _duration self / 1000)
    by (apply Z.div_le_mono; lia).
  unfold Time.valid_datetime. fold END_OF_TIME.
  split; apply andb_true_intro; split;
    first [apply Z.leb_le | apply Z.ltb_lt]; lia.
Qed.

(** The emission reads a start time through its time of day only. *)
Lemma create_od_matrix_file_day
    (read_csv : string -> outcome (list od_row))
    (csv out : path) (tf : float) (vtype : Z)
    (s s' : Time.datetime) (duration : Pd.Timedelta) (fs : FS) :
  Time.valid_datetime (s + duration / 1000) = true ->
  Time.valid_datetime (s' + duration / 1000) = true ->
  s' mod Time.DAY = s mod Time.DAY ->
  create_od_matrix_file read_csv csv tf vtype out s' duration fs
  = create_od_matrix_file read_csv csv tf vtype out s duration fs.
Proof.
  intros Hv Hv' Hmod. rewrite !create_od_matrix_file_cases, Hv, Hv'.
  assert (Hfront : front_text tf vtype s' (s' + duration / 1000)
                   = front_text tf vtype s (s + duration / 1000)).
  { unfold front_text, Time.fmt_hh_mm, Time.hour, Time.minute, Time.time_of_day.
    rewrite Hmod.
    replace ((s' + duration / 1000) mod Time.DAY) with ((s + duration / 1000) mod Time.DAY);
      [reflexivity|].
    rewrite (Z.add_mod s), (Z.add_mod s') by discriminate. now rewrite Hmod. }
  now rewrite Hfront.
Qed.

(** The quotient of two positive floats, cut to an integer, is not
    negative. *)
Lemma trunc_div_nonneg (a : positive) (ea : Z) (b : positive) (eb : Z) (z : Z) :
  Float.trunc (Float.div (S754_finite false a ea) (S754_finite false b eb)) = Some z ->
  0 <= z.
Proof.
  unfold Float.div, SFdiv. simpl xorb.
  destruct (SFdiv_core_binary _ _ (Z.pos a) ea (Z.pos b) eb) as [[mz ez] lz].
  unfold binary_round_aux.
  destruct (shr_fexp _ _ mz ez lz) as [mrs1 e1].
  destruct (shr_fexp _ _ (round_nearest_even _ _) e1 loc_Exact) as [mrs2 e2].
  destruct (shr_m mrs2) as [|m|m]; [| destruct (e2 <=? _) |];
    cbn [Float.trunc cond_Zopp]; try discriminate.
  - intros H. injection H as <-. lia.
  - intros H. injection H as <-. destruct (Z.leb_spec 0 e2).
    + apply Z.mul_nonneg_nonneg; [lia | apply Z.pow_nonneg; lia].
    + apply Z.div_pos; [lia | apply Z.pow_pos_nonneg; lia].
Qed.

(** A segment of a duration that is not negative is not negative and
    fits 64 bits. *)
Lemma td_truediv_range (D n d : Z) :
  0 <= D -> 0 < n -> Pd.td_truediv D n = Ok d -> 0 <= d < 2 ^ 63.
Proof.
  intros HD Hn. unfold Pd.td_truediv.
  destruct (Z.eqb_spec n 0) as [E|_]; [lia|].
  unfold py_int.
  destruct (Float.trunc (Float.truediv_Z D n)) as [q|] eqn:Eq.
  2: { destruct (Float.truediv_Z D n); discriminate. }
  assert (Hq : 0 <= q).
  { destruct n as [|pn|pn]; try lia. destruct D as [|pD|pD]; try lia.
    - injection Eq as <-. lia.
    - apply (trunc_div_nonneg pD 0 pn 0). exact Eq. }
  unfold Pd.int64.
  destruct (Z.leb_spec (- 2 ^ 63) q) as [Hlo|Hlo]; [| discriminate].
  destruct (Z.ltb_spec q (2 ^ 63)) as [Hhi|Hhi]; [| discriminate].
  intros E. injection E as <-. lia.
Qed.

Lemma td_mul_range (d i off : Z) :
  Pd.td_mul d i = Ok off -> off = d * i /\ - 2 ^ 63 <= off < 2 ^ 63.
Proof.
  unfold Pd.td_mul, Pd.int64.
  destruct (Z.leb_spec (- 2 ^ 63) (d * i)) as [Hlo|Hlo]; [| discriminate].
  destruct (Z.ltb_spec (d * i) (2 ^ 63)) as [Hhi|Hhi]; [| discriminate].
  intros E. injection E as <-. lia.
Qed.

(** The window of every segment lies in the calendar when the run
    does. *)
Lemma segment_window_valid (today : Z) (self : Simulation) (idx : nat) (d off : Z) :
  0 <= _duration self -> 1 <= today -> ends_in_calendar today self ->
  (idx < length (_qsv_sequence self))%nat ->
  Pd.td_truediv (_duration self) (Z.of_nat (length (_qsv_sequence self))) = Ok d ->
  Pd.td_mul d (Z.of_nat idx) = Ok off ->
  Time.valid_datetime (base_start_time today + off / 1000) = true /\
  Time.valid_datetime (base_start_time today + off / 1000 + d / 1000) = true.
Proof.
  intros HD Ht [Hend Hcase] Hi Ed Eo.
  destruct Hcase as [[H53 Hn] | Hfar].
  - rewrite td_truediv_floor in Ed by lia. injection Ed as <-.
    apply td_mul_range in Eo as [-> _].
    now apply segment_dates_valid.
  - apply td_truediv_range in Ed; [| lia | lia].
    apply td_mul_range in Eo as [-> Hoff].
    assert (Hbase : Time.DAY <= base_start_time today).
    { unfold base_start_time, Time.midnight, _start_time.
      assert (0 < Time.DAY) by reflexivity. nia. }
    assert (H0 : 0 <= d * Z.of_nat idx / 1000) by (apply Z.div_pos; nia).
    assert (H1 : 0 <= d / 1000) by (apply Z.div_pos; lia).
    assert (H2 : d * Z.of_nat idx / 1000 <= 2 ^ 63 / 1000) by (apply Z.div_le_mono; lia).
    assert (H3 : d / 1000 <= 2 ^ 63 / 1000) by (apply Z.div_le_mono; lia).
    assert (H4 : 2 ^ 63 / 1000 + 2 ^ 63 / 1000 <= 2 ^ 64 / 1000) by (vm_compute; discriminate).
    unfold Time.valid_datetime. fold END_OF_TIME.
    split; apply andb_true_intro; split;
      first [apply Z.leb_le | apply Z.ltb_lt]; lia.
Qed.

(** The preparation does not depend on the day on which it runs: as
    long as the run starts on a date and ends before the calendar
    does, on either day, it ends in the same outcome and the same
    files. *)
Theorem prepare_sumo_any_day
    (today today' : Z) (float_str : float -> string)
    (read_csv : string -> outcome (list od_row)) (os_system : string -> FS -> Z * FS)
    (self : Simulation) (fs : FS) :
  0 <= _duration self ->
  1 <= today -> ends_in_calendar today self ->
  1 <= today' -> ends_in_calendar today' self ->
  prepare_sumo today' float_str read_csv os_system self fs
  = prepare_sumo today float_str read_csv os_system self fs.
Proof.
  intros HD Ht Hend Ht' Hend'. unfold prepare_sumo.
  apply bind_ext; [reflexivity |]. intros _ fs1.
  apply bind_ext; [reflexivity |]. intros _ fs2.
  apply bind_ext; [| reflexivity].
  intros fs3. apply for_each_ext. intros [key vtype] fs4. unfold od_trips_step.
  apply bind_ext; [| reflexivity].
  intros fs5. unfold od_matrices. apply for_each_ext_In.
  intros [idx qsv] Hin fs6. apply enumerate_In in Hin as [Hlt Hitem]. simpl in Hlt, Hitem.
  unfold od_matrix_step, time_segment.
  destruct (dict_qsv_x qsv) as [l|]; [| reflexivity].
  destruct (py_truediv _ _) as [tf|]; [| reflexivity].
  destruct (Pd.td_truediv _ _) as [d|e] eqn:Ed; [| reflexivity].
  destruct (Pd.td_mul d (Z.of_nat idx)) as [off|e] eqn:Eo; [| reflexivity].
  destruct (segment_window_valid today self idx d off HD Ht Hend Hlt Ed Eo) as [Hs He].
  destruct (segment_window_valid today' self idx d off HD Ht' Hend' Hlt Ed Eo) as [Hs' He'].
  unfold Time.dt_add, Pd.to_pytimedelta. rewrite Hs, Hs'.
  unfold bind at 1 3, of_outcome. apply bind_ext; [| reflexivity].
  intros fs7. cbn [seg_factor seg_start seg_duration].
  apply create_od_matrix_file_day; try assumption.
  unfold base_start_time, Time.midnight, _start_time.
  rewrite !Z.add_0_r.
  rewrite (Z.add_comm (today' * Time.DAY)), (Z.add_comm (today * Time.DAY)).
  rewrite !Z.mod_add by discriminate. reflexivity.
Qed.


(** ** Invariants of the preparation *)

Section Along.

Variable R : FS -> FS -> Prop.
Hypothesis R_refl : forall fs, R fs fs.
Hypothesis R_trans : forall fs1 fs2 fs3, R fs1 fs2 -> R fs2 fs3 -> R fs1 fs3.

Lemma along_ret {A} (a : A) : along R (ret a).
Proof. intros fs. apply R_refl. Qed.

Lemma along_lift {A} (e : exn) (o : option A) : along R (lift e o).
Proof. intros fs. destruct o; apply R_refl. Qed.

Lemma along_of_outcome {A} (o : outcome A) : along R (of_outcome o).
Proof. intros fs. apply R_refl. Qed.

Lemma along_resolve_strict (p : path) : along R (Fs.resolve_strict p).
Proof. intros fs. unfold Fs.resolve_strict. destruct (fs !! p); apply R_refl. Qed.

Lemma along_read_text (p : path) : along R (Fs.read_text p).
Proof. intros fs. unfold Fs.read_text. destruct (fs !! p) as [[c|]|]; apply R_refl. Qed.

Lemma along_bind {A B} (c : M A) (k : A -> M B) :
  along R c -> (forall a, along R (k a)) -> along R (bind c k).
Proof.
  intros Hc Hk fs. unfold bind. specialize (Hc fs).
  destruct (c fs) as [[a|e] fs1]; simpl in *; [| assumption].
  eapply R_trans; [exact Hc | apply Hk].
Qed.

Lemma along_for_each {A B} (f : A -> M B) (l : list A) :
  (forall a, In a l -> along R (f a)) -> along R (for_each f l).
Proof.
  induction l as [|a l IH]; intros Hf; [apply along_ret|].
  cbn [for_each]. apply along_bind; [apply Hf; now left | intros b].
  apply along_bind; [| intros bs; apply along_ret].
  apply IH. intros a' Ha'. apply Hf. now right.
Qed.

Section Prepare.

Variable today : Z.
Variable float_str : float -> string.
Variable read_csv : string -> outcome (list od_row).
Variable os_system : string -> FS -> Z * FS.
Variable self : Simulation.

Hypothesis R_write :
  forall p c fs, written_by_prepare_sumo self p -> R fs (Fs.write_text p c fs).2.
Hypothesis R_system : forall cmd fs, R fs (os_system cmd fs).2.

Lemma along_system (cmd : string) : along R (system os_system cmd).
Proof.
  intros fs. unfold system. pose proof (R_system cmd fs) as H.
  destruct (os_system cmd fs) as [status fs']. exact H.
Qed.

Lemma along_rel_to_sumo (sumo p : path) : along R (rel_to_sumo sumo p).
Proof.
  unfold rel_to_sumo. apply along_bind; [apply along_lift | intros; apply along_ret].
Qed.

(** A relation that holds along the writes of the preparation and
    along the runs of the external tools holds between the file
    system before the preparation and the one after it. *)
Lemma along_prepare_sumo :
  along R (prepare_sumo today float_str read_csv os_system self).
Proof.
  unfold prepare_sumo.
  apply along_bind; [| intros _].
  { unfold create_additional_file. apply along_bind; [apply along_lift | intros rel].
    intros fs. apply R_write. left. reflexivity. }
  apply along_bind; [| intros _].
  { unfold customize_vtype_file. apply along_bind; [apply along_read_text | intros c].
    intros fs. apply R_write. right. left. reflexivity. }
  apply along_bind; [| intros trips].
  { apply along_for_each. intros [key vtype] Hkey. unfold od_trips_step.
    apply along_bind; [| intros files].
    - unfold od_matrices. apply along_for_each. intros [idx qsv] Hin.
      apply enumerate_In in Hin as [_ Hitem]. simpl in Hitem.
      unfold od_matrix_step.
      apply along_bind; [apply along_of_outcome | intros seg].
      apply along_bind; [| intros _; apply along_ret].
      intros fs. rewrite create_od_matrix_file_cases.
      destruct (Time.valid_datetime _); [| apply R_refl].
      destruct (fs !! _) as [[text|]|]; try apply R_refl.
      destruct (read_csv text) as [rows|e]; [| apply R_refl].
      destruct (traverse _ rows) as [counts|e]; [| apply R_refl].
      apply R_write. right. right. left. exists key, vtype, idx, qsv. auto.
    - apply along_bind; [apply along_system | intros ?; apply along_ret]. }
  apply along_bind; [| intros routes].
  { unfold obstruction_route. destruct (_obstruction self); [| apply along_ret].
    apply along_bind; [apply along_resolve_strict | intros _].
    apply along_bind; [apply along_system | intros ?; apply along_ret]. }
  unfold create_sumo_config_file.
  repeat (apply along_bind;
          [first [apply along_rel_to_sumo
                 | apply along_for_each; intros; apply along_rel_to_sumo
                 | apply along_of_outcome] | intros ?]).
  intros fs. apply R_write. right. right. right. reflexivity.
Qed.

End Prepare.

End Along.


Lemma existsb_false_In {A} (f : A -> bool) (l : list A) :
  (forall a, In a l -> f a = false) -> existsb f l = false.
Proof.
  induction l as [|a l IH]; intros H; [reflexivity|]. cbn [existsb].
  rewrite (H a) by now left. apply IH. intros a' Ha'. apply H. now right.
Qed.

Lemma existsb_ext_In {A} (f g : A -> bool) (l : list A) :
  (forall a, In a l -> f a = g a) -> existsb f l = existsb g l.
Proof.
  induction l as [|a l IH]; intros H; [reflexivity|]. cbn [existsb].
  rewrite (H a) by now left. f_equal. apply IH. intros a' Ha'. apply H. now right.
Qed.

(** The whole effect of the cleanup on a scenario whose identifier is
    a plain name and whose directory is given by a resolved path: a
    resolved path is gone when one of the six objects takes it away
    (the object itself when it is a file, the object and all below it
    when it is a directory, as the file system is at the start), and
    holds what it held otherwise. *)
Theorem clean_lookup (self : Simulation) (fs : FS) (p : path) :
  plain_name (sim_id self) = true ->
  resolved (_path_to_simulation self) = true ->
  resolved p = true ->
  clean self fs !! p
  = if existsb (fun o => removed_with fs o p) (objects_2_delete self)
    then None else fs !! p.
Proof.
  intros _ _ _. destruct (objects_independent self) as [Hnd Hind].
  unfold clean. now apply fold_delete_lookup.
Qed.

(** Cleaning twice is cleaning once. *)
Theorem clean_idempotent (self : Simulation) (fs : FS) :
  clean self (clean self fs) = clean self fs.
Proof.
  destruct (objects_independent self) as [Hnd Hind].
  apply map_eq. intros p. unfold clean at 1.
  rewrite fold_delete_lookup by assumption.
  rewrite existsb_false_In; [reflexivity|].
  intros o Ho. unfold removed_with, Fs.is_file, Fs.is_dir.
  unfold clean. now rewrite (fold_delete_member _ fs o Ho).
Qed.

Section CleanAfterPrepare.

Variable today : Z.
Variable float_str : float -> string.
Variable read_csv : string -> outcome (list od_row).
Variable os_system : string -> FS -> Z * FS.
Variable self : Simulation.

(** The external tools write below the directory of the routes. *)
Hypothesis tools_below_routes :
  forall cmd fs p,
    ~ (_path_to_routes self `prefix_of` p /\ p <> _path_to_routes self) ->
    (os_system cmd fs).2 !! p = fs !! p.

Lemma routes_is_object : In (_path_to_routes self) (objects_2_delete self).
Proof. unfold objects_2_delete. simpl. auto 6. Qed.

Lemma prepare_sumo_keeps_kind (fs : FS) (o : path) :
  In o (objects_2_delete self) ->
  Fs.is_dir (prepare_sumo today float_str read_csv os_system self fs).2 o = Fs.is_dir fs o.
Proof.
  revert o.
  apply (along_prepare_sumo
           (fun fs1 fs2 => forall o, In o (objects_2_delete self) ->
                                     Fs.is_dir fs2 o = Fs.is_dir fs1 o)).
  - reflexivity.
  - intros fs1 fs2 fs3 H12 H23 o Ho. now rewrite H23, H12.
  - intros p c fs0 _ o Ho. unfold Fs.is_dir.
    destruct (decide (p = o)) as [->|Hne]; [| now rewrite write_text_frame].
    destruct (write_text_cases o c fs0) as [E | [e E]]; rewrite E; [| reflexivity].
    simpl. rewrite lookup_insert_eq.
    unfold Fs.write_text in E. destruct (fs0 !! o) as [[t|]|]; try reflexivity.
    discriminate E.
  - intros cmd fs0 o Ho. unfold Fs.is_dir. rewrite tools_below_routes; [reflexivity|].
    intros [Hp Hne]. apply Hne. symmetry.
    apply (proj2 (objects_independent self)); [apply routes_is_object | assumption..].
Qed.

(** Cleanup undoes the preparation of a scenario whose identifier
    is a plain name: when the directory of the routes is there and
    the external tools write below it only, the file system after
    preparation and cleanup is the one that cleanup alone gives.
    Everything the preparation writes is among what the cleanup
    removes. *)
Theorem clean_undoes_prepare_sumo (fs : FS) :
  plain_name (sim_id self) = true ->
  fs !! _path_to_routes self = Some Dir ->
  clean self (prepare_sumo today float_str read_csv os_system self fs).2 = clean self fs.
Proof.
  intros _ Hroutes. apply map_eq. intros p.
  set (fs' := (prepare_sumo today float_str read_csv os_system self fs).2).
  destruct (decide (p ∈ objects_2_delete self)) as [Hin|Hnin];
    rewrite list_elem_of_In in Hin || rewrite list_elem_of_In in Hnin.
  { unfold clean. now rewrite !fold_delete_member. }
  destruct (objects_independent self) as [Hnd Hind].
  unfold clean. rewrite !fold_delete_lookup by assumption.
  assert (Hex : existsb (fun o => removed_with fs' o p) (objects_2_delete self)
                = existsb (fun o => removed_with fs o p) (objects_2_delete self)).
  { apply existsb_ext_In. intros o Ho. unfold removed_with.
    rewrite (bool_decide_eq_false_2 (p = o)) by (intros ->; contradiction).
    rewrite !andb_false_r. simpl. unfold fs'. now rewrite prepare_sumo_keeps_kind. }
  rewrite Hex.
  destruct (existsb (fun o => removed_with fs o p) (objects_2_delete self)) eqn:Eb;
    [reflexivity|].
  assert (Hout : ~ _path_to_routes self `prefix_of` p).
  { intros Hp. rewrite (proj2 (existsb_exists _ _)) in Eb; [discriminate|].
    exists (_path_to_routes self). split; [apply routes_is_object|].
    unfold removed_with, Fs.is_dir. rewrite Hroutes.
    rewrite (bool_decide_eq_true_2 (_path_to_routes self `prefix_of` p)) by assumption.
    apply orb_true_r. }
  apply (touches_prepare_sumo today float_str read_csv os_system self
           (fun q => _path_to_routes self `prefix_of` q /\ q <> _path_to_routes self)
           tools_below_routes).
  intros [Ht | Hw]; [tauto|]. revert Hw.
  intros [-> | [-> | [(key & vtype & idx & qsv & _ & _ & ->) | ->]]].
  - apply Hnin. unfold objects_2_delete. simpl. auto 7.
  - apply Hnin. unfold objects_2_delete. simpl. auto.
  - apply Hout. unfold od_file_name, child. now apply prefix_app_r.
  - apply Hnin. unfold objects_2_delete. simpl. auto.
Qed.

End CleanAfterPrepare.


(** ** class_simulation.py: the vehicle-type copy *)

Lemma starts_with_append (old s : string) :
  Text.starts_with old s = true -> s = old +:+ Text.drop_chars (String.length old) s.
Proof.
  revert s. induction old as [|a old IH]; intros s H; [reflexivity|].
  destruct s as [|b s]; [discriminate|]. simpl in H.
  destruct (Ascii.eqb_spec a b) as [->|]; [|discriminate].
  cbn [String.length Text.drop_chars].
  change (String b s = String b (old +:+ Text.drop_chars (String.length old) s)).
  f_equal. now apply IH.
Qed.

(** Skipping the rest of a match is dropping it. *)
Lemma replace_go_skip (old new : string) (k : nat) (s : string) :
  Text.replace_go old new k s = Text.replace_go old new 0 (Text.drop_chars k s).
Proof.
  revert s. induction k as [|k IH]; intros s; [reflexivity|].
  destruct s as [|c s]; [reflexivity|]. simpl. apply IH.
Qed.

Lemma drop_chars_length (k : nat) (s : string) :
  (String.length (Text.drop_chars k s) <= String.length s)%nat.
Proof.
  revert s. induction k as [|k IH]; intros s; [simpl; lia|].
  destruct s as [|c s]; simpl; [lia|]. specialize (IH s). lia.
Qed.

(** Replacing a text that is not empty by itself changes nothing. *)
Lemma replace_same (old s : string) : old <> "" -> Text.replace old old s = s.
Proof.
  intros Hold. unfold Text.replace.
  remember (String.length s) as n eqn:Hn.
  revert s Hn. induction n as [n IH] using lt_wf_ind. intros s Hn.
  destruct s as [|c s]; [reflexivity|].
  cbn [Text.replace_go].
  destruct (Text.starts_with old (String c s)) eqn:Hs.
  - destruct old as [|a old]; [contradiction|].
    + pose proof (starts_with_append _ _ Hs) as Hsplit.
      cbn [String.length Nat.pred]. rewrite replace_go_skip.
      rewrite (IH (String.length (Text.drop_chars (String.length old) s)));
        [| pose proof (drop_chars_length (String.length old) s); simpl in Hn; lia
         | reflexivity].
      simpl in Hsplit. exact (eq_sym Hsplit).
  - f_equal. apply (IH (String.length s)); [simpl in Hn; lia | reflexivity].
Qed.

(** For a headway that prints as [1.0] and a scenario whose identifier
    is a plain name, the copy of the vehicle types is the template as
    text mode reads it, with every line end turned into a line feed,
    whatever the template holds (with or without the marker); it is
    the template byte for byte when that holds no carriage return. *)
Theorem customize_vtype_file_default_tau
    (float_str : float -> string) (self : Simulation) (fs : FS) (content : string) :
  plain_name (sim_id self) = true ->
  float_str (_tau self) = "1.0" ->
  fs !! _path_to_vtypes_ref self = Some (File content) ->
  fs !! _path_to_additional self = Some Dir ->
  fs !! _path_to_vtypes self <> Some Dir ->
  customize_vtype_file float_str (_path_to_vtypes_ref self) (_path_to_vtypes self)
                       (_tau self) fs
  = (Ok tt, <[_path_to_vtypes self := File (Text.universal_newlines content)]> fs) /\
  (no_cr content = true ->
   customize_vtype_file float_str (_path_to_vtypes_ref self) (_path_to_vtypes self)
                        (_tau self) fs
   = (Ok tt, <[_path_to_vtypes self := File content]> fs)).
Proof.
  intros _ Htau Href Hdir Hnew.
  assert (E : customize_vtype_file float_str (_path_to_vtypes_ref self)
                (_path_to_vtypes self) (_tau self) fs
              = (Ok tt, <[_path_to_vtypes self := File (Text.universal_newlines content)]> fs)).
  { unfold customize_vtype_file.
    rewrite (bind_ok _ _ _ _ _ (read_text_file _ _ _ Href)).
    rewrite Htau. fold old_string. rewrite replace_same by discriminate.
    apply write_text_ok; [assumption|].
    unfold _path_to_vtypes. now rewrite parent_child. }
  split; [exact E|]. intros Hcr. rewrite E. now rewrite universal_newlines_id.
Qed.


(** ** createODMatrixFile.py: whole hours *)

(** For a segment of [k] whole hours every emitted count is exact: a
    base count [c] gives [c * k], as long as the numbers stay below
    [2^53]. In particular a segment of one hour emits the base counts
    themselves. *)
Theorem od_count_whole_hours (c k : Z) :
  0 <= c -> 0 < k -> 3600 * k < 2 ^ 53 -> c * k < 2 ^ 53 ->
  od_count c (time_factor (Pd.seconds (3600 * k))) = Ok (c * k).
Proof.
  intros Hc Hk Hmax Hck. unfold od_count.
  rewrite time_factor_whole_hours by lia.
  destruct (Z.eq_dec c 0) as [-> | Hne]; [reflexivity|].
  assert (Hc' : 0 < c < 2 ^ 53) by nia.
  rewrite of_Z_exact by assumption. rewrite mul_exact by lia.
  unfold py_int. rewrite trunc_exact by nia. reflexivity.
Qed.


(** ** class_simulation.py: the preparation succeeds *)

Lemma ensures_ret {A : Type} (I : FS -> Prop) (a : A) (Q : A -> Prop) : Q a -> ensures I (ret a) Q.
Proof. intros Hq fs Hi. exists a. auto. Qed.

Lemma ensures_bind {A B : Type} (I : FS -> Prop) (c : M A) (k : A -> M B)
    (P : A -> Prop) (Q : B -> Prop) :
  ensures I c P -> (forall a, P a -> ensures I (k a) Q) -> ensures I (bind c k) Q.
Proof.
  intros Hc Hk fs Hi. destruct (Hc fs Hi) as (a & Ha & Hp & Hi1). unfold bind.
  destruct (c fs) as [[a'|e] fs1]; simpl in Ha; [| discriminate].
  injection Ha as ->. exact (Hk a Hp fs1 Hi1).
Qed.

Lemma ensures_for_each {A B : Type} (I : FS -> Prop) (f : A -> M B) (l : list A) (Q : B -> Prop) :
  (forall a, In a l -> ensures I (f a) Q) -> ensures I (for_each f l) (Forall Q).
Proof.
  induction l as [|a l IH]; intros Hf.
  - apply ensures_ret. constructor.
  - cbn [for_each]. apply ensures_bind with (P := Q); [apply Hf; now left | intros b Hb].
    apply ensures_bind with (P := Forall Q).
    + apply IH. intros a' Ha'. apply Hf. now right.
    + intros bs Hbs. apply ensures_ret. now constructor.
Qed.

Lemma ensures_weaken {A : Type} (I : FS -> Prop) (c : M A) (P Q : A -> Prop) :
  (forall a, P a -> Q a) -> ensures I c P -> ensures I c Q.
Proof.
  intros Hpq Hc fs Hi. destruct (Hc fs Hi) as (a & Ha & Hp & Hi1). exists a. auto.
Qed.

(** *** Paths below the directory of the traffic simulator *)

Lemma relative_to_app (base rest : path) : relative_to (base ++ rest) base = Some rest.
Proof.
  induction base as [|b base IH]; simpl; [now destruct rest|].
  now rewrite String.eqb_refl.
Qed.

Lemma relative_to_child (p base r : path) (a : string) :
  relative_to p base = Some r -> relative_to (p // a) base = Some (r ++ [a]).
Proof.
  revert p r. induction base as [|b base IH]; intros p r H.
  - destruct p as [|c p]; simpl in H; injection H as <-; reflexivity.
  - destruct p as [|c p]; [discriminate|]. simpl in *.
    destruct (String.eqb b c); [| discriminate]. now apply IH.
Qed.

Lemma relative_to_refl (base : path) : relative_to base base = Some [].
Proof. rewrite <- (app_nil_r base) at 1. apply relative_to_app. Qed.

(** A path that has a path relative to the directory. *)
Ltac below_sumo :=
  repeat first [ apply relative_to_refl
               | apply relative_to_app
               | eapply relative_to_child ].

Lemma rel_to_sumo_ok (I : FS -> Prop) (sumo p r : path) :
  relative_to p sumo = Some r -> ensures I (rel_to_sumo sumo p) (fun _ => True).
Proof. intros H fs Hi. unfold rel_to_sumo. rewrite H. simpl. eauto. Qed.


(** *** The state that the preparation needs is kept *)

Lemma written_not_directory (self : Simulation) (p : path) :
  written_by_prepare_sumo self p ->
  p <> _path_to_additional self /\ p <> _path_to_routes self /\ p <> _path_to_config self.
Proof.
  unfold written_by_prepare_sumo, od_file_name, _path_to_additional_file, _path_to_vtypes,
    _path_to_sumo_config_file, _path_to_routes, _path_to_config, _path_to_additional.
  intros [-> | [-> | [(key & vtype & idx & qsv & _ & _ & ->) | ->]]];
    repeat split; intros H; path_absurd H.
Qed.

Lemma not_below_routes (self : Simulation) (q : path) :
  q = _path_to_additional self \/ q = _path_to_routes self \/ q = _path_to_config self \/
  input_of_prepare_sumo self q ->
  ~ (_path_to_routes self `prefix_of` q /\ q <> _path_to_routes self).
Proof.
  unfold input_of_prepare_sumo.
  intros [-> | [-> | [-> | [(name & _ & ->) | [-> | ->]]]]] [H Hne];
    try (now apply Hne);
    unfold _path_to_net_file, _path_to_config in H; path_normal; no_prefix H.
Qed.

Lemma od_table_plain (key : string) (vtype : Z) :
  In (key, vtype) dict_traffic_types -> plain_name ("odm_" +:+ key +:+ ".csv") = true.
Proof.
  unfold dict_traffic_types. intros H. simpl in H.
  repeat (destruct H as [H | H]; [injection H as <- <-; reflexivity |]). contradiction.
Qed.

Lemma od_table_input (self : Simulation) (key : string) (vtype : Z) :
  In (key, vtype) dict_traffic_types ->
  input_of_prepare_sumo self (_path_to_traffic self // ("odm_" +:+ key +:+ ".csv")).
Proof. intros H. left. eexists. split; [exact (od_table_plain key vtype H) | reflexivity]. Qed.

Lemma obstruction_trips_input (self : Simulation) :
  input_of_prepare_sumo self (_path_to_obstruction_trips_file self).
Proof. left. exists "obstruction.trips.xml". split; reflexivity. Qed.

Lemma ready_insert (read_csv : string -> outcome (list od_row)) (self : Simulation)
    (fs : FS) (p : path) (c : string) :
  written_by_prepare_sumo self p ->
  ready read_csv self fs -> ready read_csv self (<[p := File c]> fs).
Proof.
  intros Hw (Hadd & Hroutes & Hconfig & [content Href] & Hcsv & Hobs & Hfiles).
  destruct (written_not_directory self p Hw) as (H1 & H2 & H3).
  assert (Hin : forall q, input_of_prepare_sumo self q -> p <> q).
  { intros q Hq ->. exact (inputs_not_written self q Hq Hw). }
  unfold ready. repeat split.
  - now rewrite lookup_insert_ne.
  - now rewrite lookup_insert_ne.
  - now rewrite lookup_insert_ne.
  - exists content. rewrite lookup_insert_ne; [assumption|].
    apply Hin. right. right. reflexivity.
  - intros key vtype Hkey. destruct (Hcsv key vtype Hkey) as (text & rows & Ht & Hr & Hn).
    exists text, rows. repeat split; try assumption.
    rewrite lookup_insert_ne; [assumption|]. apply Hin. now apply od_table_input with vtype.
  - intros Ho. rewrite lookup_insert_ne; [auto|].
    apply Hin. apply obstruction_trips_input.
  - intros q Hq. destruct (decide (p = q)) as [->|Hne].
    + rewrite lookup_insert_eq. discriminate.
    + rewrite lookup_insert_ne by assumption. now apply Hfiles.
Qed.

Section Success.

Variable today : Z.
Variable float_str : float -> string.
Variable read_csv : string -> outcome (list od_row).
Variable os_system : string -> FS -> Z * FS.
Variable self : Simulation.

(** The external tools write below the directory of the routes, and
    make no directory. *)
Hypothesis tools_below_routes :
  forall cmd fs p,
    ~ (_path_to_routes self `prefix_of` p /\ p <> _path_to_routes self) ->
    (os_system cmd fs).2 !! p = fs !! p.
Hypothesis tools_make_no_directory :
  forall cmd fs p, (os_system cmd fs).2 !! p = Some Dir -> fs !! p = Some Dir.

Lemma ready_system (cmd : string) :
  ensures (ready read_csv self) (system os_system cmd) (fun _ => True).
Proof.
  intros fs (Hadd & Hroutes & Hconfig & [content Href] & Hcsv & Hobs & Hfiles).
  unfold system.
  pose proof (tools_below_routes cmd fs) as Hframe.
  pose proof (tools_make_no_directory cmd fs) as Hdir.
  destruct (os_system cmd fs) as [status fs']. simpl in *.
  assert (Hsame : forall q,
             q = _path_to_additional self \/ q = _path_to_routes self \/
             q = _path_to_config self \/ input_of_prepare_sumo self q ->
             fs' !! q = fs !! q).
  { intros q Hq. apply Hframe. now apply not_below_routes. }
  exists status. split; [reflexivity|]. split; [exact I|].
  unfold ready. repeat split.
  - rewrite Hsame; auto.
  - rewrite Hsame; auto.
  - rewrite Hsame; auto.
  - exists content. rewrite Hsame; [assumption|]. right. right. right. right. right. reflexivity.
  - intros key vtype Hkey. destruct (Hcsv key vtype Hkey) as (text & rows & Ht & Hr & Hn).
    exists text, rows. repeat split; try assumption.
    rewrite Hsame; [assumption|]. right. right. right. now apply od_table_input with vtype.
  - intros Ho. rewrite Hsame; [auto|]. right. right. right.
    apply obstruction_trips_input.
  - intros q Hq Hd. apply (Hfiles q Hq). now apply Hdir.
Qed.

(** A write of the preparation succeeds when the directory of the
    file is one of the three that are there. *)
Lemma ready_write (p : path) (c : string) :
  written_by_prepare_sumo self p ->
  parent p = _path_to_additional self \/ parent p = _path_to_routes self \/
  parent p = _path_to_config self ->
  ensures (ready read_csv self) (Fs.write_text p c) (fun _ => True).
Proof.
  intros Hw Hparent fs Hready.
  pose proof Hready as (Hadd & Hroutes & Hconfig & _ & _ & _ & Hfiles).
  rewrite write_text_ok.
  - exists tt. split; [reflexivity|]. split; [exact I|]. now apply ready_insert.
  - now apply Hfiles.
  - destruct Hparent as [-> | [-> | ->]]; assumption.
Qed.

End Success.


(** *** Every step succeeds *)

Lemma ensures_lift {A : Type} (I : FS -> Prop) (e : exn) (o : option A) (a : A) :
  o = Some a -> ensures I (lift e o) (fun _ => True).
Proof. intros -> fs Hi. exists a. auto. Qed.

Lemma ensures_of_outcome {A : Type} (I : FS -> Prop) (a : A) :
  ensures I (of_outcome (Ok a)) (eq a).
Proof. intros fs Hi. exists a. auto. Qed.

Lemma traverse_Forall2 {A B} (f : A -> outcome B) (l : list A) (bs : list B) :
  Forall2 (fun a b => f a = Ok b) l bs -> traverse f l = Ok bs.
Proof.
  induction 1 as [|a b l bs Ha _ IH]; [reflexivity|]. simpl. now rewrite Ha, IH.
Qed.

Lemma py_int_total_seconds (d : Pd.Timedelta) :
  0 <= d < 2 ^ 63 -> exists z, py_int (Pd.total_seconds d) = Ok z.
Proof.
  intros Hd.
  destruct (trunc_scale2 _ _ _ (pd_total_seconds_bounded d Hd)) as (n & Hn & _).
  exists n. unfold py_int. now rewrite Hn.
Qed.

Lemma segment_duration_range (D n : Z) :
  0 < n -> 0 <= D < 2 ^ 53 -> 0 <= D / n < 2 ^ 63.
Proof.
  intros Hn HD. split; [apply Z.div_pos; lia|].
  apply Z.le_lt_trans with D; [| lia]. apply Z.div_le_upper_bound; nia.
Qed.

Lemma bind_Ok_inv {A B} (c : M A) (k : A -> M B) (fs fs' : FS) (b : B) :
  bind c k fs = (Ok b, fs') -> exists a fs1, c fs = (Ok a, fs1) /\ k a fs1 = (Ok b, fs').
Proof.
  unfold bind. destruct (c fs) as [[a|e] fs1]; [eauto | discriminate].
Qed.

(** A configuration that has been created is a file. *)
Lemma create_sumo_config_file_writes
    (float_str : float -> string)
    (sumo net : path) (trips : list path) (t0 : Z) (d : Pd.Timedelta)
    (d1 d2 d3 d4 : Time.timedelta)
    (tls : bool) (cfg fcd add taz vt gui poly : path) (fs fs' : FS) :
  create_sumo_config_file float_str sumo net trips t0 d d1 d2 d3 d4 tls
                          cfg fcd add taz vt gui poly fs = (Ok tt, fs') ->
  exists text, fs' !! cfg = Some (File text).
Proof.
  unfold create_sumo_config_file. intros H.
  repeat (apply bind_Ok_inv in H as (? & ? & _ & H)).
  match type of H with Fs.write_text cfg ?c ?fs0 = _ =>
    destruct (write_text_cases cfg c fs0) as [E | [e E]]; rewrite E in H
  end; [| discriminate].
  injection H as <-. rewrite lookup_insert_eq. eauto.
Qed.


Section Succeeds.

Variable today : Z.
Variable float_str : float -> string.
Variable read_csv : string -> outcome (list od_row).
Variable os_system : string -> FS -> Z * FS.
Variable self : Simulation.

Hypothesis tools_below_routes :
  forall cmd fs p,
    ~ (_path_to_routes self `prefix_of` p /\ p <> _path_to_routes self) ->
    (os_system cmd fs).2 !! p = fs !! p.
Hypothesis tools_make_no_directory :
  forall cmd fs p, (os_system cmd fs).2 !! p = Some Dir -> fs !! p = Some Dir.

Hypothesis known_codes :
  Forall (fun qsv => is_Some (dict_qsv_x qsv)) (_qsv_sequence self).
Hypothesis duration_range : 0 <= _duration self < 2 ^ 53.
Hypothesis sequence_length : Z.of_nat (length (_qsv_sequence self)) < 2 ^ 63.
Hypothesis today_is_a_date : 1 <= today.
Hypothesis end_is_a_date :
  base_start_time today + _duration self / 1000 < END_OF_TIME.

Local Abbreviation I := (ready read_csv self).
Local Abbreviation below_sumo_dir := (fun p : path => is_Some (relative_to p (_path_to_sumo self))).

Lemma od_matrix_step_succeeds (key : string) (vtype : Z) (item : nat * ascii) :
  In (key, vtype) dict_traffic_types ->
  In item (enumerate (_qsv_sequence self)) ->
  ensures I (od_matrix_step today read_csv self key vtype item) (fun _ => True).
Proof.
  intros Hkey Hin. destruct item as [idx qsv].
  pose proof (enumerate_In _ _ Hin) as [Hlt Hitem]. simpl in Hlt, Hitem.
  assert (Hknown : is_Some (dict_qsv_x (idx, qsv).2)).
  { simpl. apply (proj1 (List.Forall_forall _ _) known_codes).
    apply list_elem_of_In. eapply list_elem_of_lookup_2. exact Hitem. }
  destruct (segment_dates_valid today self idx ltac:(lia) today_is_a_date
              end_is_a_date Hlt) as [Hs He].
  pose proof (time_segment_ok today self (idx, qsv) Hknown Hlt duration_range
                sequence_length today_is_a_date end_is_a_date) as E.
  cbn [fst snd] in E. unfold od_matrix_step. rewrite E.
  apply ensures_bind with (P := eq (segment_at today self (idx, qsv)));
    [apply ensures_of_outcome | intros seg <-].
  apply ensures_bind with (P := fun _ => True); [| intros; now apply ensures_ret].
  unfold segment_at. cbn [seg_factor seg_start seg_duration fst snd].
  set (d := _duration self / Z.of_nat (length (_qsv_sequence self))) in *.
  assert (Hd : 0 <= d < 2 ^ 63) by (apply segment_duration_range; lia).
  intros fs Hready. pose proof Hready as (_ & _ & _ & _ & Hcsv & _ & _).
  destruct (Hcsv key vtype Hkey) as (text & rows & Ht & Hr & Hn).
  destruct (od_counts_total rows d Hd Hn) as [counts Hcounts].
  rewrite create_od_matrix_file_cases, He, Ht, Hr.
  rewrite (traverse_Forall2 _ rows counts)
    by (eapply Forall2_impl; [exact Hcounts | now intros row c [H _]]).
  apply ready_write; [| | assumption].
  - right. right. left. exists key, vtype, idx, qsv. auto.
  - right. left. unfold od_file_name. apply parent_child.
Qed.

Lemma od_trips_step_succeeds (item : string * Z) :
  In item dict_traffic_types ->
  ensures I (od_trips_step today read_csv os_system self item) below_sumo_dir.
Proof.
  intros Hkey. destruct item as [key vtype]. unfold od_trips_step.
  apply ensures_bind with (P := fun _ => True).
  - unfold od_matrices. eapply ensures_weaken; [| apply ensures_for_each]; [auto|].
    intros item Hin. now apply od_matrix_step_succeeds.
  - intros files _. apply ensures_bind with (P := fun _ => True).
    + now apply ready_system.
    + intros _ _. apply ensures_ret.
      unfold _path_to_routes. eexists. below_sumo.
Qed.

Lemma obstruction_route_succeeds :
  ensures I (obstruction_route os_system self) (Forall below_sumo_dir).
Proof.
  unfold obstruction_route. destruct (_obstruction self) eqn:Ho;
    [| apply ensures_ret; constructor].
  apply ensures_bind with (P := fun _ => True).
  - intros fs Hready. pose proof Hready as (_ & _ & _ & _ & _ & Hobs & _).
    destruct (Hobs Ho) as [x Hx]. unfold Fs.resolve_strict. rewrite Hx.
    exists tt. auto.
  - intros _ _. apply ensures_bind with (P := fun _ => True).
    + now apply ready_system.
    + intros _ _. apply ensures_ret. constructor; [| constructor].
      unfold _path_to_odroute_file, _path_to_routes. eexists. below_sumo.
Qed.

Lemma create_sumo_config_file_succeeds (trips : list path) :
  Forall below_sumo_dir trips ->
  ensures I
    (create_sumo_config_file float_str
       (_path_to_sumo self) (_path_to_net_file self) trips
       _start_time (_duration self) _sumo_step_length _sumo_action_step_length
       _sumo_max_depart_delay _sumo_fcd_output_interval (_use_tls self)
       (_path_to_sumo_config_file self) (_path_to_fcd_output_file self)
       (_path_to_additional_file self) (_path_to_taz_file self)
       (_path_to_vtypes self) (_path_to_gui_view_file self) (_path_to_poly_file self))
    (fun _ => True).
Proof.
  intros Htrips. unfold create_sumo_config_file.
  apply ensures_bind with (P := fun _ => True).
  { eapply rel_to_sumo_ok. unfold _path_to_net_file. below_sumo. }
  intros ? _. apply ensures_bind with (P := fun _ => True).
  { eapply ensures_weaken; [| apply ensures_for_each with (Q := fun _ => True)]; [auto|].
    intros p Hp. destruct (proj1 (List.Forall_forall _ _) Htrips p Hp) as [r Hr].
    now apply rel_to_sumo_ok with (r := r). }
  intros ? _. apply ensures_bind with (P := fun _ => True).
  { eapply rel_to_sumo_ok. unfold _path_to_fcd_output_file, _path_to_results_sumo. below_sumo. }
  intros ? _. apply ensures_bind with (P := fun _ => True).
  { eapply rel_to_sumo_ok. unfold _path_to_taz_file, _path_to_traffic. below_sumo. }
  intros ? _. apply ensures_bind with (P := fun _ => True).
  { eapply rel_to_sumo_ok. unfold _path_to_vtypes, _path_to_additional. below_sumo. }
  intros ? _. apply ensures_bind with (P := fun _ => True).
  { eapply rel_to_sumo_ok. unfold _path_to_gui_view_file, _path_to_additional. below_sumo. }
  intros ? _. apply ensures_bind with (P := fun _ => True).
  { eapply rel_to_sumo_ok. unfold _path_to_poly_file. below_sumo. }
  intros ? _. apply ensures_bind with (P := fun _ => True).
  { eapply rel_to_sumo_ok. unfold _path_to_additional_file, _path_to_additional. below_sumo. }
  intros ? _. destruct (py_int_total_seconds (_duration self) ltac:(lia)) as [z Hz].
  rewrite Hz. apply ensures_bind with (P := fun _ => True);
    [eapply ensures_weaken; [| apply ensures_of_outcome]; auto |].
  intros ? _. apply ready_write.
  - right. right. right. reflexivity.
  - right. right. unfold _path_to_sumo_config_file, _path_to_config. apply parent_child.
Qed.

(** On a file system that is ready, with external tools that write
    below the directory of the routes and make no directory, the
    preparation of a scenario with plain names (its identifier, its
    traffic directory, its network), known codes, a duration that is
    not negative and below [2^53] nanoseconds, and dates within the
    calendar succeeds: it returns without an error, leaves the file
    system ready for a further run, and the configuration of the
    traffic simulator is a file. *)
Theorem prepare_sumo_succeeds (fs : FS) :
  plain_name (sim_id self) = true ->
  plain_name (_traffic self) = true ->
  plain_name (_net self) = true ->
  ready read_csv self fs ->
  let run := prepare_sumo today float_str read_csv os_system self fs in
  run.1 = Ok tt /\ ready read_csv self run.2 /\
  exists text, run.2 !! _path_to_sumo_config_file self = Some (File text).
Proof.
  intros _ _ _ Hready run.
  assert (Hens : ensures I (prepare_sumo today float_str read_csv os_system self)
                         (fun _ => True)).
  { unfold prepare_sumo.
    apply ensures_bind with (P := fun _ => True).
    { unfold create_additional_file.
      apply ensures_bind with (P := fun _ => True).
      - eapply ensures_lift. unfold _path_to_edge_dump_file, _path_to_results_sumo. below_sumo.
      - intros rel _. apply ready_write.
        + left. reflexivity.
        + left. unfold _path_to_additional_file. apply parent_child. }
    intros _ _. apply ensures_bind with (P := fun _ => True).
    { unfold customize_vtype_file.
      apply ensures_bind with (P := fun _ => True).
      - intros fs0 Hr0. pose proof Hr0 as (_ & _ & _ & [content Href] & _).
        rewrite (read_text_file _ _ _ Href). eexists. auto.
      - intros content _. apply ready_write.
        + right. left. reflexivity.
        + left. unfold _path_to_vtypes. apply parent_child. }
    intros _ _. apply ensures_bind with (P := Forall below_sumo_dir).
    { apply ensures_for_each. intros item Hitem. now apply od_trips_step_succeeds. }
    intros trips Htrips. apply ensures_bind with (P := Forall below_sumo_dir);
      [apply obstruction_route_succeeds |].
    intros routes Hroutes. apply create_sumo_config_file_succeeds.
    apply Forall_app. auto. }
  destruct (Hens fs Hready) as ([] & Hok & _ & Hready').
  subst run. split; [exact Hok|]. split; [exact Hready'|].
  destruct (prepare_sumo today float_str read_csv os_system self fs) as [o fs'] eqn:Erun.
  simpl in Hok |- *. rewrite Hok in Erun. unfold prepare_sumo in Erun.
  do 4 (apply bind_Ok_inv in Erun as (? & ? & _ & Erun)).
  eapply create_sumo_config_file_writes. exact Erun.
Qed.

End Succeeds.


(** ** class_simulation.py: one file per traffic type and segment *)

Lemma str_Z_inj (a b : Z) : Text.str_Z a = Text.str_Z b -> a = b.
Proof.
  unfold Text.str_Z. intros H. apply DecimalZ.to_int_inj.
  assert (E : Some (Z.to_int a) = Some (Z.to_int b))
    by (rewrite <- !NilEmpty.isi; now rewrite H).
  now injection E.
Qed.

Lemma string_of_uint_no_underscore (d : Decimal.uint) :
  no_underscore (NilEmpty.string_of_uint d) = true.
Proof. induction d; simpl; auto. Qed.

Lemma str_Z_no_underscore (i : nat) : no_underscore (Text.str_Z (Z.of_nat i)) = true.
Proof.
  unfold Text.str_Z. destruct (Z.of_nat i) as [|p|p] eqn:E; try lia;
    simpl; try reflexivity; apply string_of_uint_no_underscore.
Qed.

(** Texts without an underscore that are followed by one are read off
    uniquely. *)
Lemma split_at_underscore (s1 s2 r1 r2 : string) :
  no_underscore s1 = true -> no_underscore s2 = true ->
  s1 +:+ String "_" r1 = s2 +:+ String "_" r2 -> s1 = s2 /\ r1 = r2.
Proof.
  revert s2. induction s1 as [|c s1 IH]; intros [|c' s2] H1 H2 E; simpl in *.
  - now injection E.
  - injection E as <- _. now rewrite Ascii.eqb_refl in H2.
  - injection E as -> _. now rewrite Ascii.eqb_refl in H1.
  - injection E as -> E. apply andb_prop in H1 as [_ H1]. apply andb_prop in H2 as [_ H2].
    destruct (IH s2 H1 H2 E) as [-> ->]. auto.
Qed.

(** The demand matrices of different traffic types or segments are
    different files: no emission overwrites the file of another. *)
Theorem od_file_name_inj (self : Simulation) (key key' : string) (vtype vtype' : Z)
    (idx idx' : nat) (qsv qsv' : ascii) :
  In (key, vtype) dict_traffic_types -> In (key', vtype') dict_traffic_types ->
  od_file_name self key idx qsv = od_file_name self key' idx' qsv' ->
  key = key' /\ idx = idx' /\ qsv = qsv'.
Proof.
  unfold od_file_name. intros Hk Hk' H.
  apply child_inj in H as [_ H]. apply append_inj_l in H.
  change ("_odm_" +:+ ?x) with (String "_" (String "o" (String "d" (String "m" (String "_" x))))) in H.
  injection H as H.
  assert (Hrest : Text.str_Z (Z.of_nat idx) +:+ "_qsv_" +:+ String qsv "" +:+ ".od"
                  = Text.str_Z (Z.of_nat idx') +:+ "_qsv_" +:+ String qsv' "" +:+ ".od" ->
                  idx = idx' /\ qsv = qsv').
  { intros E.
    change ("_qsv_" +:+ ?x) with (String "_" ("qsv_" +:+ x)) in E.
    apply split_at_underscore in E as [E1 E2]; try apply str_Z_no_underscore.
    apply str_Z_inj, Nat2Z.inj in E1. simpl in E2. injection E2 as ->. auto. }
  simpl in Hk, Hk'.
  destruct Hk as [Hk | [Hk | []]]; destruct Hk' as [Hk' | [Hk' | []]];
    injection Hk as <- _; injection Hk' as <- _; simpl in H;
    try discriminate H; injection H as H; (split; [reflexivity | now apply Hrest]).
Qed.


(** ** createSUMOConfigFile.py: the relative paths lead back *)

Lemma relative_to_Some (p base r : path) : relative_to p base = Some r -> p = base ++ r.
Proof.
  revert p. induction base as [|b base IH]; intros p H.
  - destruct p; simpl in H; now injection H as <-.
  - destruct p as [|c p]; [discriminate|]. simpl in H.
    destruct (String.eqb_spec b c) as [->|]; [| discriminate].
    simpl. f_equal. now apply IH.
Qed.

(** The configuration names every file by [..] and its path relative
    to the directory of the traffic simulator. Read from a directory
    just below that one (where the configuration and the additional
    file are written), such a name leads back to the file. *)
Theorem rel_to_sumo_resolves (sumo p r : path) (dir : string) (fs : FS) :
  dir <> ".." ->
  relative_to p sumo = Some r ->
  rel_to_sumo sumo p fs = (Ok (".." :: r), fs) /\
  normpath ((sumo // dir) ++ ".." :: r) = normpath p.
Proof.
  intros Hdir Hrel. split.
  - unfold rel_to_sumo. now rewrite Hrel.
  - rewrite (relative_to_Some _ _ _ Hrel). unfold normpath, child. f_equal.
    change (".." :: r) with ([".."] ++ r).
    rewrite !fold_left_app. f_equal.
    cbn [fold_left]. unfold normpath_step.
    destruct (String.eqb_spec dir "..") as [E|_]; [contradiction|].
    change (".." =? "..")%string with true. cbn iota.
    destruct (String.eqb_spec dir "..") as [E|_]; [contradiction | reflexivity].
Qed.


(** ** createSUMOConfigFile.py: the simulated time *)

Lemma starts_with_app (x b : string) : Text.starts_with x (x +:+ b) = true.
Proof. induction x as [|c x IH]; simpl; [reflexivity|]. now rewrite Ascii.eqb_refl. Qed.

Lemma starts_with_app_l (x a b : string) :
  Text.starts_with x a = true -> Text.starts_with x (a +:+ b) = true.
Proof.
  revert a. induction x as [|c x IH]; intros a H; [reflexivity|].
  destruct a as [|c' a]; [discriminate|]. simpl in *.
  destruct (Ascii.eqb c c'); [now apply IH | discriminate].
Qed.

Lemma contains_here (x b : string) : Text.contains x (x +:+ b) = true.
Proof.
  destruct (x +:+ b) eqn:E; simpl; rewrite <- E, starts_with_app; reflexivity.
Qed.

Lemma contains_app_l (x a b : string) :
  Text.contains x a = true -> Text.contains x (a +:+ b) = true.
Proof.
  induction a as [|c a IH]; intros H.
  - simpl in H. rewrite orb_false_r in H.
    destruct x; [| discriminate]. now destruct b.
  - simpl in H. apply orb_prop in H as [H|H].
    + pose proof (starts_with_app_l x (String c a) b H) as H'.
      change (String c a +:+ b) with (String c (a +:+ b)) in *.
      cbn [Text.contains]. now rewrite H'.
    + change (String c a +:+ b) with (String c (a +:+ b)).
      cbn [Text.contains]. rewrite IH by assumption. apply orb_true_r.
Qed.

Lemma contains_app_r (x a b : string) :
  Text.contains x b = true -> Text.contains x (a +:+ b) = true.
Proof.
  intros H. induction a as [|c a IH]; [assumption|].
  change (String c a +:+ b) with (String c (a +:+ b)).
  cbn [Text.contains]. rewrite IH. apply orb_true_r.
Qed.

(** Finds a line in a text that is built by concatenation. *)
Ltac find_line :=
  first [ apply contains_here
        | solve [apply contains_app_l; find_line]
        | solve [apply contains_app_r; find_line] ].

(** When the configuration of the traffic simulator is created for a
    start at midnight and a duration of [k] whole seconds, it is a file
    that sets the begin of the simulation to 0 and its end to exactly
    [k]. *)
Theorem sumo_config_time_window
    (float_str : float -> string)
    (sumo net : path) (trips : list path) (k : Z) (d1 d2 d3 d4 : Time.timedelta)
    (tls : bool) (cfg fcd add taz vt gui poly : path) (fs fs' : FS) :
  0 <= k < 2 ^ 53 ->
  create_sumo_config_file float_str sumo net trips _start_time (Pd.seconds k)
                          d1 d2 d3 d4 tls cfg fcd add taz vt gui poly fs = (Ok tt, fs') ->
  exists text,
    fs' !! cfg = Some (File text) /\
    Text.contains (value_line "begin" "0") text = true /\
    Text.contains (value_line "end" (Text.str_Z k)) text = true.
Proof.
  intros Hk H. unfold create_sumo_config_file in H.
  rewrite (py_int_whole_seconds k Hk) in H.
  do 8 (apply bind_Ok_inv in H as (? & ? & _ & H)).
  apply bind_Ok_inv in H as (z & fsz & Hz & H).
  unfold of_outcome in Hz. injection Hz as <- <-.
  match type of H with Fs.write_text cfg ?c ?fs0 = _ =>
    destruct (write_text_cases cfg c fs0) as [E | [e E]]; rewrite E in H
  end; [| discriminate].
  injection H as <-. eexists. split; [apply lookup_insert_eq|].
  change ((Time.hour _start_time * 60 + Time.minute _start_time) * 60
          + (Time.time_of_day _start_time / Time.SECOND) mod 60) with 0.
  change (Text.str_Z 0) with "0". rewrite Z.add_0_l.
  split; find_line.
Qed.


(* ===================================================================== *)
(** * Runs on the concrete environment *)
(* ===================================================================== *)

(** One hour in seven segments: each segment lasts 514285714285
    nanoseconds, and the seven of them cover 5 nanoseconds less than
    the hour. The fourth segment ends, as the emission computes its
    end, one microsecond before the fifth starts, and the last one
    ends one microsecond before the hour does. *)
Lemma seven_segments_fall_short :
  let D := _duration Sample.seven_parts in
  let n := Z.of_nat (length (_qsv_sequence Sample.seven_parts)) in
  let base := base_start_time Sample.today in
  exists segs seg3 seg4 seg6,
    time_segments Sample.today Sample.seven_parts = Ok segs /\
    Forall (fun seg => seg_duration seg = 514285714285) segs /\
    D = 3600 * 10 ^ 9 /\ n = 7 /\
    n * 514285714285 = D - 5 /\
    segs !! 3%nat = Some seg3 /\ segs !! 4%nat = Some seg4 /\ segs !! 6%nat = Some seg6 /\
    seg_start seg3 + Pd.to_pytimedelta (seg_duration seg3) = base + 2057142856 /\
    seg_start seg4 = base + 2057142857 /\
    seg_start seg6 + Pd.to_pytimedelta (seg_duration seg6) = base + 3599999999 /\
    Pd.to_pytimedelta D = 3600000000.
Proof.
  vm_compute. do 4 eexists.
  split; [reflexivity|]. split; [repeat constructor|].
  repeat split; reflexivity.
Qed.

(** The segment of code [b]: its bounds are the floats of 0.30 and
    0.55, and its factor is neither their mean nor the float of
    0.425; it is the next float above that. *)
Lemma factor_of_b_is_not_the_mean :
  exists seg,
    time_segment Sample.today Sample.two_hours 1 "b" = Ok seg /\
    dict_qsv_x "b" = Some [lit2 30; lit2 55] /\
    ~ (value (seg_factor seg) == mean (value (lit2 30)) (value (lit2 55)))%Q /\
    Float.dec 425 3 = S754_finite false 7656119366529843 (- 54) /\
    seg_factor seg = S754_finite false 7656119366529844 (- 54).
Proof.
  eexists. split; [vm_compute; reflexivity|]. split; [reflexivity|].
  split; [| split; vm_compute; reflexivity].
  cbn [seg_factor]. vm_compute. discriminate.
Qed.

(** A base count of 100 and a segment of 1044 seconds: the code emits
    28, the floor of the exact product is 29; and the factor line of
    the second file of the scenario [ab] reads 0.43. *)
Lemma od_count_below_floor :
  od_count 100 (time_factor (Pd.seconds 1044)) = Ok 28 /\
  100 * 1044 / 3600 = 29 /\
  (exists seg, time_segment Sample.today Sample.two_hours 1 "b" = Ok seg /\
               Float.fmt_2f (seg_factor seg) = "0.43").
Proof.
  split; [vm_compute; reflexivity|]. split; [reflexivity|].
  eexists. split; vm_compute; reflexivity.
Qed.

(** A known code and then an unknown one: the run raises [TypeError]
    after the demand matrix of the first segment has been written. *)
Lemma unknown_code_leaves_files :
  let fs := Sample.files Sample.bad_code in
  let run := prepare_sumo Sample.today Sample.float_str Sample.read_csv
                          Sample.os_system_failing Sample.bad_code fs in
  run.1 = Raise TypeError /\
  fs !! od_file_name Sample.bad_code "miv" 0 "a" = None /\
  is_Some (run.2 !! od_file_name Sample.bad_code "miv" 0 "a").
Proof.
  vm_compute. split; [reflexivity|]. split; [reflexivity|]. eexists. reflexivity.
Qed.

(** Every external conversion exits with status 1 and writes nothing:
    the run succeeds all the same and writes the configuration of the
    traffic simulator, with no trip file there. *)
Lemma failed_tools_go_unnoticed :
  let fs := Sample.files Sample.two_hours in
  let run := prepare_sumo Sample.today Sample.float_str Sample.read_csv
                          Sample.os_system_failing Sample.two_hours fs in
  (forall cmd fs', (Sample.os_system_failing cmd fs').1 = 1) /\
  run.1 = Ok tt /\
  is_Some (run.2 !! _path_to_sumo_config_file Sample.two_hours) /\
  run.2 !! (_path_to_routes Sample.two_hours // "s1_trip_miv.odtrips.xml") = None.
Proof.
  split; [reflexivity|]. vm_compute.
  split; [reflexivity|]. split; [eexists; reflexivity | reflexivity].
Qed.

(** One second and two seconds in 128 segments: a segment lasts
    7812500 nanoseconds, and twice that. For the base count 460800 the
    shorter segment emits 0 and the longer one 2: the seconds of the
    shorter one are read off its 7812 whole microseconds. *)
Lemma doubled_duration_gains_two :
  Pd.td_truediv (Pd.seconds 1) 128 = Ok 7812500 /\
  Pd.td_truediv (Pd.seconds 2) 128 = Ok (2 * 7812500) /\
  od_count 460800 (time_factor 7812500) = Ok 0 /\
  od_count 460800 (time_factor (2 * 7812500)) = Ok 2 /\
  460800 * 7812500 / (3600 * 10 ^ 9) = 1.
Proof. vm_compute. repeat split; reflexivity. Qed.

(** A scenario whose results are kept below its directory of routes:
    the archived copy of the configuration is none of the six paths,
    and the cleanup removes it with the directory of the routes. *)
Lemma clean_removes_nested_archive :
  let self := Sample.nested_results in
  let fs := Sample.files self in
  plain_name (sim_id self) = true /\
  ~ In (_path_to_sim_config_copy self) (objects_2_delete self) /\
  fs !! _path_to_sim_config_copy self = Some (File "SzenarioID;...") /\
  clean self fs !! _path_to_sim_config_copy self = None.
Proof.
  split; [reflexivity|]. split; [| split; vm_compute; reflexivity].
  vm_compute. intros H. repeat (destruct H as [H | H]; [discriminate H |]). exact H.
Qed.

(** A template with the line ends of another system and without the
    marker: the copy holds a line feed where the template holds a
    carriage return and a line feed. *)
Lemma crlf_template_is_not_copied_byte_for_byte :
  let self := Sample.two_hours in
  let fs := <[_path_to_vtypes_ref self := File Sample.crlf_template]> (Sample.files self) in
  let run := customize_vtype_file Sample.float_str (_path_to_vtypes_ref self)
                                  (_path_to_vtypes self) (_tau self) fs in
  Text.contains old_string Sample.crlf_template = false /\
  run.1 = Ok tt /\
  run.2 !! _path_to_vtypes_ref self = Some (File Sample.crlf_template) /\
  run.2 !! _path_to_vtypes self = Some (File ("<additional>" +:+ NL +:+ "</additional>")) /\
  "<additional>" +:+ NL +:+ "</additional>" <> Sample.crlf_template.
Proof.
  vm_compute. repeat split; try reflexivity. discriminate.
Qed.


(** ** The theorems at concrete inputs *)

Lemma time_segments_partition_witness :
  let self := Sample.seven_parts in
  let n := Z.of_nat (length (_qsv_sequence self)) in
  let D := _duration self in
  let d := D / n in
  (D = 3600 * 10 ^ 9 /\ n = 7 /\ d = 514285714285) /\
  exists segs,
    time_segments Sample.today self = Ok segs /\
    length segs = length (_qsv_sequence self) /\
    (forall i seg, segs !! i = Some seg ->
       seg_idx seg = i /\ _qsv_sequence self !! i = Some (seg_qsv seg) /\
       seg_duration seg = d /\
       seg_start seg = base_start_time Sample.today + d * Z.of_nat i / 1000) /\
    (0 < n -> n * d = D - D mod n /\ 0 <= D mod n < n /\ (n * d = D <-> D mod n = 0)) /\
    (forall i seg seg', segs !! i = Some seg -> segs !! S i = Some seg' ->
       seg_start seg + d / 1000 <= seg_start seg' <= seg_start seg + d / 1000 + 1 /\
       (d mod 1000 = 0 -> seg_start seg' = seg_start seg + d / 1000)).
Proof.
  split; [vm_compute; repeat split; reflexivity|].
  apply (time_segments_partition Sample.today Sample.seven_parts).
  - vm_compute. split; [discriminate | reflexivity].
  - vm_compute. reflexivity.
  - vm_compute. discriminate.
  - vm_compute. reflexivity.
  - repeat constructor; eexists; vm_compute; reflexivity.
Defined.

Lemma traffic_factor_is_mean_witness :
  exists lo hi seg,
    dict_qsv_x "b" = Some [lo; hi] /\
    time_segment Sample.today Sample.two_hours 1 "b" = Ok seg /\
    (Qabs (value (seg_factor seg) - mean (value lo) (value hi)) <= 1 # 18014398509481984)%Q /\
    ("b"%char <> "b"%char -> "b"%char <> "d"%char -> "b"%char <> "e"%char ->
     (value (seg_factor seg) == mean (value lo) (value hi))%Q) /\
    ("b"%char = "c"%char -> lo = lit2 55 /\ hi = lit2 75 /\ seg_factor seg = lit2 65).
Proof.
  apply (traffic_factor_is_mean Sample.today Sample.two_hours 1 "b").
  - reflexivity.
  - eexists. vm_compute. reflexivity.
  - vm_compute. split; [discriminate | reflexivity].
  - vm_compute. reflexivity.
  - vm_compute. discriminate.
  - vm_compute. reflexivity.
Defined.

Lemma od_matrix_emission_witness :
  (exists counts,
     Forall2 (fun row c =>
                py_int (Float.mul (Float.of_Z (od_num row))
                                  (Float.div (Pd.total_seconds (Pd.seconds 3600))
                                             (Float.of_Z 3600)))
                = Ok c /\ 0 <= c)
             [{| od_from := "1"; od_to := "2"; od_num := 100 |}] counts /\
     create_od_matrix_file Sample.read_csv
       (_path_to_traffic Sample.two_hours // "odm_miv.csv") (lit2 15) 5
       (od_file_name Sample.two_hours "miv" 0 "a")
       (base_start_time Sample.today) (Pd.seconds 3600)
       (Sample.files Sample.two_hours)
     = (Ok tt,
        <[od_file_name Sample.two_hours "miv" 0 "a" :=
            File (("$OM;D2" +:+ NL +:+
                   "*vehicle type" +:+ NL +:+
                   Text.str_Z 5 +:+ NL +:+
                   "*from-time to-time" +:+ NL +:+
                   Time.fmt_hh_mm (base_start_time Sample.today) +:+ TAB +:+
                   Time.fmt_hh_mm (base_start_time Sample.today + Pd.seconds 3600 / 1000)
                   +:+ NL +:+
                   "*factor" +:+ NL +:+ Float.fmt_2f (lit2 15) +:+ NL +:+ NL)
                  +:+ od_body [{| od_from := "1"; od_to := "2"; od_num := 100 |}] counts)]>
          (Sample.files Sample.two_hours))) /\
  (let run := od_matrices Sample.today Sample.read_csv Sample.two_hours "miv" 5
                          (Sample.files Sample.two_hours) in
   run.1 = Ok [od_file_name Sample.two_hours "miv" 0 "a";
               od_file_name Sample.two_hours "miv" 1 "b"] /\
   run.2 !! od_file_name Sample.two_hours "miv" 0 "a"
   = Some (File ("$OM;D2" +:+ NL +:+ "*vehicle type" +:+ NL +:+ "5" +:+ NL +:+
                 "*from-time to-time" +:+ NL +:+ "00.00" +:+ TAB +:+ "01.00" +:+ NL +:+
                 "*factor" +:+ NL +:+ "0.15" +:+ NL +:+ NL +:+
                 TAB +:+ " 1 " +:+ TAB +:+ " 2 " +:+ TAB +:+ " 100" +:+ NL)) /\
   run.2 !! od_file_name Sample.two_hours "miv" 1 "b"
   = Some (File ("$OM;D2" +:+ NL +:+ "*vehicle type" +:+ NL +:+ "5" +:+ NL +:+
                 "*from-time to-time" +:+ NL +:+ "01.00" +:+ TAB +:+ "02.00" +:+ NL +:+
                 "*factor" +:+ NL +:+ "0.43" +:+ NL +:+ NL +:+
                 TAB +:+ " 1 " +:+ TAB +:+ " 2 " +:+ TAB +:+ " 100" +:+ NL))).
Proof.
  apply (od_matrix_emission Sample.read_csv
           (_path_to_traffic Sample.two_hours // "odm_miv.csv")
           (od_file_name Sample.two_hours "miv" 0 "a") (lit2 15) 5
           (base_start_time Sample.today) (Pd.seconds 3600)
           (Sample.files Sample.two_hours)
           ("from;to;num" +:+ NL +:+ "1;2;100" +:+ NL)
           [{| od_from := "1"; od_to := "2"; od_num := 100 |}]).
  - vm_compute. reflexivity.
  - vm_compute. split; [discriminate | reflexivity].
  - vm_compute. reflexivity.
  - vm_compute. reflexivity.
  - constructor; [vm_compute; split; [discriminate | reflexivity] | constructor].
  - vm_compute. discriminate.
  - vm_compute. reflexivity.
Defined.

Lemma unknown_code_rejected_witness :
  let fs := Sample.files Sample.bad_code in
  let run := prepare_sumo Sample.today Sample.float_str Sample.read_csv
                          Sample.os_system_failing Sample.bad_code fs in
  (exists e, run.1 = Raise e) /\
  (forall p,
      p <> _path_to_additional_file Sample.bad_code ->
      p <> _path_to_vtypes Sample.bad_code ->
      (forall j qj, (j < 1)%nat -> _qsv_sequence Sample.bad_code !! j = Some qj ->
                    p <> od_file_name Sample.bad_code "miv" j qj) ->
      run.2 !! p = fs !! p) /\
  (forall fs1 fs2 files fs3,
      create_additional_file Sample.float_str (_path_to_sumo Sample.bad_code)
        (_path_to_additional_file Sample.bad_code) (_path_to_edge_dump_file Sample.bad_code)
        _sumo_edge_dump_interval fs = (Ok tt, fs1) ->
      customize_vtype_file Sample.float_str (_path_to_vtypes_ref Sample.bad_code)
        (_path_to_vtypes Sample.bad_code) (_tau Sample.bad_code) fs1 = (Ok tt, fs2) ->
      for_each (od_matrix_step Sample.today Sample.read_csv Sample.bad_code "miv" 5)
               (take 1 (enumerate (_qsv_sequence Sample.bad_code))) fs2 = (Ok files, fs3) ->
      run = (Raise TypeError, fs3)).
Proof.
  apply (unknown_code_rejected Sample.today Sample.float_str Sample.read_csv
           Sample.os_system_failing Sample.bad_code (Sample.files Sample.bad_code)
           1%nat "?"%char).
  - reflexivity.
  - reflexivity.
Defined.


Lemma doubled_duration_doubles_count_witness :
  (Pd.seconds 1044 mod 1000 < 500 /\ Pd.seconds 1044 mod 10 ^ 9 < 5 * 10 ^ 8) /\
  exists n, od_count 100 (time_factor (Pd.seconds 1044)) = Ok n /\ 0 <= n /\
    (od_count 100 (time_factor (2 * Pd.seconds 1044)) = Ok (2 * n) \/
     od_count 100 (time_factor (2 * Pd.seconds 1044)) = Ok (2 * n + 1)).
Proof.
  split; [vm_compute; split; reflexivity|].
  apply (doubled_duration_doubles_count 100 (Pd.seconds 1044)).
  - vm_compute. split; [discriminate | reflexivity].
  - vm_compute. split; [discriminate | reflexivity].
  - vm_compute. reflexivity.
  - vm_compute. reflexivity.
Defined.

Lemma clean_removes_exactly_witness :
  let self := Sample.two_hours in
  let fs := Sample.files Sample.two_hours in
  let six := [ _path_to_vtypes self; _path_to_sumo_config_file self;
               _path_to_omnetpp_file_long self; _path_to_services_file self;
               _path_to_routes self; _path_to_additional_file self ] in
  (In (_path_to_simulation self, path_to_results self) main_paths /\
   plain_name (sim_id self) = true) /\
  (forall p, resolved p = true ->
     (clean self fs !! p = None <->
      fs !! p = None \/
      exists o, In o six /\
        (((exists c, fs !! o = Some (File c)) /\ p = o) \/
         (fs !! o = Some Dir /\ o `prefix_of` p)))) /\
  (forall p, resolved p = true ->
     clean self fs !! p <> None -> clean self fs !! p = fs !! p) /\
  clean self fs !! _path_to_vtypes_ref self = fs !! _path_to_vtypes_ref self /\
  clean self fs !! _path_to_sim_config_copy self = fs !! _path_to_sim_config_copy self.
Proof.
  assert (H : In (_path_to_simulation Sample.two_hours, path_to_results Sample.two_hours)
                 main_paths) by (simpl; auto).
  split; [split; [exact H | reflexivity]|].
  apply (clean_removes_exactly Sample.two_hours (Sample.files Sample.two_hours) H).
  reflexivity.
Defined.

Lemma customize_vtype_file_keeps_template_witness :
  let self := Sample.two_hours in
  let fs := <[_path_to_vtypes_ref self := File Sample.crlf_template]> (Sample.files self) in
  let run := customize_vtype_file Sample.float_str (_path_to_vtypes_ref self)
                                  (_path_to_vtypes self) (_tau self) fs in
  plain_name (sim_id self) = true /\
  run.2 !! _path_to_vtypes_ref self = fs !! _path_to_vtypes_ref self /\
  (forall content,
     fs !! _path_to_vtypes_ref self = Some (File content) ->
     fs !! _path_to_additional self = Some Dir ->
     fs !! _path_to_vtypes self <> Some Dir ->
     Text.contains old_string content = false ->
     run.1 = Ok tt /\
     run.2 !! _path_to_vtypes self = Some (File (Text.universal_newlines content)) /\
     (no_cr content = true -> run.2 !! _path_to_vtypes self = Some (File content))).
Proof.
  split; [reflexivity|].
  apply (customize_vtype_file_keeps_template Sample.float_str Sample.two_hours
           (<[_path_to_vtypes_ref Sample.two_hours := File Sample.crlf_template]>
              (Sample.files Sample.two_hours))).
  reflexivity.
Defined.

Lemma od_window_wraps_witness :
  let self := Sample.two_days in
  let start_time := base_start_time Sample.today + Time.seconds (18 * 3600) in
  let duration := Pd.seconds (18 * 3600) in
  let rows := [{| od_from := "1"; od_to := "2"; od_num := 100 |}] in
  let from_time := start_time mod Time.DAY in
  let to_time := (start_time + duration / 1000) mod Time.DAY in
  (Time.DAY <= from_time + duration / 1000 < 2 * Time.DAY /\ duration / 1000 < Time.DAY) /\
  create_od_matrix_file Sample.read_csv (_path_to_traffic self // "odm_miv.csv")
    (lit2 15) 5 (od_file_name self "miv" 1 "b") start_time duration (Sample.files self)
  = (Ok tt,
     <[od_file_name self "miv" 1 "b" :=
         File (("$OM;D2" +:+ NL +:+
                "*vehicle type" +:+ NL +:+
                Text.str_Z 5 +:+ NL +:+
                "*from-time to-time" +:+ NL +:+
                (Text.fmt_02d (from_time / Time.HOUR) +:+ "." +:+
                 Text.fmt_02d ((from_time / Time.MINUTE) mod 60)) +:+ TAB +:+
                (Text.fmt_02d (to_time / Time.HOUR) +:+ "." +:+
                 Text.fmt_02d ((to_time / Time.MINUTE) mod 60)) +:+ NL +:+
                "*factor" +:+ NL +:+ Float.fmt_2f (lit2 15) +:+ NL +:+ NL)
               +:+ od_body rows [1800])]> (Sample.files self))
  /\ (Time.DAY <= from_time + duration / 1000 < 2 * Time.DAY ->
      duration / 1000 < Time.DAY ->
      to_time = from_time + duration / 1000 - Time.DAY /\
      to_time < from_time /\
      to_time / Time.HOUR * 60 + (to_time / Time.MINUTE) mod 60
      <= from_time / Time.HOUR * 60 + (from_time / Time.MINUTE) mod 60)
  /\ (let run := od_matrices Sample.today Sample.read_csv Sample.two_days "miv" 5
                             (Sample.files Sample.two_days) in
      run.1 = Ok [od_file_name Sample.two_days "miv" 0 "a";
                  od_file_name Sample.two_days "miv" 1 "b"] /\
      run.2 !! od_file_name Sample.two_days "miv" 1 "b"
      = Some (File ("$OM;D2" +:+ NL +:+ "*vehicle type" +:+ NL +:+ "5" +:+ NL +:+
                    "*from-time to-time" +:+ NL +:+ "18.00" +:+ TAB +:+ "12.00" +:+ NL +:+
                    "*factor" +:+ NL +:+ "0.43" +:+ NL +:+ NL +:+
                    TAB +:+ " 1 " +:+ TAB +:+ " 2 " +:+ TAB +:+ " 1800" +:+ NL))).
Proof.
  split; [vm_compute; repeat split; first [discriminate | reflexivity]|].
  apply (od_window_wraps Sample.read_csv
           (_path_to_traffic Sample.two_days // "odm_miv.csv")
           (od_file_name Sample.two_days "miv" 1 "b") (lit2 15) 5
           (base_start_time Sample.today + Time.seconds (18 * 3600))
           (Pd.seconds (18 * 3600)) (Sample.files Sample.two_days)
           ("from;to;num" +:+ NL +:+ "1;2;100" +:+ NL)
           [{| od_from := "1"; od_to := "2"; od_num := 100 |}] [1800]).
  - vm_compute. reflexivity.
  - vm_compute. reflexivity.
  - vm_compute. reflexivity.
  - repeat constructor.
  - vm_compute. discriminate.
  - vm_compute. reflexivity.
Defined.


(** ** The further properties at concrete inputs *)

Lemma prepare_sumo_frame_witness :
  let fs := Sample.files Sample.two_hours in
  let p := _path_to_traffic Sample.two_hours // "odm_miv.csv" in
  let run := prepare_sumo Sample.today Sample.float_str Sample.read_csv
                          Sample.os_system_failing Sample.two_hours fs in
  plain_name (sim_id Sample.two_hours) = true /\
  (resolved (_path_to_simulation Sample.two_hours) = true -> resolved p = true ->
   ~ False -> ~ written_by_prepare_sumo Sample.two_hours p -> run.2 !! p = fs !! p) /\
  (plain_name (_traffic Sample.two_hours) = true -> plain_name (_net Sample.two_hours) = true ->
   ~ False -> input_of_prepare_sumo Sample.two_hours p -> run.2 !! p = fs !! p).
Proof.
  split; [reflexivity|].
  apply (prepare_sumo_frame Sample.today Sample.float_str Sample.read_csv
           Sample.os_system_failing Sample.two_hours (fun _ => False)).
  - intros cmd fs p _. reflexivity.
  - reflexivity.
Defined.

Lemma prepare_sumo_any_day_witness :
  prepare_sumo (Sample.today + 1) Sample.float_str Sample.read_csv
               Sample.os_system_failing Sample.two_hours (Sample.files Sample.two_hours)
  = prepare_sumo Sample.today Sample.float_str Sample.read_csv
                 Sample.os_system_failing Sample.two_hours (Sample.files Sample.two_hours).
Proof.
  apply (prepare_sumo_any_day Sample.today (Sample.today + 1)).
  - vm_compute. discriminate.
  - vm_compute. discriminate.
  - split; [vm_compute; reflexivity | left; split; vm_compute; reflexivity].
  - vm_compute. discriminate.
  - split; [vm_compute; reflexivity | left; split; vm_compute; reflexivity].
Defined.

Lemma clean_lookup_witness :
  let self := Sample.two_hours in
  let fs := Sample.files self in
  let p := _path_to_routes self // "s1_trip_miv.odtrips.xml" in
  (plain_name (sim_id self) = true /\ resolved (_path_to_simulation self) = true /\
   resolved p = true) /\
  clean self fs !! p
  = if existsb (fun o => removed_with fs o p) (objects_2_delete self)
    then None else fs !! p.
Proof.
  split; [repeat split; reflexivity|].
  apply (clean_lookup Sample.two_hours (Sample.files Sample.two_hours)
           (_path_to_routes Sample.two_hours // "s1_trip_miv.odtrips.xml")).
  - reflexivity.
  - reflexivity.
  - reflexivity.
Defined.

Lemma clean_undoes_prepare_sumo_witness :
  clean Sample.two_hours
        (prepare_sumo Sample.today Sample.float_str Sample.read_csv
                      Sample.os_system_failing Sample.two_hours
                      (Sample.files Sample.two_hours)).2
  = clean Sample.two_hours (Sample.files Sample.two_hours).
Proof.
  apply (clean_undoes_prepare_sumo Sample.today Sample.float_str Sample.read_csv
           Sample.os_system_failing Sample.two_hours).
  - intros cmd fs p _. reflexivity.
  - reflexivity.
  - vm_compute. reflexivity.
Defined.

Lemma customize_vtype_file_default_tau_witness :
  let self := {| sim_id := "s5"; _net := "net.net.xml"; _traffic := "A9";
                 _obstruction := false; _duration := Pd.seconds 3600;
                 _qsv_sequence := ["a"%char]; _v2x_rate := Float.dec 25 2;
                 _tau := Float.of_Z 1; _num_repeat := 1; _use_tls := true;
                 _path_to_simulation := [".."; "dave"];
                 path_to_results := [".."; "results"] |} in
  let fs := <[_path_to_vtypes_ref self := File Sample.crlf_template]> (Sample.files self) in
  (plain_name (sim_id self) = true /\ Sample.float_str (_tau self) = "1.0") /\
  customize_vtype_file Sample.float_str (_path_to_vtypes_ref self) (_path_to_vtypes self)
                       (_tau self) fs
  = (Ok tt, <[_path_to_vtypes self :=
                File (Text.universal_newlines Sample.crlf_template)]> fs) /\
  (no_cr Sample.crlf_template = true ->
   customize_vtype_file Sample.float_str (_path_to_vtypes_ref self) (_path_to_vtypes self)
                        (_tau self) fs
   = (Ok tt, <[_path_to_vtypes self := File Sample.crlf_template]> fs)).
Proof.
  intros self fs. split; [split; [reflexivity | vm_compute; reflexivity]|].
  apply (customize_vtype_file_default_tau Sample.float_str self fs Sample.crlf_template).
  - reflexivity.
  - vm_compute. reflexivity.
  - vm_compute. reflexivity.
  - vm_compute. reflexivity.
  - vm_compute. discriminate.
Defined.

Lemma od_count_whole_hours_witness :
  od_count 100 (time_factor (Pd.seconds (3600 * 2))) = Ok (100 * 2).
Proof.
  apply (od_count_whole_hours 100 2).
  - lia.
  - lia.
  - vm_compute. reflexivity.
  - vm_compute. reflexivity.
Defined.

Lemma sample_is_ready : ready Sample.read_csv Sample.two_hours (Sample.files Sample.two_hours).
Proof.
  unfold ready. repeat split.
  - exists Sample.vtypes_template. vm_compute. reflexivity.
  - intros key vtype Hkey. simpl in Hkey.
    destruct Hkey as [Hkey | [Hkey | []]]; injection Hkey as <- <-.
    + exists ("from;to;num" +:+ NL +:+ "1;2;100" +:+ NL),
        [{| od_from := "1"; od_to := "2"; od_num := 100 |}].
      split; [vm_compute; reflexivity|]. split; [vm_compute; reflexivity|].
      constructor; [vm_compute; split; [discriminate | reflexivity] | constructor].
    + exists ("from;to;num" +:+ NL +:+ "1;2;7" +:+ NL),
        [{| od_from := "1"; od_to := "2"; od_num := 7 |}].
      split; [vm_compute; reflexivity|]. split; [vm_compute; reflexivity|].
      constructor; [vm_compute; split; [discriminate | reflexivity] | constructor].
  - discriminate.
  - intros p [-> | [-> | [(key & vtype & idx & qsv & Hkey & Hidx & ->) | ->]]];
      try (vm_compute; discriminate).
    simpl in Hkey. destruct Hkey as [Hkey | [Hkey | []]]; injection Hkey as <- <-;
      destruct idx as [|[|idx]]; simpl in Hidx; try discriminate Hidx;
      injection Hidx as <-; vm_compute; discriminate.
Defined.

Lemma prepare_sumo_succeeds_witness :
  let run := prepare_sumo Sample.today Sample.float_str Sample.read_csv
                          Sample.os_system_failing Sample.two_hours
                          (Sample.files Sample.two_hours) in
  run.1 = Ok tt /\ ready Sample.read_csv Sample.two_hours run.2 /\
  exists text, run.2 !! _path_to_sumo_config_file Sample.two_hours = Some (File text).
Proof.
  apply (prepare_sumo_succeeds Sample.today Sample.float_str Sample.read_csv
           Sample.os_system_failing Sample.two_hours).
  - intros cmd fs p _. reflexivity.
  - intros cmd fs p H. exact H.
  - repeat constructor; eexists; vm_compute; reflexivity.
  - vm_compute. split; [discriminate | reflexivity].
  - vm_compute. reflexivity.
  - vm_compute. discriminate.
  - vm_compute. reflexivity.
  - reflexivity.
  - reflexivity.
  - reflexivity.
  - exact sample_is_ready.
Defined.

Lemma od_file_name_inj_witness :
  In ("miv", 5) dict_traffic_types /\
  od_file_name Sample.two_hours "miv" 1 "b" = od_file_name Sample.two_hours "miv" 1 "b" /\
  ("miv" = "miv" /\ 1%nat = 1%nat /\ "b"%char = "b"%char).
Proof.
  split; [simpl; auto|]. split; [reflexivity|].
  apply (od_file_name_inj Sample.two_hours "miv" "miv" 5 5 1 1 "b" "b").
  - simpl. auto.
  - simpl. auto.
  - reflexivity.
Defined.

Lemma rel_to_sumo_resolves_witness :
  rel_to_sumo (_path_to_sumo Sample.two_hours) (_path_to_net_file Sample.two_hours) ∅
  = (Ok [".."; "net"; "net.net.xml"], ∅) /\
  normpath ((_path_to_sumo Sample.two_hours // "config") ++ [".."; "net"; "net.net.xml"])
  = normpath (_path_to_net_file Sample.two_hours).
Proof.
  apply (rel_to_sumo_resolves (_path_to_sumo Sample.two_hours)
           (_path_to_net_file Sample.two_hours) ["net"; "net.net.xml"] "config" ∅).
  - discriminate.
  - reflexivity.
Defined.

Lemma sumo_config_time_window_witness :
  let self := Sample.two_hours in
  let run :=
    create_sumo_config_file Sample.float_str
      (_path_to_sumo self) (_path_to_net_file self) [] _start_time (Pd.seconds 7200)
      _sumo_step_length _sumo_action_step_length _sumo_max_depart_delay
      _sumo_fcd_output_interval (_use_tls self)
      (_path_to_sumo_config_file self) (_path_to_fcd_output_file self)
      (_path_to_additional_file self) (_path_to_taz_file self)
      (_path_to_vtypes self) (_path_to_gui_view_file self) (_path_to_poly_file self)
      (Sample.files self) in
  exists text,
    run.2 !! _path_to_sumo_config_file self = Some (File text) /\
    Text.contains (value_line "begin" "0") text = true /\
    Text.contains (value_line "end" (Text.str_Z 7200)) text = true.
Proof.
  intros self run.
  apply (sumo_config_time_window Sample.float_str
           (_path_to_sumo self) (_path_to_net_file self) [] 7200
           _sumo_step_length _sumo_action_step_length _sumo_max_depart_delay
           _sumo_fcd_output_interval (_use_tls self)
           (_path_to_sumo_config_file self) (_path_to_fcd_output_file self)
           (_path_to_additional_file self) (_path_to_taz_file self)
           (_path_to_vtypes self) (_path_to_gui_view_file self) (_path_to_poly_file self)
           (Sample.files self) run.2).
  - vm_compute. split; [discriminate | reflexivity].
  - assert (Hok : run.1 = Ok tt) by (vm_compute; reflexivity).
    rewrite <- Hok. apply surjective_pairing.
Defined.
